(** * jsonmodels: the field engine of [jsonmodels/fields.py]

    A shallow embedding of the field descriptors of jsonmodels (storage,
    the parse / validate / store pipeline, lazy type references and the
    disambiguation of embedded models), and the properties of it that the
    specification states.

    Python objects are first-order data here: a value is a constructor of
    [value], an exception a constructor of [exn], a call that may raise
    returns a [result].  The descriptor's attributes are the fields of the
    record [field]; a method that assigns to [self] returns the new
    descriptor next to its outcome. *)

From Stdlib Require Import ZArith Ascii String List Bool Lia.
From stdpp Require Import base option list strings gmap.

Import ListNotations.
Local Open Scope Z_scope.

Set Default Proof Using "Type".
#[local] Set Warnings "-register-all".

(** ** Python objects *)

(** A float: not-a-number, an infinity, or the dyadic number [m * 2^e]. *)
Inductive pyfloat :=
| FNan
| FInf (negative : bool)
| FFinite (m e : Z).

Record pydate := Date { year : Z; month : Z; day : Z }.

(** [utcoffset] is the offset of an aware time in minutes. *)
Record pytime := Time {
  hour : Z; minute : Z; second : Z; microsecond : Z;
  utcoffset : option Z }.

Record pydatetime := DateTime { dt_date : pydate; dt_time : pytime }.

(** Modelled from the spec: the model base class of [jsonmodels.models],
    which "exposes an ordered, queryable field registry of (attribute
    name, optional wire-name override, field) triples".  A model class is,
    as far as the fields see it, the module it is declared in, its name,
    and what [iterate_with_name] yields, the pairs (attribute name,
    explicit name) of its fields.  Two classes are the same class when
    these agree. *)
Record model_class := ModelClass {
  cls_module : string;
  cls_name : string;
  cls_fields : list (string * option string) }.

#[global] Instance model_class_eq_dec : EqDecision model_class.
Proof. solve_decision. Defined.

(** The classes that values have. *)
Inductive pyclass :=
| object_ | NoneType | bool_ | int_ | float_ | str_
| list_ | tuple_ | dict_
| time_ | date_ | datetime_
| ModelCollection_
| Model (c : model_class).

(** What a [types] or [items_types] tuple holds: a class, a [_LazyType]
    placeholder that still carries its path, or the builtin function [any]
    (the only member of [GenericField.types]), which is not a class. *)
Inductive type_entry :=
| Class (c : pyclass)
| LazyType (path : string)
| builtin_any.

Inductive value :=
| VNone
| VBool (b : bool)
| VInt (z : Z)
| VFloat (f : pyfloat)
| VStr (s : string)
| VTime (t : pytime)
| VDate (d : pydate)
| VDateTime (dt : pydatetime)
| VList (xs : list value)
| VTuple (xs : list value)
| VDict (items : list (value * value))
| VCollection (xs : list value)
| VInstance (c : model_class) (kwargs : list (value * value)).

(** [VCollection] is a [ModelCollection], the list subclass that
    [ListField.get_default_value] returns; [VInstance] is a model instance,
    known by its class and the keyword arguments it was built from.

    A [VStr s] is the [str] whose code points are the characters of [s],
    one character each: the strings of this development are the strings
    of code points below 256, and [nat_of_ascii] is [ord].  So the length
    of [s] is [len] of the string, and what Python decides by the Unicode
    class of a character ([int], the pattern of names) is decided here by
    the class of the code point. *)

(** Exceptions.  Modelled from the spec: the error types of
    [jsonmodels.errors], "RequiredFieldError (no operands needed beyond
    context), BadTypeError(value, accepted_types, is_list_context),
    AmbiguousTypeError(candidate_types)", and [ValidationError], their
    base class, for what a validator raises.  The others are the builtin
    exceptions that reach the caller of a field. *)
Inductive exn :=
| RequiredFieldError
| BadTypeError (v : value) (types : option (list type_entry)) (is_list : bool)
| AmbiguousTypeError (types : list type_entry)
| ValidationError (msg : string)
| ValueError (msg : string)
| TypeError
| IndexError
| KeyError
| AttributeError
| OverflowError
| ImportError.

Inductive result (A : Type) :=
| Ok (a : A)
| Raise (e : exn).
Arguments Ok {A} a.
Arguments Raise {A} e.

Definition bind {A B} (c : result A) (k : A -> result B) : result B :=
  match c with
  | Ok a => k a
  | Raise e => Raise e
  end.

Notation "'let!' x ':=' c 'in' k" := (bind c (fun x => k))
  (at level 10, x name, c at level 100, k at level 200).
Notation "'let!' ' p ':=' c 'in' k" := (bind c (fun x => let 'p := x in k))
  (at level 10, p strict pattern, c at level 100, k at level 200).
Notation "'do!' c 'in' k" := (bind c (fun _ => k))
  (at level 10, c at level 100, k at level 200).

Section Traversals.
Context {A B : Type}.

(** A list comprehension whose body may raise. *)
Definition mapM (f : A -> result B) : list A -> result (list B) :=
  fix go xs :=
    match xs with
    | [] => Ok []
    | x :: xs' => let! y := f x in let! ys := go xs' in Ok (y :: ys)
    end.

(** A [for] loop whose body may raise. *)
Definition forM (f : A -> result unit) : list A -> result unit :=
  fix go xs :=
    match xs with
    | [] => Ok tt
    | x :: xs' => do! f x in go xs'
    end.

Definition all2 (f : A -> B -> bool) : list A -> list B -> bool :=
  fix go xs ys :=
    match xs, ys with
    | [], [] => true
    | x :: xs', y :: ys' => f x y && go xs' ys'
    | _, _ => false
    end.
End Traversals.

(** ** Builtins *)

Definition type_ (v : value) : pyclass :=
  match v with
  | VNone => NoneType
  | VBool _ => bool_
  | VInt _ => int_
  | VFloat _ => float_
  | VStr _ => str_
  | VTime _ => time_
  | VDate _ => date_
  | VDateTime _ => datetime_
  | VList _ => list_
  | VTuple _ => tuple_
  | VDict _ => dict_
  | VCollection _ => ModelCollection_
  | VInstance c _ => Model c
  end.

Definition model_class_eqb (a b : model_class) : bool := bool_decide (a = b).

Definition pyclass_eqb (a b : pyclass) : bool :=
  match a, b with
  | object_, object_ | NoneType, NoneType | bool_, bool_ | int_, int_
  | float_, float_ | str_, str_ | list_, list_ | tuple_, tuple_
  | dict_, dict_ | time_, time_ | date_, date_ | datetime_, datetime_
  | ModelCollection_, ModelCollection_ => true
  | Model c, Model d => model_class_eqb c d
  | _, _ => false
  end.

(** [bool] derives from [int], [datetime] from [date], [ModelCollection]
    from [list], and everything from [object]. *)
Definition issubclass (a b : pyclass) : bool :=
  pyclass_eqb a b ||
  match a, b with
  | _, object_ => true
  | bool_, int_ => true
  | datetime_, date_ => true
  | ModelCollection_, list_ => true
  | _, _ => false
  end.

(** [isinstance(v, types)] for a tuple: the entries are tried in order, the
    first class that fits answers [True], an entry that is not a class
    raises [TypeError]. *)
Fixpoint isinstance (v : value) (types : list type_entry) : result bool :=
  match types with
  | [] => Ok false
  | Class c :: rest =>
      if issubclass (type_ v) c then Ok true else isinstance v rest
  | _ :: _ => Raise TypeError
  end.

Definition is_None (v : value) : bool :=
  match v with VNone => true | _ => false end.

Definition is_dict (v : value) : bool :=
  match v with VDict _ => true | _ => false end.

Definition float_is_zero (f : pyfloat) : bool :=
  match f with FFinite m _ => m =? 0 | _ => false end.

(** Truth value of an object ([if v], [not v], [bool(v)]). *)
Definition truthy (v : value) : bool :=
  match v with
  | VNone => false
  | VBool b => b
  | VInt z => negb (z =? 0)
  | VFloat f => negb (float_is_zero f)
  | VStr s => negb (String.eqb s EmptyString)
  | VList xs | VTuple xs | VCollection xs => negb (Nat.eqb (length xs) 0)
  | VDict items => negb (Nat.eqb (length items) 0)
  | VTime _ | VDate _ | VDateTime _ | VInstance _ _ => true
  end.

Fixpoint chars (s : string) : list string :=
  match s with
  | EmptyString => []
  | String c s' => String c EmptyString :: chars s'
  end.

(** [for x in v]: what iteration over [v] yields. *)
Definition iter (v : value) : result (list value) :=
  match v with
  | VList xs | VTuple xs | VCollection xs => Ok xs
  | VDict items => Ok (map fst items)
  | VStr s => Ok (map VStr (chars s))
  | _ => Raise TypeError
  end.

(** [v.items()] *)
Definition items (v : value) : result (list (value * value)) :=
  match v with
  | VDict its => Ok its
  | _ => Raise AttributeError
  end.

(** *** Equality ([==]) *)

Inductive number :=
| NInt (z : Z)
| NFloat (f : pyfloat).

Definition number_of (v : value) : option number :=
  match v with
  | VBool b => Some (NInt (Z.b2z b))
  | VInt z => Some (NInt z)
  | VFloat f => Some (NFloat f)
  | _ => None
  end.

Definition float_eq (a b : pyfloat) : bool :=
  match a, b with
  | FFinite m e, FFinite m' e' =>
      let k := Z.min e e' in m * 2 ^ (e - k) =? m' * 2 ^ (e' - k)
  | FInf s, FInf s' => Bool.eqb s s'
  | _, _ => false
  end.

Definition number_eq (a b : number) : bool :=
  match a, b with
  | NInt x, NInt y => x =? y
  | NInt x, NFloat f => float_eq (FFinite x 0) f
  | NFloat f, NInt y => float_eq f (FFinite y 0)
  | NFloat f, NFloat g => float_eq f g
  end.

Definition date_eq (a b : pydate) : bool :=
  (year a =? year b) && (month a =? month b) && (day a =? day b).

Definition clock_eq (a b : pytime) : bool :=
  (hour a =? hour b) && (minute a =? minute b) &&
  (second a =? second b) && (microsecond a =? microsecond b).

(** Naive times compare by their fields, aware ones by the instant they
    denote, and a naive time never equals an aware one. *)
Definition time_eq (a b : pytime) : bool :=
  match utcoffset a, utcoffset b with
  | None, None => clock_eq a b
  | Some oa, Some ob =>
      if oa =? ob then clock_eq a b
      else ((hour a * 60 + minute a - oa) * 60 + second a =?
            (hour b * 60 + minute b - ob) * 60 + second b) &&
           (microsecond a =? microsecond b)
  | _, _ => false
  end.

(** Days since 1970-01-01 of a date of the proleptic Gregorian calendar. *)
Definition ordinal (d : pydate) : Z :=
  let y := if month d <=? 2 then year d - 1 else year d in
  let era := y / 400 in
  let yoe := y - era * 400 in
  let mp := if 2 <? month d then month d - 3 else month d + 9 in
  let doy := (153 * mp + 2) / 5 + day d - 1 in
  let doe := yoe * 365 + yoe / 4 - yoe / 100 + doy in
  era * 146097 + doe - 719468.

Definition datetime_eq (a b : pydatetime) : bool :=
  match utcoffset (dt_time a), utcoffset (dt_time b) with
  | None, None => date_eq (dt_date a) (dt_date b) && clock_eq (dt_time a) (dt_time b)
  | Some oa, Some ob =>
      if oa =? ob
      then date_eq (dt_date a) (dt_date b) && clock_eq (dt_time a) (dt_time b)
      else let instant (x : pydatetime) (o : Z) :=
             ((ordinal (dt_date x) * 24 + hour (dt_time x)) * 60
              + minute (dt_time x) - o) * 60 + second (dt_time x) in
           (instant a oa =? instant b ob) &&
           (microsecond (dt_time a) =? microsecond (dt_time b))
  | _, _ => false
  end.

(** [a == b].  Numbers compare by value across [bool], [int] and [float];
    a [date] never equals a [datetime]; sequences compare element by
    element, a [ModelCollection] being a list; mappings compare without
    regard to order; instances compare by class and contents. *)
Fixpoint py_eq (a b : value) {struct a} : bool :=
  match a with
  | VNone => is_None b
  | VBool x =>
      match number_of b with Some n => number_eq (NInt (Z.b2z x)) n | None => false end
  | VInt x =>
      match number_of b with Some n => number_eq (NInt x) n | None => false end
  | VFloat f =>
      match number_of b with Some n => number_eq (NFloat f) n | None => false end
  | VStr s => match b with VStr s' => String.eqb s s' | _ => false end
  | VTime t => match b with VTime t' => time_eq t t' | _ => false end
  | VDate d => match b with VDate d' => date_eq d d' | _ => false end
  | VDateTime dt => match b with VDateTime dt' => datetime_eq dt dt' | _ => false end
  | VList xs | VCollection xs =>
      match b with
      | VList ys | VCollection ys => all2 py_eq xs ys
      | _ => false
      end
  | VTuple xs => match b with VTuple ys => all2 py_eq xs ys | _ => false end
  | VDict its =>
      match b with
      | VDict its' =>
          Nat.eqb (length its) (length its') &&
          forallb (fun kv => let '(k, v) := kv in
                     existsb (fun kv' => let '(k', v') := kv' in
                                py_eq k k' && py_eq v v') its') its
      | _ => false
      end
  | VInstance c kw =>
      match b with
      | VInstance c' kw' =>
          model_class_eqb c c' &&
          all2 (fun kv kv' => let '(k, v) := kv in let '(k', v') := kv' in
                  py_eq k k' && py_eq v v') kw kw'
      | _ => false
      end
  end.

(** *** [int(v)] *)

Definition ascii_in (lo hi : nat) (c : ascii) : bool :=
  (lo <=? nat_of_ascii c)%nat && (nat_of_ascii c <=? hi)%nat.

Definition is_digit (c : ascii) : bool := ascii_in 48 57 c.

(** What [int] takes for a blank around the literal: the six blanks of
    ASCII (tab to carriage return, and the space) and, of the code points
    from 128 on, the two that are Unicode whitespace, next line (133) and
    no-break space (160).  The separators 28 to 31 are not among them. *)
Definition is_space (c : ascii) : bool :=
  ascii_in 9 13 c || ascii_in 32 32 c || ascii_in 133 133 c || ascii_in 160 160 c.

Definition digit_value (c : ascii) : Z := Z.of_nat (nat_of_ascii c) - 48.

Fixpoint lstrip_spaces (s : string) : string :=
  match s with
  | String c s' => if is_space c then lstrip_spaces s' else s
  | EmptyString => EmptyString
  end.

Fixpoint rstrip_spaces (s : string) : string :=
  match s with
  | String c s' =>
      let r := rstrip_spaces s' in
      if is_space c && String.eqb r EmptyString then EmptyString else String c r
  | EmptyString => EmptyString
  end.

(** The most digits that [int] reads from a string: the default of
    [sys.int_max_str_digits] in CPython 3.11. *)
Definition int_max_str_digits : Z := 4300.

(** Decimal digits, single underscores allowed between two digits; the
    digits are counted, the zeros in front among them, and a literal of
    more than [int_max_str_digits] digits is refused.  Below 256 the
    decimal digits of Unicode are those of ASCII. *)
Fixpoint digits (acc count : Z) (after_digit : bool) (s : string) : option Z :=
  match s with
  | EmptyString =>
      if after_digit && (count <=? int_max_str_digits) then Some acc else None
  | String c s' =>
      if is_digit c then digits (acc * 10 + digit_value c) (count + 1) true s'
      else if Ascii.eqb c "_"%char && after_digit then digits acc count false s'
      else None
  end.

Definition int_of_string (s : string) : option Z :=
  match rstrip_spaces (lstrip_spaces s) with
  | String "+"%char s' => digits 0 0 false s'
  | String "-"%char s' => option_map Z.opp (digits 0 0 false s')
  | s' => digits 0 0 false s'
  end.

(** [int(v)]: numbers are truncated towards zero, a string is read as a
    decimal literal, anything else is a [TypeError]. *)
Definition int (v : value) : result value :=
  match v with
  | VBool b => Ok (VInt (Z.b2z b))
  | VInt z => Ok (VInt z)
  | VFloat FNan => Raise (ValueError "cannot convert float NaN to integer")
  | VFloat (FInf _) => Raise OverflowError
  | VFloat (FFinite m e) =>
      Ok (VInt (if 0 <=? e then m * 2 ^ e else Z.quot m (2 ^ (- e))))
  | VStr s =>
      match int_of_string s with
      | Some z => Ok (VInt z)
      | None => Raise (ValueError "invalid literal for int() with base 10")
      end
  | _ => Raise TypeError
  end.

(** *** Strings and slices *)

Fixpoint lstrip (c : ascii) (s : string) : string :=
  match s with
  | String d s' => if Ascii.eqb d c then lstrip c s' else s
  | EmptyString => EmptyString
  end.

Definition startswith (c : ascii) (s : string) : bool :=
  match s with
  | String d _ => Ascii.eqb d c
  | EmptyString => false
  end.

Fixpoint split (sep : ascii) (s : string) : list string :=
  match s with
  | EmptyString => [EmptyString]
  | String c s' =>
      if Ascii.eqb c sep then EmptyString :: split sep s'
      else match split sep s' with
           | w :: ws => String c w :: ws
           | [] => [String c EmptyString]
           end
  end.

Fixpoint join (sep : string) (ws : list string) : string :=
  match ws with
  | [] => EmptyString
  | [w] => w
  | w :: ws' => w +:+ sep +:+ join sep ws'
  end.

(** [l[:stop]]: a negative [stop] counts from the end, and [l[:0]] is empty. *)
Definition slice_to {A} (l : list A) (stop : Z) : list A :=
  if stop <? 0 then firstn (Z.to_nat (Z.of_nat (length l) + stop)) l
  else firstn (Z.to_nat stop) l.

(** [l.pop()]: the last element, and what is left. *)
Definition pop {A} (l : list A) : result (A * list A) :=
  match rev l with
  | [] => Raise IndexError
  | x :: r => Ok (x, rev r)
  end.

(** ** Lazy type references *)

Definition _get_modules (relative_path base_module : string) : result (list string) :=
  let canonical_path := lstrip "."%char relative_path in
  let canonical_modules := split "."%char canonical_path in
  if negb (startswith "."%char relative_path) then Ok canonical_modules
  else
    let parents_amount :=
      Z.of_nat (String.length relative_path) - Z.of_nat (String.length canonical_path) in
    let parent_modules := split "."%char base_module in
    let parents_amount := Z.max 0 (parents_amount - 1) in
    if Z.of_nat (length parent_modules) <? parents_amount
    then Raise (ValueError ("Can't evaluate path '" +:+ relative_path +:+ "'"))
    else Ok (slice_to parent_modules (parents_amount * -1) ++ canonical_modules).

Definition _evaluate_path (relative_path : string) (base_cls : model_class)
  : result (string * string) :=
  let base_module := cls_module base_cls in
  let! modules := _get_modules relative_path base_module in
  let! '(type_name, modules) := pop modules in
  let module := join "." modules in
  let module := if String.eqb module EmptyString then base_module else module in
  Ok (module, type_name).

(** ** What the fields call and this file does not define

    The model base class, [dateutil], the module table of the interpreter
    and the formatting methods of [datetime] are not part of
    [jsonmodels/fields.py].  The fields reach them through a [runtime],
    whose calls return or raise and leave the descriptor as it is. *)
Record runtime := Runtime {
  (** [__import__(module_name, fromlist=[type_name])]: the attributes of
      the module, or nothing when the import fails *)
  rt_import : string -> option (string -> option pyclass);
  (** a class called with the items of a mapping as keyword arguments *)
  rt_construct : pyclass -> list (value * value) -> result value;
  (** [instance.validate()] and [instance.to_struct()] of a model *)
  rt_validate : model_class -> list (value * value) -> result unit;
  rt_to_struct : model_class -> list (value * value) -> result value;
  (** [dateutil.parser.parse] *)
  rt_parse : value -> result pydatetime;
  (** [isoformat()] and [strftime(format)] of times, dates and datetimes *)
  rt_time_isoformat : pytime -> string;
  rt_time_strftime : pytime -> string -> string;
  rt_date_isoformat : pydate -> string;
  rt_date_strftime : pydate -> string -> string;
  rt_datetime_isoformat : pydatetime -> string;
  rt_datetime_strftime : pydatetime -> string -> string }.

(** ** Validators

    A validator is an object with a [validate] method, or a callable, or
    both. *)
Record validator := Validator {
  validate_method : option (value -> result unit);
  call_method : option (value -> result unit) }.

Definition call_validator (w : validator) (v : value) : result unit :=
  match call_method w with
  | Some f => f v
  | None => Raise TypeError
  end.

(** [try: validator.validate(value) except AttributeError: validator(value)] *)
Definition run_validator (w : validator) (v : value) : result unit :=
  match validate_method w with
  | Some m =>
      match m v with
      | Raise AttributeError => call_validator w v
      | r => r
      end
  | None => call_validator w v
  end.

(** ** Field descriptors *)

Inductive field_class :=
| BaseField | StringField | IntField | FloatField | BoolField
| ListField | DerivedListField | EmbeddedField | MapField
| TimeField | DateField | DateTimeField | GenericField.

(** The [NotSet] marker and a configured default. *)
Inductive default :=
| NotSet
| Default (v : value).

(** A descriptor: its class and its attributes.  The attributes of the
    subclasses are there for every class and stay as [blank] leaves them
    where the class does not assign them; a sub-field that is [None] is an
    attribute that was not assigned yet. *)
Inductive field := Field {
  cls : field_class;
  memory : gmap positive value;
  required : bool;
  help_text : option string;
  nullable : bool;
  validators : list validator;
  name : option string;
  _default : default;
  embedded_types : list type_entry;
  items_types : list type_entry;
  item_validators : list validator;
  _omit_empty : bool;
  str_format : option string;
  _field : option field;
  _key_field : option field;
  _value_field : option field }.

Definition blank (c : field_class) : field :=
  Field c ∅ false None false [] None NotSet [] [] [] false None None None None.

Definition set_memory (m : gmap positive value) (f : field) : field :=
  let 'Field c _ r h n vs nm d et it iv oe sf fl kf vf := f in
  Field c m r h n vs nm d et it iv oe sf fl kf vf.
Definition set_required (r : bool) (f : field) : field :=
  let 'Field c m _ h n vs nm d et it iv oe sf fl kf vf := f in
  Field c m r h n vs nm d et it iv oe sf fl kf vf.
Definition set_help_text (h : option string) (f : field) : field :=
  let 'Field c m r _ n vs nm d et it iv oe sf fl kf vf := f in
  Field c m r h n vs nm d et it iv oe sf fl kf vf.
Definition set_nullable (n : bool) (f : field) : field :=
  let 'Field c m r h _ vs nm d et it iv oe sf fl kf vf := f in
  Field c m r h n vs nm d et it iv oe sf fl kf vf.
Definition set_validators (vs : list validator) (f : field) : field :=
  let 'Field c m r h n _ nm d et it iv oe sf fl kf vf := f in
  Field c m r h n vs nm d et it iv oe sf fl kf vf.
Definition set_name (nm : option string) (f : field) : field :=
  let 'Field c m r h n vs _ d et it iv oe sf fl kf vf := f in
  Field c m r h n vs nm d et it iv oe sf fl kf vf.
Definition set_default (d : default) (f : field) : field :=
  let 'Field c m r h n vs nm _ et it iv oe sf fl kf vf := f in
  Field c m r h n vs nm d et it iv oe sf fl kf vf.
Definition set_embedded_types (et : list type_entry) (f : field) : field :=
  let 'Field c m r h n vs nm d _ it iv oe sf fl kf vf := f in
  Field c m r h n vs nm d et it iv oe sf fl kf vf.
Definition set_items_types (it : list type_entry) (f : field) : field :=
  let 'Field c m r h n vs nm d et _ iv oe sf fl kf vf := f in
  Field c m r h n vs nm d et it iv oe sf fl kf vf.
Definition set_item_validators (iv : list validator) (f : field) : field :=
  let 'Field c m r h n vs nm d et it _ oe sf fl kf vf := f in
  Field c m r h n vs nm d et it iv oe sf fl kf vf.
Definition set_omit_empty (oe : bool) (f : field) : field :=
  let 'Field c m r h n vs nm d et it iv _ sf fl kf vf := f in
  Field c m r h n vs nm d et it iv oe sf fl kf vf.
Definition set_str_format (sf : option string) (f : field) : field :=
  let 'Field c m r h n vs nm d et it iv oe _ fl kf vf := f in
  Field c m r h n vs nm d et it iv oe sf fl kf vf.
Definition set_field (fl : option field) (f : field) : field :=
  let 'Field c m r h n vs nm d et it iv oe sf _ kf vf := f in
  Field c m r h n vs nm d et it iv oe sf fl kf vf.
Definition set_key_field (kf : option field) (f : field) : field :=
  let 'Field c m r h n vs nm d et it iv oe sf fl _ vf := f in
  Field c m r h n vs nm d et it iv oe sf fl kf vf.
Definition set_value_field (vf : option field) (f : field) : field :=
  let 'Field c m r h n vs nm d et it iv oe sf fl kf _ := f in
  Field c m r h n vs nm d et it iv oe sf fl kf vf.

(** [type(self).__name__] *)
Definition class_name (c : field_class) : string :=
  match c with
  | BaseField => "BaseField" | StringField => "StringField"
  | IntField => "IntField" | FloatField => "FloatField"
  | BoolField => "BoolField" | ListField => "ListField"
  | DerivedListField => "DerivedListField"
  | EmbeddedField => "EmbeddedField" | MapField => "MapField"
  | TimeField => "TimeField" | DateField => "DateField"
  | DateTimeField => "DateTimeField" | GenericField => "GenericField"
  end.

(** [self.types]: the class attribute, or for an embedded field the
    attribute that [_assign_model_types] assigns. *)
Definition types (self : field) : option (list type_entry) :=
  match cls self with
  | BaseField => None
  | StringField => Some [Class str_]
  | IntField => Some [Class int_]
  | FloatField => Some [Class float_; Class int_]
  | BoolField => Some [Class bool_]
  | ListField | DerivedListField => Some [Class list_; Class tuple_]
  | EmbeddedField => Some (embedded_types self)
  | MapField => Some [Class dict_]
  | TimeField => Some [Class time_]
  | DateField => Some [Class date_]
  | DateTimeField => Some [Class datetime_]
  | GenericField => Some [builtin_any]
  end.

(** ** [BaseField] *)

Definition has_default (self : field) : bool :=
  match _default self with
  | NotSet => false
  | Default _ => true
  end.

Definition dquote : string := String (ascii_of_nat 34) EmptyString.

Definition _check_types (self : field) : result unit :=
  match types self with
  | None =>
      Raise (ValueError ("Field " +:+ dquote +:+ class_name (cls self) +:+ dquote
                         +:+ " is not usable, try different field type."))
  | Some _ => Ok tt
  end.

(** [isinstance(value, self.types)]; [isinstance(value, None)] is a
    [TypeError]. *)
Definition isinstance_types (self : field) (v : value) : result bool :=
  match types self with
  | Some ts => isinstance v ts
  | None => Raise TypeError
  end.

(** [GenericField] overrides this check with [pass]. *)
Definition _validate_against_types (self : field) (v : value) : result unit :=
  match cls self with
  | GenericField => Ok tt
  | _ =>
      if negb (is_None v) then
        let! ok := isinstance_types self v in
        if negb ok then Raise (BadTypeError v (types self) false) else Ok tt
      else Ok tt
  end.

Definition _check_against_required (self : field) (v : value) : result unit :=
  if is_None v && required self then Raise RequiredFieldError else Ok tt.

Definition _validate_with_custom_validators (self : field) (v : value) : result unit :=
  if is_None v && nullable self then Ok tt
  else forM (fun validator => run_validator validator v) (validators self).

Definition BaseField_validate (self : field) (v : value) : result unit :=
  do! _check_types self in
  do! _validate_against_types self v in
  do! _check_against_required self v in
  _validate_with_custom_validators self v.

Definition BaseField_get_default_value (self : field) : value :=
  match _default self with
  | Default d => d
  | NotSet => VNone
  end.

Definition structure_name (self : field) (default : string) : string :=
  match name self with
  | Some n => n
  | None => default
  end.

(** *** Names

    [_validate_name] matches the name against a pattern: a letter or an
    underscore, and then, if anything follows, word characters and hyphens
    of which the last is a word character.  The end of the pattern also
    matches before a final newline. *)

(** The class of the first character: an ASCII letter or an underscore. *)
Definition is_letter (c : ascii) : bool :=
  ascii_in 65 90 c || ascii_in 97 122 c || Ascii.eqb c "_"%char.

(** The alphanumeric code points from 128 on, below 256: the ordinal
    indicators (170, 186), the superscript digits (178, 179, 185), the
    micro sign (181), the fractions (188 to 190), and the letters from
    192 on, which the signs of multiplication (215) and division (247)
    are not. *)
Definition is_latin_alnum (c : ascii) : bool :=
  ascii_in 170 170 c || ascii_in 178 179 c || ascii_in 181 181 c ||
  ascii_in 185 186 c || ascii_in 188 190 c ||
  ascii_in 192 214 c || ascii_in 216 246 c || ascii_in 248 255 c.

(** A word character of a pattern on [str]: a letter, a digit or an
    underscore of ASCII, or an alphanumeric character of Unicode. *)
Definition is_word (c : ascii) : bool :=
  is_letter c || is_digit c || is_latin_alnum c.

Fixpoint name_tail (after_word : bool) (s : string) : bool :=
  match s with
  | EmptyString => after_word
  | String c s' =>
      if Ascii.eqb c (ascii_of_nat 10) && String.eqb s' EmptyString then after_word
      else if is_word c then name_tail true s'
      else if Ascii.eqb c "-"%char then name_tail false s'
      else false
  end.

Definition name_matches (s : string) : bool :=
  match s with
  | String c s' => is_letter c && name_tail true s'
  | EmptyString => false
  end.

Definition _validate_name (self : field) : result unit :=
  match name self with
  | None => Ok tt
  | Some n => if name_matches n then Ok tt else Raise (ValueError "Wrong name")
  end.

(** ** Embedded models: which class a mapping is *)

(** [name or attr] *)
Definition wire_name (entry : string * option string) : string :=
  match entry with
  | (attr, Some n) => if String.eqb n EmptyString then attr else n
  | (attr, None) => attr
  end.

(** [d[k] = v] on a dict whose keys are model classes. *)
Fixpoint dict_set (k : model_class) (v : list string)
    (d : list (model_class * list string)) : list (model_class * list string) :=
  match d with
  | [] => [(k, v)]
  | (k', v') :: d' =>
      if model_class_eqb k k' then (k', v) :: d' else (k', v') :: dict_set k v d'
  end.

(** The dict comprehension of [_get_embed_type]: the models that have
    [iterate_with_name], each with the set of its field names. *)
Definition model_fields (models : list type_entry) : list (model_class * list string) :=
  fold_left (fun d model =>
               match model with
               | Class (Model c) => dict_set c (map wire_name (cls_fields c)) d
               | _ => d
               end) models [].

(** [fields.issuperset(value)] *)
Definition issuperset (fields : list string) (v : value) : result bool :=
  let! keys := iter v in
  Ok (forallb (fun k => existsb (fun n => py_eq k (VStr n)) fields) keys).

Fixpoint matching (d : list (model_class * list string)) (v : value)
  : result (list model_class) :=
  match d with
  | [] => Ok []
  | (model, fields) :: d' =>
      let! fits := issuperset fields v in
      let! rest := matching d' v in
      Ok (if fits then model :: rest else rest)
  end.

Definition _get_embed_type (v : value) (models : list type_entry) : result type_entry :=
  if (1 <? length models)%nat then
    let! matching_models := matching (model_fields models) v in
    match matching_models with
    | [model] => Ok (Class (Model model))
    | _ => Raise (AmbiguousTypeError models)
    end
  else
    match models with
    | model :: _ => Ok model
    | [] => Raise IndexError
    end.

Definition is_str (v : value) : bool :=
  match v with VStr _ => true | _ => false end.

(** A member of a types tuple, called with the items of the mapping [v]
    as keyword arguments. *)
Definition call (rt : runtime) (t : type_entry) (v : value) : result value :=
  match t with
  | Class c =>
      let! kwargs := items v in
      if forallb is_str (map fst kwargs) then rt_construct rt c kwargs
      else Raise TypeError
  | _ => Raise TypeError
  end.

(** ** Mappings, and the methods of values *)

Fixpoint hashable (v : value) : bool :=
  match v with
  | VList _ | VDict _ | VCollection _ | VInstance _ _ => false
  | VTuple xs => forallb hashable xs
  | _ => true
  end.

Fixpoint dict_insert (k v : value) (d : list (value * value)) : list (value * value) :=
  match d with
  | [] => [(k, v)]
  | (k', v') :: d' =>
      if py_eq k k' then (k', v) :: d' else (k', v') :: dict_insert k v d'
  end.

(** [dict(items)]: a later item replaces the value of an equal key, and a
    key that cannot be hashed is a [TypeError]. *)
Definition dict (its : list (value * value)) : result value :=
  let! d := fold_left (fun acc kv =>
                         let! d := acc in
                         if hashable (fst kv) then Ok (dict_insert (fst kv) (snd kv) d)
                         else Raise TypeError) its (Ok []) in
  Ok (VDict d).

(** [v.validate()] and [v.to_struct()]: only model instances have them. *)
Definition value_validate (rt : runtime) (v : value) : result unit :=
  match v with
  | VInstance c kwargs => rt_validate rt c kwargs
  | _ => Raise AttributeError
  end.

Definition value_to_struct (rt : runtime) (v : value) : result value :=
  match v with
  | VInstance c kwargs => rt_to_struct rt c kwargs
  | _ => Raise AttributeError
  end.

Definition isoformat (rt : runtime) (v : value) : result value :=
  match v with
  | VTime t => Ok (VStr (rt_time_isoformat rt t))
  | VDate d => Ok (VStr (rt_date_isoformat rt d))
  | VDateTime dt => Ok (VStr (rt_datetime_isoformat rt dt))
  | _ => Raise AttributeError
  end.

Definition strftime (rt : runtime) (v : value) (format : string) : result value :=
  match v with
  | VTime t => Ok (VStr (rt_time_strftime rt t format))
  | VDate d => Ok (VStr (rt_date_strftime rt d format))
  | VDateTime dt => Ok (VStr (rt_datetime_strftime rt dt format))
  | _ => Raise AttributeError
  end.

(** ** The fields *)

Definition IntField_parse_value (v : value) : result value :=
  let parsed := v in
  if is_None parsed then Ok parsed
  else match int parsed with
       | Raise (ValueError _) => Raise (BadTypeError v (Some [Class int_]) false)
       | r => r
       end.

Definition BoolField_parse_value (v : value) : result value :=
  let parsed := v in
  if negb (is_None parsed) then Ok (VBool (truthy parsed)) else Ok VNone.

(** Modelled from the spec: [ModelCollection(self)] of the module
    [jsonmodels.collections], "an empty, order-preserving collection type
    bound to this field".  It is the empty [VCollection]. *)
Definition ModelCollection (self : field) : value := VCollection [].

Definition ListField_get_default_value (self : field) : value :=
  let default := BaseField_get_default_value self in
  if is_None default then ModelCollection self else default.

Definition MapField_get_default_value (self : field) : value :=
  let default := BaseField_get_default_value self in
  if is_None default && required self then VDict [] else default.

Definition get_default_value (self : field) : value :=
  match cls self with
  | ListField | DerivedListField => ListField_get_default_value self
  | MapField => MapField_get_default_value self
  | _ => BaseField_get_default_value self
  end.

Definition _cast_value (rt : runtime) (self : field) (v : value) : result value :=
  let! fits := isinstance v (items_types self) in
  if fits then Ok v
  else if is_dict v then
    let! model_type := _get_embed_type v (items_types self) in
    call rt model_type v
  else Raise (BadTypeError v (Some (items_types self)) true).

Definition ListField_parse_value (rt : runtime) (self : field) (values : value)
  : result value :=
  let result := get_default_value self in
  if negb (truthy values) then Ok result
  else if negb (issubclass (type_ values) list_) then Ok values
  else
    let! xs := iter values in
    let! ys := mapM (_cast_value rt self) xs in
    Ok (VList ys).

Definition ListField_validate_single_value (self : field) (v : value) : result unit :=
  do! forM (fun validator => run_validator validator v) (item_validators self) in
  if Nat.eqb (length (items_types self)) 0 then Ok tt
  else
    let! fits := isinstance v (items_types self) in
    if negb fits then Raise (BadTypeError v (Some (items_types self)) true) else Ok tt.

Definition EmbeddedField_parse_value (rt : runtime) (self : field) (v : value)
  : result value :=
  if negb (is_dict v) then Ok v
  else
    let! embed_type := _get_embed_type v (embedded_types self) in
    call rt embed_type v.

Definition TimeField_parse_value (rt : runtime) (v : value) : result value :=
  if is_None v then Ok v
  else if issubclass (type_ v) time_ then Ok v
  else let! dt := rt_parse rt v in Ok (VTime (dt_time dt)).

Definition DateField_parse_value (rt : runtime) (v : value) : result value :=
  if is_None v then Ok v
  else if issubclass (type_ v) date_ then Ok v
  else let! dt := rt_parse rt v in Ok (VDate (dt_date dt)).

Definition DateTimeField_parse_value (rt : runtime) (v : value) : result value :=
  if issubclass (type_ v) datetime_ then Ok v
  else if truthy v then let! dt := rt_parse rt v in Ok (VDateTime dt)
  else Ok VNone.

(** [self.parse_value(value)], by the class of [self]. *)
Fixpoint parse_value (rt : runtime) (self : field) (v : value) {struct self}
  : result value :=
  match cls self with
  | IntField => IntField_parse_value v
  | BoolField => BoolField_parse_value v
  | ListField => ListField_parse_value rt self v
  | DerivedListField =>
      let parsed :=
        let! xs := iter v in
        mapM (fun x => match _field self with
                       | Some f => parse_value rt f x
                       | None => Raise AttributeError
                       end) xs in
      match parsed with
      | Ok ys => Ok (VList ys)
      | Raise TypeError =>
          match _field self with
          | Some f => Raise (BadTypeError v (types f) true)
          | None => Raise AttributeError
          end
      | Raise e => Raise e
      end
  | EmbeddedField => EmbeddedField_parse_value rt self v
  | MapField =>
      if is_None v then Ok VNone
      else
        let! its := items v in
        let! its' :=
          mapM (fun kv =>
                  let! k := match _key_field self with
                            | Some f => parse_value rt f (fst kv)
                            | None => Raise AttributeError
                            end in
                  let! x := match _value_field self with
                            | Some f => parse_value rt f (snd kv)
                            | None => Raise AttributeError
                            end in
                  Ok (k, x)) its in
        dict its'
  | TimeField => TimeField_parse_value rt v
  | DateField => DateField_parse_value rt v
  | DateTimeField => DateTimeField_parse_value rt v
  | BaseField | StringField | FloatField | GenericField => Ok v
  end.

(** [self.validate(value)], by the class of [self]. *)
Fixpoint validate (rt : runtime) (self : field) (v : value) {struct self}
  : result unit :=
  match cls self with
  | ListField =>
      do! BaseField_validate self v in
      let! xs := iter v in
      forM (ListField_validate_single_value self) xs
  | DerivedListField =>
      do! BaseField_validate self v in
      let! xs := iter v in
      forM (fun x => match _field self with
                     | Some f => validate rt f x
                     | None => Raise AttributeError
                     end) xs
  | EmbeddedField =>
      do! BaseField_validate self v in
      match value_validate rt v with
      | Raise AttributeError => Ok tt
      | r => r
      end
  | MapField =>
      do! BaseField_validate self v in
      if is_None v then Ok tt
      else
        let! its := items v in
        forM (fun kv =>
                do! match _key_field self with
                    | Some f => validate rt f (fst kv)
                    | None => Raise AttributeError
                    end in
                match _value_field self with
                | Some f => validate rt f (snd kv)
                | None => Raise AttributeError
                end) its
  | _ => BaseField_validate self v
  end.

(** *** Serialization *)

(** [self.str_format], when it is true. *)
Definition format_of (self : field) : option string :=
  match str_format self with
  | Some s => if String.eqb s EmptyString then None else Some s
  | None => None
  end.

Definition default_format : string := "%Y-%m-%d".

Definition TimeField_to_struct (rt : runtime) (self : field) (v : value) : result value :=
  match format_of self with
  | Some format => strftime rt v format
  | None => isoformat rt v
  end.

Definition DateField_to_struct (rt : runtime) (self : field) (v : value) : result value :=
  match format_of self with
  | Some format => strftime rt v format
  | None => strftime rt v default_format
  end.

Definition DateTimeField_to_struct (rt : runtime) (self : field) (v : value)
  : result value :=
  match format_of self with
  | Some format => strftime rt v format
  | None => isoformat rt v
  end.

Definition _elem_to_struct (rt : runtime) (v : value) : result value :=
  match value_to_struct rt v with
  | Raise AttributeError => Ok v
  | r => r
  end.

Fixpoint GenericField_to_struct (rt : runtime) (values : value) {struct values}
  : result value :=
  match values with
  | VInstance c kwargs => rt_to_struct rt c kwargs
  | VList xs | VTuple xs | VCollection xs =>
      let! ys := mapM (GenericField_to_struct rt) xs in Ok (VList ys)
  | VDict its =>
      let! its' := mapM (fun kv => let '(k, x) := kv in
                           let! k' := GenericField_to_struct rt k in
                           let! x' := GenericField_to_struct rt x in
                           Ok (k', x')) its in
      dict its'
  | _ => Ok values
  end.

(** [self.to_struct(value)], by the class of [self]. *)
Fixpoint to_struct (rt : runtime) (self : field) (v : value) {struct self}
  : result value :=
  match cls self with
  | ListField =>
      if truthy v || negb (_omit_empty self) then
        let! xs := iter v in
        let! ys := mapM (_elem_to_struct rt) xs in Ok (VList ys)
      else Ok VNone
  | DerivedListField =>
      if truthy v || negb (_omit_empty self) then
        let! xs := iter v in
        let! ys := mapM (fun x => match _field self with
                                  | Some f => to_struct rt f x
                                  | None => Raise AttributeError
                                  end) xs in
        Ok (VList ys)
      else Ok VNone
  | EmbeddedField => value_to_struct rt v
  | MapField =>
      let! its := items v in
      let! its' :=
        mapM (fun kv =>
                let! k := match _key_field self with
                          | Some f => to_struct rt f (fst kv)
                          | None => Raise AttributeError
                          end in
                let! x := match _value_field self with
                          | Some f => to_struct rt f (snd kv)
                          | None => Raise AttributeError
                          end in
                Ok (k, x)) its in
      dict its'
  | TimeField => TimeField_to_struct rt self v
  | DateField => DateField_to_struct rt self v
  | DateTimeField => DateTimeField_to_struct rt self v
  | GenericField => GenericField_to_struct rt v
  | BaseField | StringField | IntField | FloatField | BoolField => Ok v
  end.

(** *** Lazy types, resolved *)

Definition _import (rt : runtime) (module_name type_name : string) : result pyclass :=
  match rt_import rt module_name with
  | None => Raise ImportError
  | Some module =>
      match module type_name with
      | Some c => Ok c
      | None => Raise (ValueError ("Can't find type '" +:+ module_name +:+ "."
                                   +:+ type_name +:+ "'."))
      end
  end.

Definition evaluate (rt : runtime) (path : string) (base_cls : model_class)
  : result pyclass :=
  let! '(module, type_name) := _evaluate_path path base_cls in
  _import rt module type_name.

(** The loop of [_finish_initialization] over a tuple of types. *)
Definition resolve (rt : runtime) (owner : model_class) (ts : list type_entry)
  : result (list type_entry) :=
  mapM (fun t => match t with
                 | LazyType path => let! c := evaluate rt path owner in Ok (Class c)
                 | _ => Ok t
                 end) ts.

(** [self._finish_initialization(owner)]: the outcome, and [self] as the
    call leaves it. *)
Fixpoint _finish_initialization (rt : runtime) (self : field) (owner : model_class)
  {struct self} : result unit * field :=
  match cls self with
  | ListField | DerivedListField =>
      match resolve rt owner (items_types self) with
      | Ok ts => (Ok tt, set_items_types ts self)
      | Raise e => (Raise e, self)
      end
  | EmbeddedField =>
      match resolve rt owner (embedded_types self) with
      | Ok ts => (Ok tt, set_embedded_types ts self)
      | Raise e => (Raise e, self)
      end
  | MapField =>
      match _key_field self with
      | None => (Raise AttributeError, self)
      | Some k =>
          let '(r, k') := _finish_initialization rt k owner in
          match r with
          | Raise e => (Raise e, set_key_field (Some k') self)
          | Ok _ =>
              match _value_field self with
              | None => (Raise AttributeError, set_key_field (Some k') self)
              | Some x =>
                  let '(r', x') := _finish_initialization rt x owner in
                  (r', set_value_field (Some x') (set_key_field (Some k') self))
              end
          end
      end
  | _ => (Ok tt, self)
  end.

(** ** The descriptor protocol *)

(** A model instance, as the descriptor sees it: its class and the key
    under which the fields store its values. *)
Record instance := Instance {
  type_of : model_class;
  _cache_key : positive }.

Definition __set__ (rt : runtime) (self : field) (obj : instance) (v : value)
  : result unit * field :=
  let '(r, self) := _finish_initialization rt self (type_of obj) in
  match r with
  | Raise e => (Raise e, self)
  | Ok _ =>
      match parse_value rt self v with
      | Raise e => (Raise e, self)
      | Ok v =>
          match validate rt self v with
          | Raise e => (Raise e, self)
          | Ok _ => (Ok tt, set_memory (<[_cache_key obj := v]> (memory self)) self)
          end
      end
  end.

Definition _check_value (rt : runtime) (self : field) (obj : instance)
  : result unit * field :=
  match memory self !! _cache_key obj with
  | None => __set__ rt self obj (get_default_value self)
  | Some _ => (Ok tt, self)
  end.

(** What [__get__] returns: the descriptor itself when it is read on the
    class, the stored value when it is read on an instance. *)
Inductive got :=
| Self
| Value (v : value).

Definition __get__ (rt : runtime) (self : field) (obj : option instance)
    (owner : model_class) : result got * field :=
  match obj with
  | None =>
      let '(r, self) := _finish_initialization rt self owner in
      match r with
      | Raise e => (Raise e, self)
      | Ok _ => (Ok Self, self)
      end
  | Some obj =>
      let '(r, self) := _finish_initialization rt self (type_of obj) in
      match r with
      | Raise e => (Raise e, self)
      | Ok _ =>
          let '(r, self) := _check_value rt self obj in
          match r with
          | Raise e => (Raise e, self)
          | Ok _ =>
              match memory self !! _cache_key obj with
              | Some v => (Ok (Value v), self)
              | None => (Raise KeyError, self)
              end
          end
      end
  end.

(** ** Construction *)

(** What [validators] and [item_validators] are given as: nothing, one
    validator, or a list of them. *)
Inductive validators_arg :=
| NoValidators
| OneValidator (w : validator)
| ValidatorList (ws : list validator).

Definition as_list (a : validators_arg) : list validator :=
  match a with
  | NoValidators => []
  | OneValidator w => [w]
  | ValidatorList ws => ws
  end.

(** The keyword arguments of [BaseField.__init__]. *)
Record kwargs := Kwargs {
  kw_required : bool;
  kw_nullable : bool;
  kw_help_text : option string;
  kw_validators : validators_arg;
  kw_default : default;
  kw_name : option string }.

Definition no_kwargs : kwargs := Kwargs false false None NoValidators NotSet None.

Definition _assign_validators (a : validators_arg) (self : field) : field :=
  set_validators (as_list a) self.

(** [BaseField.__init__], on an object whose subclass has already
    assigned what it assigns before it calls [super().__init__]. *)
Definition BaseField___init__ (rt : runtime) (self : field) (kw : kwargs) : result field :=
  let self := set_memory ∅ self in
  let self := set_required (kw_required kw) self in
  let self := set_help_text (kw_help_text kw) self in
  let self := set_nullable (kw_nullable kw) self in
  let self := _assign_validators (kw_validators kw) self in
  let self := set_name (kw_name kw) self in
  do! _validate_name self in
  do! match kw_default kw with
      | Default d => validate rt self d
      | NotSet => Ok tt
      end in
  Ok (set_default (kw_default kw) self).

(** A type as the constructors are given it: a class (or some other
    object), or a string that names one. *)
Inductive type_arg :=
| ByObject (t : type_entry)
| ByPath (path : string).

(** What [items_types] is given as: nothing, one type, or a list or tuple
    of types. *)
Inductive items_arg :=
| NoItems
| OneItem (a : type_arg)
| ManyItems (l : list type_arg).

(** The wrapping loop of [_assign_types] and [_assign_model_types]. *)
Definition wrap (a : type_arg) : type_entry :=
  match a with
  | ByObject t => t
  | ByPath path => LazyType path
  end.

(** [tuple(items_types)] of a string is the tuple of its characters; of a
    class it is a [TypeError], and the class is taken alone. *)
Definition _assign_types (a : items_arg) (self : field) : field :=
  let items_types :=
    match a with
    | NoItems => []
    | OneItem (ByObject t) => [ByObject t]
    | OneItem (ByPath path) => map ByPath (chars path)
    | ManyItems l => l
    end in
  set_items_types (map wrap items_types) self.

Definition ListField___init__ (rt : runtime) (c : field_class)
    (items_types : items_arg) (item_validators : validators_arg)
    (omit_empty : bool) (kw : kwargs) : result field :=
  let self := blank c in
  let self := _assign_types items_types self in
  let self := set_item_validators (as_list item_validators) self in
  let! self := BaseField___init__ rt self kw in
  let self := set_required false self in
  Ok (set_omit_empty omit_empty self).

(** [field.types] and [field.validators], as [DerivedListField.__init__]
    hands them on. *)
Definition items_of_types (ts : option (list type_entry)) : items_arg :=
  match ts with
  | None => NoItems
  | Some l => ManyItems (map ByObject l)
  end.

Definition DerivedListField___init__ (rt : runtime) (f : field)
    (omit_empty : bool) (kw : kwargs) : result field :=
  let self := set_field (Some f) (blank DerivedListField) in
  let self := _assign_types (items_of_types (types f)) self in
  let self := set_item_validators (validators f) self in
  let! self := BaseField___init__ rt self kw in
  let self := set_required false self in
  Ok (set_omit_empty omit_empty self).

(** What [model_types] is given as: one type, or a list or tuple. *)
Inductive models_arg :=
| OneModel (a : type_arg)
| ManyModels (l : list type_arg).

Definition _assign_model_types (a : models_arg) (self : field) : field :=
  let model_types :=
    match a with
    | OneModel t => [t]
    | ManyModels l => l
    end in
  set_embedded_types (map wrap model_types) self.

Definition EmbeddedField___init__ (rt : runtime) (model_types : models_arg)
    (kw : kwargs) : result field :=
  let self := _assign_model_types model_types (blank EmbeddedField) in
  BaseField___init__ rt self kw.

Definition MapField___init__ (rt : runtime) (key_field value_field : field)
    (kw : kwargs) : result field :=
  let! self := BaseField___init__ rt (blank MapField) kw in
  let self := set_key_field (Some key_field) self in
  Ok (set_value_field (Some value_field) self).

Definition TimeField___init__ (rt : runtime) (str_format : option string)
    (kw : kwargs) : result field :=
  let self := set_str_format str_format (blank TimeField) in
  BaseField___init__ rt self kw.

Definition DateField___init__ (rt : runtime) (str_format : option string)
    (kw : kwargs) : result field :=
  let self := set_str_format str_format (blank DateField) in
  BaseField___init__ rt self kw.

Definition DateTimeField___init__ (rt : runtime) (str_format : option string)
    (kw : kwargs) : result field :=
  let self := set_str_format str_format (blank DateTimeField) in
  BaseField___init__ rt self kw.

(** The classes that inherit [BaseField.__init__] as it is. *)
Definition Field___init__ (rt : runtime) (c : field_class) (kw : kwargs) : result field :=
  BaseField___init__ rt (blank c) kw.

(** ** What the properties are stated with *)

(** What [_check_types] raises for a field without types. *)
Definition not_usable (self : field) : exn :=
  ValueError ("Field " +:+ dquote +:+ class_name (cls self) +:+ dquote
              +:+ " is not usable, try different field type.").

(** Induction on a field and the fields it holds. *)
Definition on_sub (P : field -> Prop) (o : option field) : Prop :=
  match o with
  | Some g => P g
  | None => True
  end.

Fixpoint field_induction (P : field -> Prop)
    (step : forall self, on_sub P (_field self) -> on_sub P (_key_field self) ->
                         on_sub P (_value_field self) -> P self)
    (self : field) {struct self} : P self :=
  step self
    (match _field self as o return on_sub P o with
     | Some g => field_induction P step g
     | None => I
     end)
    (match _key_field self as o return on_sub P o with
     | Some g => field_induction P step g
     | None => I
     end)
    (match _value_field self as o return on_sub P o with
     | Some g => field_induction P step g
     | None => I
     end).

(** The names of the fields of a model cover the keys of a mapping. *)
Definition fits (c : model_class) (its : list (value * value)) : bool :=
  forallb (fun k => existsb (fun n => py_eq k (VStr n)) (map wire_name (cls_fields c)))
          (map fst its).

(** In the words of the specification.  The wire name of a field of the
    registry, an (attribute name, optional wire-name override) pair, is
    the override when the field has one, an empty override being none,
    and the attribute name when it has none. *)
Definition is_wire_name_of (n : string) (entry : string * option string) : Prop :=
  match snd entry with
  | Some override => if String.eqb override EmptyString then n = fst entry else n = override
  | None => n = fst entry
  end.

(** The wire-name set of the class is a superset of the keys of the
    mapping: every key is a string, the wire name of a field of the
    class. *)
Definition covers (c : model_class) (its : list (value * value)) : Prop :=
  forall k, In k (map fst its) ->
    exists n entry, k = VStr n /\ In entry (cls_fields c) /\ is_wire_name_of n entry.

(** Every entry of the dict holds the field names of its key. *)
Definition names_of_keys (d : list (model_class * list string)) : Prop :=
  forall c ns, In (c, ns) d -> ns = map wire_name (cls_fields c).

Definition scalar (c : field_class) : bool :=
  match c with
  | StringField | IntField | FloatField | BoolField
  | TimeField | DateField | DateTimeField => true
  | _ => false
  end.

(** The same object, or an equal one. *)
Definition same (a b : value) : Prop := a = b \/ py_eq a b = true.

(** A run of [n] dots. *)
Fixpoint dots (n : nat) : string :=
  match n with
  | O => EmptyString
  | S n' => String "."%char (dots n')
  end.

(** The string has a dot in it. *)
Fixpoint has_dot (s : string) : bool :=
  match s with
  | EmptyString => false
  | String c s' => Ascii.eqb c "."%char || has_dot s'
  end.

(** How [resolve] relates a tuple of types to the tuple it returns: a
    placeholder is replaced by the class its path evaluates to, and every
    other entry stays in its place. *)
Definition resolved_from (rt : runtime) (owner : model_class)
    (t t' : type_entry) : Prop :=
  match t with
  | LazyType path => exists c, evaluate rt path owner = Ok c /\ t' = Class c
  | _ => t' = t
  end.

Definition is_lazy (t : type_entry) : bool :=
  match t with
  | LazyType _ => true
  | _ => false
  end.

(** A runtime like [bare] whose module table has one module,
    [app.models], with the classes [Person] and [Car].  (It comes before
    them in the file, so it names them by what they are.) *)
Definition app_models (type_name : string) : option pyclass :=
  if String.eqb type_name "Person"
  then Some (Model (ModelClass "app.models" "Person"
                      [("name", None); ("surname", Some "family-name")]))
  else if String.eqb type_name "Car"
  then Some (Model (ModelClass "app.models" "Car" [("name", None); ("brand", None)]))
  else None.

Definition app : runtime :=
  Runtime (fun module_name =>
             if String.eqb module_name "app.models" then Some app_models else None)
    (fun c kw => match c with
                 | Model m => Ok (VInstance m kw)
                 | _ => Raise TypeError
                 end)
    (fun _ _ => Ok tt)
    (fun _ kw => Ok (VDict kw))
    (fun _ => Raise (ValueError "Unknown string format"))
    (fun _ => "time") (fun _ format => format)
    (fun _ => "date") (fun _ format => format)
    (fun _ => "datetime") (fun _ format => format).

(** The classes whose [parse_value] returns one value for one value,
    without looking inside it. *)
Definition atomic (c : field_class) : bool :=
  match c with
  | BaseField | StringField | IntField | FloatField | BoolField
  | TimeField | DateField | DateTimeField | GenericField => true
  | _ => false
  end.

(** The classes whose [parse_value] casts to the type of the field. *)
Definition casting (c : field_class) : bool :=
  match c with
  | IntField | BoolField | TimeField | DateField | DateTimeField => true
  | _ => false
  end.

(** The value is a model instance. *)
Definition is_instance (v : value) : bool :=
  match v with
  | VInstance _ _ => true
  | _ => false
  end.

(** What [ListField((str,))] and [DerivedListField(IntField())] build. *)
Definition names_field : field := set_items_types [Class str_] (blank ListField).

Definition ages_field : field :=
  set_items_types [Class int_] (set_field (Some (blank IntField)) (blank DerivedListField)).

(** What [BaseField.__init__] has assigned when it validates the name and
    the default. *)
Definition configured (self : field) (kw : kwargs) : field :=
  set_name (kw_name kw)
    (_assign_validators (kw_validators kw)
       (set_nullable (kw_nullable kw)
          (set_help_text (kw_help_text kw)
             (set_required (kw_required kw) (set_memory ∅ self))))).

(** The field was built by one of the constructors. *)
Definition built (rt : runtime) (f : field) : Prop :=
  (exists c kw, Field___init__ rt c kw = Ok f) \/
  (exists str_format kw, TimeField___init__ rt str_format kw = Ok f) \/
  (exists str_format kw, DateField___init__ rt str_format kw = Ok f) \/
  (exists str_format kw, DateTimeField___init__ rt str_format kw = Ok f) \/
  (exists model_types kw, EmbeddedField___init__ rt model_types kw = Ok f) \/
  (exists items_types item_validators omit_empty kw,
     ListField___init__ rt ListField items_types item_validators omit_empty kw = Ok f) \/
  (exists g omit_empty kw, DerivedListField___init__ rt g omit_empty kw = Ok f) \/
  (exists key_field value_field kw, MapField___init__ rt key_field value_field kw = Ok f).

(** The last character of the string is a hyphen. *)
Fixpoint ends_with_hyphen (s : string) : bool :=
  match s with
  | EmptyString => false
  | String c EmptyString => Ascii.eqb c "-"%char
  | String _ s' => ends_with_hyphen s'
  end.

(** Every character of the string is a word character. *)
Fixpoint all_word (s : string) : bool :=
  match s with
  | EmptyString => true
  | String c s' => is_word c && all_word s'
  end.

(** What [MapField(StringField(), StringField())] builds. *)
Definition labels_field : field :=
  set_value_field (Some (blank StringField))
    (set_key_field (Some (blank StringField)) (blank MapField)).

(** ** The validators of [jsonmodels/validators.py] *)

(** *** Order ([<]) and size ([len]) *)

Definition float_lt (a b : pyfloat) : bool :=
  match a, b with
  | FNan, _ | _, FNan => false
  | FInf n, FInf n' => n && negb n'
  | FInf n, FFinite _ _ => n
  | FFinite _ _, FInf n' => negb n'
  | FFinite m e, FFinite m' e' =>
      let k := Z.min e e' in m * 2 ^ (e - k) <? m' * 2 ^ (e' - k)
  end.

Definition number_lt (a b : number) : bool :=
  match a, b with
  | NInt x, NInt y => x <? y
  | NInt x, NFloat f => float_lt (FFinite x 0) f
  | NFloat f, NInt y => float_lt f (FFinite y 0)
  | NFloat f, NFloat g => float_lt f g
  end.

Fixpoint string_lt (a b : string) : bool :=
  match a, b with
  | _, EmptyString => false
  | EmptyString, String _ _ => true
  | String c a', String d b' =>
      (nat_of_ascii c <? nat_of_ascii d)%nat || (Ascii.eqb c d && string_lt a' b')
  end.

(** The order of lists of integers, first difference first. *)
Fixpoint lex_lt (a b : list Z) : bool :=
  match a, b with
  | x :: a', y :: b' => (x <? y) || ((x =? y) && lex_lt a' b')
  | _, _ => false
  end.

Definition date_lt (a b : pydate) : bool :=
  lex_lt [year a; month a; day a] [year b; month b; day b].

Definition clock (t : pytime) : list Z := [hour t; minute t; second t; microsecond t].

(** A naive time and an aware one cannot be ordered. *)
Definition time_lt (a b : pytime) : result bool :=
  match utcoffset a, utcoffset b with
  | None, None => Ok (lex_lt (clock a) (clock b))
  | Some oa, Some ob =>
      if oa =? ob then Ok (lex_lt (clock a) (clock b))
      else Ok (lex_lt [hour a * 60 + minute a - oa; second a; microsecond a]
                      [hour b * 60 + minute b - ob; second b; microsecond b])
  | _, _ => Raise TypeError
  end.

Definition datetime_lt (a b : pydatetime) : result bool :=
  let fields (x : pydatetime) :=
    [year (dt_date x); month (dt_date x); day (dt_date x)] ++ clock (dt_time x) in
  match utcoffset (dt_time a), utcoffset (dt_time b) with
  | None, None => Ok (lex_lt (fields a) (fields b))
  | Some oa, Some ob =>
      if oa =? ob then Ok (lex_lt (fields a) (fields b))
      else let instant (x : pydatetime) (o : Z) :=
             [((ordinal (dt_date x) * 24 + hour (dt_time x)) * 60
               + minute (dt_time x) - o) * 60 + second (dt_time x);
              microsecond (dt_time x)] in
           Ok (lex_lt (instant a oa) (instant b ob))
  | _, _ => Raise TypeError
  end.

(** The order of sequences: the first pair of items that are not equal
    decides, and a sequence comes before the longer ones it starts. *)
Definition seq_lt {A : Type} (eq : A -> A -> bool) (lt : A -> A -> result bool)
  : list A -> list A -> result bool :=
  fix go xs ys :=
    match xs, ys with
    | [], [] => Ok false
    | [], _ :: _ => Ok true
    | _ :: _, [] => Ok false
    | x :: xs', y :: ys' => if eq x y then go xs' ys' else lt x y
    end.

(** [a < b].  Numbers are ordered across [bool], [int] and [float],
    strings by their characters, times, dates and datetimes among their
    own kind, lists among lists and tuples among tuples; everything else
    is a [TypeError]. *)
Fixpoint lt (a b : value) {struct a} : result bool :=
  match a with
  | VBool x =>
      match number_of b with
      | Some n => Ok (number_lt (NInt (Z.b2z x)) n)
      | None => Raise TypeError
      end
  | VInt x =>
      match number_of b with
      | Some n => Ok (number_lt (NInt x) n)
      | None => Raise TypeError
      end
  | VFloat f =>
      match number_of b with
      | Some n => Ok (number_lt (NFloat f) n)
      | None => Raise TypeError
      end
  | VStr s => match b with VStr s' => Ok (string_lt s s') | _ => Raise TypeError end
  | VTime t => match b with VTime t' => time_lt t t' | _ => Raise TypeError end
  | VDate d => match b with VDate d' => Ok (date_lt d d') | _ => Raise TypeError end
  | VDateTime dt =>
      match b with VDateTime dt' => datetime_lt dt dt' | _ => Raise TypeError end
  | VList xs | VCollection xs =>
      match b with
      | VList ys | VCollection ys => seq_lt py_eq lt xs ys
      | _ => Raise TypeError
      end
  | VTuple xs => match b with VTuple ys => seq_lt py_eq lt xs ys | _ => Raise TypeError end
  | VNone | VDict _ | VInstance _ _ => Raise TypeError
  end.

(** [a > b] *)
Definition gt (a b : value) : result bool := lt b a.

(** [len(v)]: of a string, the number of its characters. *)
Definition len (v : value) : result Z :=
  match v with
  | VStr s => Ok (Z.of_nat (String.length s))
  | VList xs | VTuple xs | VCollection xs => Ok (Z.of_nat (length xs))
  | VDict its => Ok (Z.of_nat (length its))
  | _ => Raise TypeError
  end.

(** [v in choices], for a list of choices: an item that equals [v].
    Python also finds an item that is the object [v] itself, which is no
    other answer for a value that equals itself. *)
Definition contains (choices : list value) (v : value) : bool :=
  existsb (fun choice => py_eq choice v) choices.

(** *** What the validators raise, and their schema *)

(** Modelled from the spec: the errors of [jsonmodels.errors] that the
    validators raise, "MinValidationError/MaxValidationError (boundary
    violated, with exclusivity flag), MinLengthError/MaxLengthError
    (length bound violated), EnumError (value not in choice set)", "each
    carrying the violated value and threshold/pattern/choice set". *)
Inductive validation_error :=
| MinValidationError (v minimum_value : value) (exclusive : bool)
| MaxValidationError (v maximum_value : value) (exclusive : bool)
| MinLengthError (v : value) (minimum_value : Z)
| MaxLengthError (v : value) (maximum_value : Z)
| EnumError (v : value) (choices : list value).

(** What a call of [validate] does: it returns, it raises an error of
    the validators, or it raises something else. *)
Inductive verdict :=
| Accepts
| Rejects (e : validation_error)
| Fails (e : exn).

(** A field schema: a dict from strings. *)
Abbreviation schema := (gmap string value).

(** Two checks, one after the other. *)
Definition and_then (first second : verdict) : verdict :=
  match first with
  | Accepts => second
  | _ => first
  end.

Module Min.
Record t := Make { minimum_value : value; exclusive : bool }.

Definition validate (self : t) (v : value) : verdict :=
  match lt v (minimum_value self) with
  | Raise e => Fails e
  | Ok below =>
      if below || (exclusive self && py_eq v (minimum_value self))
      then Rejects (MinValidationError v (minimum_value self) (exclusive self))
      else Accepts
  end.

Definition modify_schema (self : t) (field_schema : schema) : schema :=
  let field_schema := <["minimum" := minimum_value self]> field_schema in
  if exclusive self then <["exclusiveMinimum" := VBool true]> field_schema
  else field_schema.
End Min.

Module Max.
Record t := Make { maximum_value : value; exclusive : bool }.

Definition validate (self : t) (v : value) : verdict :=
  match gt v (maximum_value self) with
  | Raise e => Fails e
  | Ok above =>
      if above || (exclusive self && py_eq v (maximum_value self))
      then Rejects (MaxValidationError v (maximum_value self) (exclusive self))
      else Accepts
  end.

Definition modify_schema (self : t) (field_schema : schema) : schema :=
  let field_schema := <["maximum" := maximum_value self]> field_schema in
  if exclusive self then <["exclusiveMaximum" := VBool true]> field_schema
  else field_schema.
End Max.

Module Length.
(** The bounds are integers, as the docstring of [__init__] has them. *)
Record t := Make { minimum_value : option Z; maximum_value : option Z }.

Definition __init__ (minimum_value maximum_value : option Z) : result t :=
  match minimum_value, maximum_value with
  | None, None =>
      Raise (ValueError "Either 'minimum_value' or 'maximum_value' must be specified.")
  | _, _ => Ok (Make minimum_value maximum_value)
  end.

Definition validate (self : t) (v : value) : verdict :=
  match len v with
  | Raise e => Fails e
  | Ok len_ =>
      and_then
        match minimum_value self with
        | Some minimum =>
            if len_ <? minimum then Rejects (MinLengthError v minimum) else Accepts
        | None => Accepts
        end
        match maximum_value self with
        | Some maximum =>
            if maximum <? len_ then Rejects (MaxLengthError v maximum) else Accepts
        | None => Accepts
        end
  end.

(** [field_schema.get('type') == 'array'] *)
Definition is_array (field_schema : schema) : bool :=
  match field_schema !! "type" with
  | Some t => py_eq t (VStr "array")
  | None => false
  end.

(** A bound is written when it is true: not [None], and not zero. *)
Definition modify_schema (self : t) (field_schema : schema) : schema :=
  let is_array := is_array field_schema in
  let field_schema :=
    match minimum_value self with
    | Some minimum =>
        if negb (minimum =? 0)
        then <[(if is_array then "minItems" else "minLength") := VInt minimum]> field_schema
        else field_schema
    | None => field_schema
    end in
  match maximum_value self with
  | Some maximum =>
      if negb (maximum =? 0)
      then <[(if is_array then "maxItems" else "maxLength") := VInt maximum]> field_schema
      else field_schema
  | None => field_schema
  end.
End Length.

Module Enum.
Record t := Make { choices : list value }.

Definition validate (self : t) (v : value) : verdict :=
  if negb (contains (choices self) v) then Rejects (EnumError v (choices self))
  else Accepts.

Definition modify_schema (self : t) (field_schema : schema) : schema :=
  <["enum" := VList (choices self)]> field_schema.
End Enum.

(** *** Validators on a field *)

(** The name of the class of an error. *)
Definition error_name (e : validation_error) : string :=
  match e with
  | MinValidationError _ _ _ => "MinValidationError"
  | MaxValidationError _ _ _ => "MaxValidationError"
  | MinLengthError _ _ => "MinLengthError"
  | MaxLengthError _ _ => "MaxLengthError"
  | EnumError _ _ => "EnumError"
  end.

(** A verdict as the outcome of a call.  The errors of the validators
    derive from [ValidationError]; here the exception keeps the name of
    its class. *)
Definition outcome (r : verdict) : result unit :=
  match r with
  | Accepts => Ok tt
  | Rejects e => Raise (ValidationError (error_name e))
  | Fails e => Raise e
  end.

(** An object of one of the validator classes, as a field holds it: an
    object with a [validate] method that cannot be called. *)
Definition validator_of (validate : value -> verdict) : validator :=
  Validator (Some (fun v => outcome (validate v))) None.

(** What [IntField(validators=Min(18))] builds. *)
Definition adult_age : field :=
  set_validators [validator_of (Min.validate (Min.Make (VInt 18) false))] (blank IntField).

(** *** ISO 8601, written and read

    The date parser and the formatting methods of [datetime] belong to
    the runtime.  What follows is the format they share: the strings
    that [isoformat] writes, and [strftime] with the default format of a
    date field, and how a parser of ISO 8601 reads them. *)

(** The digit of a number below ten. *)
Definition digit_char (n : Z) : ascii := ascii_of_nat (48 + Z.to_nat n).

(** [n] in [width] digits, with zeros in front. *)
Fixpoint pad (width : nat) (n : Z) : string :=
  match width with
  | O => EmptyString
  | S w => String (digit_char (n / 10 ^ Z.of_nat w)) (pad w (n mod 10 ^ Z.of_nat w))
  end.

(** The microseconds are written when there are some. *)
Definition iso_fraction (microsecond : Z) : string :=
  if microsecond =? 0 then EmptyString else "." +:+ pad 6 microsecond.

(** The offset of an aware time: a sign, hours and minutes. *)
Definition iso_offset (utcoffset : option Z) : string :=
  match utcoffset with
  | None => EmptyString
  | Some o =>
      (if o <? 0 then "-" else "+") +:+ pad 2 (Z.abs o / 60) +:+ ":" +:+ pad 2 (Z.abs o mod 60)
  end.

Definition iso_time (t : pytime) : string :=
  pad 2 (hour t) +:+ ":" +:+ pad 2 (minute t) +:+ ":" +:+ pad 2 (second t)
  +:+ iso_fraction (microsecond t) +:+ iso_offset (utcoffset t).

(** A date, and what follows it. *)
Definition write_date (d : pydate) (rest : string) : string :=
  pad 4 (year d) +:+ "-" +:+ pad 2 (month d) +:+ "-" +:+ pad 2 (day d) +:+ rest.

Definition iso_date (d : pydate) : string := write_date d EmptyString.

Definition iso_datetime (dt : pydatetime) : string :=
  write_date (dt_date dt) ("T" +:+ iso_time (dt_time dt)).

(** The values that [datetime] builds: every field within its range. *)
Definition leap (y : Z) : bool :=
  (y mod 4 =? 0) && (negb (y mod 100 =? 0) || (y mod 400 =? 0)).

Definition days_in_month (y m : Z) : Z :=
  if m =? 2 then (if leap y then 29 else 28)
  else if (m =? 4) || (m =? 6) || (m =? 9) || (m =? 11) then 30
  else 31.

Definition valid_date (d : pydate) : bool :=
  (1 <=? year d) && (year d <=? 9999) && (1 <=? month d) && (month d <=? 12) &&
  (1 <=? day d) && (day d <=? days_in_month (year d) (month d)).

Definition valid_time (t : pytime) : bool :=
  (0 <=? hour t) && (hour t <? 24) && (0 <=? minute t) && (minute t <? 60) &&
  (0 <=? second t) && (second t <? 60) &&
  (0 <=? microsecond t) && (microsecond t <? 1000000) &&
  match utcoffset t with
  | None => true
  | Some o => (-1440 <? o) && (o <? 1440)
  end.

Definition well_formed (v : value) : bool :=
  match v with
  | VTime t => valid_time t
  | VDate d => valid_date d
  | VDateTime dt => valid_date (dt_date dt) && valid_time (dt_time dt)
  | _ => true
  end.

(** What a field without a format string writes for a value of its
    types: a string in ISO 8601 for a time, a date and a datetime, and
    the value itself for a string, a number and a boolean. *)
Definition written (v : value) : value :=
  match v with
  | VTime t => VStr (iso_time t)
  | VDate d => VStr (iso_date d)
  | VDateTime dt => VStr (iso_datetime dt)
  | _ => v
  end.

(** Exactly [width] digits. *)
Fixpoint read_digits (width : nat) (acc : Z) (s : string) : option (Z * string) :=
  match width with
  | O => Some (acc, s)
  | S w =>
      match s with
      | String c s' =>
          if is_digit c then read_digits w (acc * 10 + digit_value c) s' else None
      | EmptyString => None
      end
  end.

Definition read_char (c : ascii) (s : string) : option string :=
  match s with
  | String d s' => if Ascii.eqb d c then Some s' else None
  | EmptyString => None
  end.

Definition read_fraction (s : string) : option (Z * string) :=
  match s with
  | String c s' => if Ascii.eqb c "."%char then read_digits 6 0 s' else Some (0, s)
  | EmptyString => Some (0, s)
  end.

Definition read_offset (s : string) : option (option Z) :=
  match s with
  | EmptyString => Some None
  | String sign s =>
      if Ascii.eqb sign "+"%char || Ascii.eqb sign "-"%char then
        '(h, s) ← read_digits 2 0 s;
        s ← read_char ":"%char s;
        '(m, s) ← read_digits 2 0 s;
        if String.eqb s EmptyString && (h <? 24) && (m <? 60)
        then Some (Some ((if Ascii.eqb sign "-"%char then -1 else 1) * (h * 60 + m)))
        else None
      else None
  end.

Definition read_time (s : string) : option pytime :=
  '(h, s) ← read_digits 2 0 s;
  s ← read_char ":"%char s;
  '(m, s) ← read_digits 2 0 s;
  s ← read_char ":"%char s;
  '(sec, s) ← read_digits 2 0 s;
  '(us, s) ← read_fraction s;
  offset ← read_offset s;
  if (h <? 24) && (m <? 60) && (sec <? 60) then Some (Time h m sec us offset) else None.

Definition read_date (s : string) : option (pydate * string) :=
  '(y, s) ← read_digits 4 0 s;
  s ← read_char "-"%char s;
  '(m, s) ← read_digits 2 0 s;
  s ← read_char "-"%char s;
  '(d, s) ← read_digits 2 0 s;
  if valid_date (Date y m d) then Some (Date y m d, s) else None.

Definition midnight : pytime := Time 0 0 0 0 None.

(** What a parser of ISO 8601 reads in a string: a date, a time, or a
    date, a [T] and a time.  A date alone is the midnight of that day, a
    time alone a time of the day of the call. *)
Definition iso_read (today : pydate) (s : string) : option pydatetime :=
  match read_date s with
  | Some (d, EmptyString) => Some (DateTime d midnight)
  | Some (d, String c s') =>
      if Ascii.eqb c "T"%char then t ← read_time s'; Some (DateTime d t) else None
  | None => t ← read_time s; Some (DateTime today t)
  end.

(** The runtime writes ISO 8601: [isoformat] of a time and of a
    datetime, and [strftime] of a date with the default format. *)
Definition writes_iso (rt : runtime) : Prop :=
  (forall t, valid_time t = true -> rt_time_isoformat rt t = iso_time t) /\
  (forall d, valid_date d = true -> rt_date_strftime rt d default_format = iso_date d) /\
  (forall dt, valid_date (dt_date dt) = true -> valid_time (dt_time dt) = true ->
     rt_datetime_isoformat rt dt = iso_datetime dt).

(** The date parser of the runtime reads ISO 8601. *)
Definition reads_iso (rt : runtime) (today : pydate) : Prop :=
  forall s dt, iso_read today s = Some dt -> rt_parse rt (VStr s) = Ok dt.

(** A runtime like [bare] that writes and reads ISO 8601, on the first
    day of 2020. *)
Definition iso : runtime :=
  Runtime (fun _ => None)
    (fun c kw => match c with
                 | Model m => Ok (VInstance m kw)
                 | _ => Raise TypeError
                 end)
    (fun _ _ => Ok tt)
    (fun _ kw => Ok (VDict kw))
    (fun v => match v with
              | VStr s =>
                  match iso_read (Date 2020 1 1) s with
                  | Some dt => Ok dt
                  | None => Raise (ValueError "Unknown string format")
                  end
              | _ => Raise TypeError
              end)
    iso_time (fun _ format => format)
    iso_date (fun d format => if String.eqb format default_format then iso_date d else format)
    iso_datetime
    (fun dt format =>
       if String.eqb format default_format then iso_date (dt_date dt) else format).

(** Half past noon, with microseconds, an hour and a half west. *)
Definition half_past_noon : pytime := Time 12 30 0 120 (Some (-90)).

(** ** A small world to run the fields in

    A runtime whose module table is empty, whose models are built from
    their keyword arguments as they are, and whose date parser accepts
    nothing; two model classes; an instance. *)
Definition bare : runtime :=
  Runtime (fun _ => None)
    (fun c kw => match c with
                 | Model m => Ok (VInstance m kw)
                 | _ => Raise TypeError
                 end)
    (fun _ _ => Ok tt)
    (fun _ kw => Ok (VDict kw))
    (fun _ => Raise (ValueError "Unknown string format"))
    (fun _ => "time") (fun _ format => format)
    (fun _ => "date") (fun _ format => format)
    (fun _ => "datetime") (fun _ format => format).

Definition Person : model_class :=
  ModelClass "app.models" "Person" [("name", None); ("surname", Some "family-name")].

Definition Car : model_class :=
  ModelClass "app.models" "Car" [("name", None); ("brand", None)].

Definition alan : instance := Instance Person 1%positive.

(** Two validators that refuse every value, each with its own message:
    an object with a [validate] method, and a callable. *)
Definition refuse_first : validator :=
  Validator (Some (fun _ => Raise (ValidationError "first"))) None.

Definition refuse_second : validator :=
  Validator None (Some (fun _ => Raise (ValidationError "second"))).

(** A required string field without a default. *)
Definition required_string : field := set_required true (blank StringField).

(** What [ListField(str, required=True)] builds. *)
Definition built_required_list : field :=
  set_items_types [Class str_] (blank ListField).

(** What [DateField()] builds, and a datetime, which is a date. *)
Definition plain_date_field : field := blank DateField.

Definition noon : value :=
  VDateTime (DateTime (Date 2020 1 1) (Time 12 30 0 0 None)).

(** What [IntField(default=18)] builds. *)
Definition int_with_default : field := set_default (Default (VInt 18)) (blank IntField).

(** An embedded field that names its model by a path. *)
Definition lazy_car : field :=
  set_embedded_types [LazyType "app.models.Car"] (blank EmbeddedField).

(** Another instance of the same class. *)
Definition grace : instance := Instance Person 2%positive.

(** * Properties *)

(** ** Loops that may raise *)

Section Loops.
Context {A : Type} (f : A -> result unit).

Lemma forM_Ok (xs : list A) :
  forM f xs = Ok tt <-> forall x, In x xs -> f x = Ok tt.
Proof.
  induction xs as [|x xs IH]; simpl.
  - split; [intros _ y [] | reflexivity].
  - destruct (f x) as [[]|e] eqn:Hx; simpl.
    + rewrite IH. split.
      * intros H y [<-|Hy]; auto.
      * intros H y Hy. apply H. now right.
    + split; [discriminate|].
      intros H. specialize (H x (or_introl eq_refl)). congruence.
Qed.

(** The loop raises what its first failing element raises. *)
Lemma forM_Raise (xs : list A) (e : exn) :
  forM f xs = Raise e <->
  exists (i : nat) (x : A),
    xs !! i = Some x /\ f x = Raise e /\
    forall (j : nat) (y : A), (j < i)%nat -> xs !! j = Some y -> f y = Ok tt.
Proof.
  induction xs as [|x xs IH]; simpl.
  - split; [discriminate|]. intros (i & y & Hl & _). destruct i; discriminate.
  - destruct (f x) as [[]|e'] eqn:Hx; simpl.
    + rewrite IH. split.
      * intros (i & y & Hl & Hy & Hlt). exists (S i), y. repeat split; auto.
        intros [|j] z Hj Hz; simpl in Hz.
        -- congruence.
        -- apply (Hlt j); [lia | exact Hz].
      * intros ([|i] & y & Hl & Hy & Hlt); simpl in Hl.
        -- congruence.
        -- exists i, y. repeat split; auto.
           intros j z Hj Hz. apply (Hlt (S j)); [lia | exact Hz].
    + split.
      * intros [= ->]. exists 0%nat, x. repeat split; auto. intros j z Hj. lia.
      * intros ([|i] & y & Hl & Hy & Hlt); simpl in Hl.
        -- congruence.
        -- specialize (Hlt 0%nat x ltac:(lia) eq_refl). congruence.
Qed.
End Loops.

(** Splits a conjunction into its parts, and leaves equivalences whole. *)
Ltac split_all := repeat match goal with |- _ /\ _ => split end.

(** ** Validation *)

Lemma BaseField_validate_starts (rt : runtime) (self : field) (v : value) (e : exn) :
  BaseField_validate self v = Raise e -> validate rt self v = Raise e.
Proof.
  intros H. destruct self as [c m r h n vs nm d et it iv oe sf fl kf vf].
  destruct c; simpl in *; try exact H; rewrite H; reflexivity.
Qed.

Lemma validate_Ok_starts (rt : runtime) (self : field) (v : value) :
  validate rt self v = Ok tt -> BaseField_validate self v = Ok tt.
Proof.
  intros H. destruct (BaseField_validate self v) as [[]|e] eqn:Hb; [reflexivity|].
  rewrite (BaseField_validate_starts rt self v e Hb) in H. discriminate.
Qed.

(** C1, as the claim states it, fails for a generic field: its types are
    the builtin [any], against which no value can be checked, and its
    [validate] makes no type check, of a value that is not [None] either. *)
Lemma generic_field_skips_the_type_check :
  Field___init__ bare GenericField no_kwargs = Ok (blank GenericField) /\
  is_None (VInt 1) = false /\
  isinstance_types (blank GenericField) (VInt 1) = Raise TypeError /\
  _validate_against_types (blank GenericField) (VInt 1) = Ok tt /\
  validate bare (blank GenericField) (VInt 1) = Ok tt.
Proof. split_all; reflexivity. Qed.

(** C1, amended.  [validate] runs, in this order: (a) the check that the
    field has types, which raises when it has none; (b) the check of the
    value against the types, which a generic field never makes, and which
    every other field does not make when the value is [None] and makes
    otherwise; (c) the check of requiredness, which raises
    [RequiredFieldError] exactly when the value is [None] and the field is
    required; (d) the validators, in the order of the list, the first one
    that raises ending the call.  A validator is run by its [validate]
    method; when it has none, or the method raises [AttributeError], it is
    called instead, and one that cannot be called is a [TypeError].  When
    the value is [None] and the field is nullable the validators are not
    run, and (a) to (c) are.  Every field class starts its [validate]
    with these steps, and the classes that do not define their own
    [validate] run nothing else. *)
Theorem validate_checks_in_order (rt : runtime) (self : field) (v : value) :
  (types self = None -> BaseField_validate self v = Raise (not_usable self)) /\
  (is_None v = true -> _validate_against_types self v = Ok tt) /\
  (cls self = GenericField -> _validate_against_types self v = Ok tt) /\
  (is_None v = false -> cls self <> GenericField ->
     (isinstance_types self v = Ok true -> _validate_against_types self v = Ok tt) /\
     (isinstance_types self v = Ok false ->
        _validate_against_types self v = Raise (BadTypeError v (types self) false)) /\
     (forall e, isinstance_types self v = Raise e ->
        _validate_against_types self v = Raise e)) /\
  (types self <> None -> forall e,
     _validate_against_types self v = Raise e -> BaseField_validate self v = Raise e) /\
  (_check_against_required self v = Raise RequiredFieldError <->
     is_None v = true /\ required self = true) /\
  (_check_against_required self v = Ok tt <->
     ~ (is_None v = true /\ required self = true)) /\
  (types self <> None -> _validate_against_types self v = Ok tt ->
     is_None v = true -> required self = true ->
     BaseField_validate self v = Raise RequiredFieldError) /\
  (types self <> None -> _validate_against_types self v = Ok tt ->
     _check_against_required self v = Ok tt ->
     BaseField_validate self v = _validate_with_custom_validators self v) /\
  (is_None v && nullable self = false ->
     (forall e, _validate_with_custom_validators self v = Raise e <->
        exists (i : nat) (w : validator),
          validators self !! i = Some w /\ run_validator w v = Raise e /\
          forall (j : nat) (w' : validator),
            (j < i)%nat -> validators self !! j = Some w' -> run_validator w' v = Ok tt) /\
     (_validate_with_custom_validators self v = Ok tt <->
        forall w, In w (validators self) -> run_validator w v = Ok tt)) /\
  (forall (w : validator) (method : value -> result unit),
     validate_method w = Some method ->
     (method v <> Raise AttributeError -> run_validator w v = method v) /\
     (method v = Raise AttributeError -> run_validator w v = call_validator w v)) /\
  (forall w : validator,
     validate_method w = None -> run_validator w v = call_validator w v) /\
  (forall w : validator,
     call_validator w v = match call_method w with
                          | Some function => function v
                          | None => Raise TypeError
                          end) /\
  (is_None v = true -> nullable self = true ->
     _validate_with_custom_validators self v = Ok tt /\
     (types self <> None ->
      BaseField_validate self v =
        if required self then Raise RequiredFieldError else Ok tt)) /\
  (forall e, BaseField_validate self v = Raise e -> validate rt self v = Raise e) /\
  (validate rt self v = Ok tt -> BaseField_validate self v = Ok tt) /\
  (cls self <> ListField -> cls self <> DerivedListField ->
   cls self <> EmbeddedField -> cls self <> MapField ->
   validate rt self v = BaseField_validate self v).
Proof.
  split_all.
  - intros Ht. unfold BaseField_validate, _check_types, not_usable. now rewrite Ht.
  - intros Hv. unfold _validate_against_types. rewrite Hv. now destruct (cls self).
  - intros Hc. unfold _validate_against_types. now rewrite Hc.
  - intros Hv Hc. unfold _validate_against_types. rewrite Hv. simpl.
    split_all.
    + intros ->. now destruct (cls self).
    + intros ->. now destruct (cls self).
    + intros e ->. now destruct (cls self).
  - intros Ht e He. unfold BaseField_validate, _check_types.
    destruct (types self); [|congruence]. simpl. now rewrite He.
  - unfold _check_against_required.
    destruct (is_None v), (required self); simpl;
      intuition (try discriminate; try congruence).
  - unfold _check_against_required.
    destruct (is_None v), (required self); simpl;
      intuition (try discriminate; try congruence).
  - intros Ht Hty Hv Hr. unfold BaseField_validate, _check_types.
    destruct (types self); [|congruence]. simpl. rewrite Hty. simpl.
    unfold _check_against_required. now rewrite Hv, Hr.
  - intros Ht Hty Hr. unfold BaseField_validate, _check_types.
    destruct (types self); [|congruence]. simpl. rewrite Hty, Hr. reflexivity.
  - intros Hn. unfold _validate_with_custom_validators. rewrite Hn. split.
    + intros e. apply forM_Raise.
    + apply forM_Ok.
  - intros w method Hm. unfold run_validator. rewrite Hm. split.
    + intros Hne. destruct (method v) as [[]|[]]; try reflexivity. congruence.
    + intros ->. reflexivity.
  - intros w Hm. unfold run_validator. now rewrite Hm.
  - intros w. reflexivity.
  - intros Hv Hn. unfold _validate_with_custom_validators. rewrite Hv, Hn. simpl.
    split; [reflexivity|]. intros Ht.
    unfold BaseField_validate, _check_types, _validate_against_types,
      _check_against_required, _validate_with_custom_validators.
    destruct (types self); [|congruence]. rewrite Hv, Hn. simpl.
    destruct (cls self), (required self); reflexivity.
  - apply BaseField_validate_starts.
  - apply validate_Ok_starts.
  - intros H1 H2 H3 H4. destruct self as [c m r h n vs nm d et it iv oe sf fl kf vf].
    simpl in *. destruct c; try reflexivity; congruence.
Qed.

(** Of two validators that both refuse, the first of the list decides;
    a nullable field does not run them on [None]; a value of another type
    is refused before they run. *)
Example first_validator_decides :
  let self := set_nullable true
                (set_validators [refuse_first; refuse_second] (blank StringField)) in
  Field___init__ bare StringField
    (Kwargs false true None (ValidatorList [refuse_first; refuse_second]) NotSet None)
    = Ok self /\
  validate bare self (VStr "Alan") = Raise (ValidationError "first") /\
  validate bare self VNone = Ok tt /\
  validate bare self (VInt 1) = Raise (BadTypeError (VInt 1) (Some [Class str_]) false) /\
  validate bare (blank BaseField) (VStr "Alan") = Raise (not_usable (blank BaseField)).
Proof. intros self. split_all; reflexivity. Qed.

(** ** Assignment *)

Lemma _finish_initialization_memory (rt : runtime) (self : field) (owner : model_class) :
  memory (snd (_finish_initialization rt self owner)) = memory self.
Proof.
  destruct self as [c m r h n vs nm d et it iv oe sf fl kf vf].
  destruct c; simpl; try reflexivity.
  - destruct (resolve rt owner it); reflexivity.
  - destruct (resolve rt owner it); reflexivity.
  - destruct (resolve rt owner et); reflexivity.
  - destruct kf as [k|]; [|reflexivity].
    destruct (_finish_initialization rt k owner) as [[[]|e] k']; [|reflexivity].
    destruct vf as [x|]; [|reflexivity].
    destruct (_finish_initialization rt x owner) as [r' x']. reflexivity.
Qed.

Lemma memory_set_memory (m : gmap positive value) (self : field) :
  memory (set_memory m self) = m.
Proof. now destruct self. Qed.

(** C2.  [__set__] finishes the initialization of the field, computes
    [parsed = parse_value(raw)] and runs [validate(parsed)].  When one of
    them raises, the call raises the same exception and the store of the
    field is as it was before the call; when all succeed, the store is the
    store before the call with [parsed] under the key of the instance. *)
Theorem set_stores_on_success_only (rt : runtime) (self : field) (obj : instance)
    (raw : value) :
  let started := _finish_initialization rt self (type_of obj) in
  let after := __set__ rt self obj raw in
  match fst started with
  | Raise e => fst after = Raise e /\ memory (snd after) = memory self
  | Ok _ =>
      match parse_value rt (snd started) raw with
      | Raise e => fst after = Raise e /\ memory (snd after) = memory self
      | Ok parsed =>
          match validate rt (snd started) parsed with
          | Raise e => fst after = Raise e /\ memory (snd after) = memory self
          | Ok _ =>
              fst after = Ok tt /\
              memory (snd after) = <[_cache_key obj := parsed]> (memory self)
          end
      end
  end.
Proof.
  intros started after. subst started after. unfold __set__.
  pose proof (_finish_initialization_memory rt self (type_of obj)) as Hm.
  destruct (_finish_initialization rt self (type_of obj)) as [[[]|e] self1];
    simpl in *; [|now split].
  destruct (parse_value rt self1 raw) as [parsed|e]; simpl; [|now split].
  destruct (validate rt self1 parsed) as [[]|e]; simpl; [|now split].
  split; [reflexivity|]. now rewrite memory_set_memory, Hm.
Qed.

(** [IntField()] assigned ["42"] stores the integer 42; assigned a string
    that is no number, it raises and stores nothing. *)
Example int_field_stores_42 :
  let after := __set__ bare (blank IntField) alan (VStr "42") in
  fst after = Ok tt /\ memory (snd after) !! _cache_key alan = Some (VInt 42).
Proof. split; reflexivity. Qed.

Example int_field_rejects_words :
  let after := __set__ bare (blank IntField) alan (VStr "forty-two") in
  fst after = Raise (BadTypeError (VStr "forty-two") (Some [Class int_]) false) /\
  memory (snd after) !! _cache_key alan = None.
Proof. split; reflexivity. Qed.

(** ** Reading *)

Lemma resolve_resolved (rt : runtime) (owner owner' : model_class)
    (ts ts' : list type_entry) :
  resolve rt owner ts = Ok ts' -> resolve rt owner' ts' = Ok ts'.
Proof.
  unfold resolve. revert ts'. induction ts as [|t ts IH]; simpl; intros ts' H.
  - now inversion H.
  - destruct t as [c|path|]; simpl in H.
    + destruct (mapM _ ts) as [us|e] eqn:Hus; simpl in H; [|discriminate].
      inversion H; subst. simpl. now rewrite (IH us eq_refl).
    + destruct (evaluate rt path owner) as [c|e]; simpl in H; [|discriminate].
      destruct (mapM _ ts) as [us|e] eqn:Hus; simpl in H; [|discriminate].
      inversion H; subst. simpl. now rewrite (IH us eq_refl).
    + destruct (mapM _ ts) as [us|e] eqn:Hus; simpl in H; [|discriminate].
      inversion H; subst. simpl. now rewrite (IH us eq_refl).
Qed.

(** Once [_finish_initialization] has succeeded, it succeeds again and
    changes nothing, whoever the owner is. *)
Lemma _finish_initialization_again (rt : runtime) (self : field) :
  forall (owner owner' : model_class) (self' : field),
    _finish_initialization rt self owner = (Ok tt, self') ->
    _finish_initialization rt self' owner' = (Ok tt, self').
Proof.
  induction self as [self IHf IHk IHv] using field_induction.
  intros owner owner' self' H.
  destruct self as [c m r h n vs nm d et it iv oe sf fl kf vf].
  destruct c; simpl in H; try (inversion H; subst; reflexivity).
  - destruct (resolve rt owner it) as [ts|e] eqn:Hr; inversion H; subst.
    simpl. now rewrite (resolve_resolved _ _ owner' _ _ Hr).
  - destruct (resolve rt owner it) as [ts|e] eqn:Hr; inversion H; subst.
    simpl. now rewrite (resolve_resolved _ _ owner' _ _ Hr).
  - destruct (resolve rt owner et) as [ts|e] eqn:Hr; inversion H; subst.
    simpl. now rewrite (resolve_resolved _ _ owner' _ _ Hr).
  - simpl in IHk, IHv.
    destruct kf as [k|]; [|discriminate].
    destruct (_finish_initialization rt k owner) as [[[]|e] k'] eqn:Hk; [|discriminate].
    destruct vf as [x|]; [|discriminate].
    destruct (_finish_initialization rt x owner) as [r' x'] eqn:Hx.
    inversion H; subst. simpl.
    rewrite (IHk owner owner' k' Hk), (IHv owner owner' x' Hx). reflexivity.
Qed.

Lemma _finish_initialization_set_memory (rt : runtime) (self : field)
    (owner : model_class) (m : gmap positive value) :
  _finish_initialization rt (set_memory m self) owner =
  (fst (_finish_initialization rt self owner),
   set_memory m (snd (_finish_initialization rt self owner))).
Proof.
  destruct self as [c m0 r h n vs nm d et it iv oe sf fl kf vf].
  destruct c; simpl; try reflexivity.
  - destruct (resolve rt owner it); reflexivity.
  - destruct (resolve rt owner it); reflexivity.
  - destruct (resolve rt owner et); reflexivity.
  - destruct kf as [k|]; [|reflexivity].
    destruct (_finish_initialization rt k owner) as [[[]|e] k']; [|reflexivity].
    destruct vf as [x|]; [|reflexivity].
    destruct (_finish_initialization rt x owner) as [r' x']. reflexivity.
Qed.

(** A stored value is returned as it is: nothing is parsed, validated or
    stored. *)
Lemma get_stored (rt : runtime) (self : field) (obj : instance) (owner : model_class)
    (stored : value) :
  memory self !! _cache_key obj = Some stored ->
  __get__ rt self (Some obj) owner =
    (match fst (_finish_initialization rt self (type_of obj)) with
     | Ok _ => Ok (Value stored)
     | Raise e => Raise e
     end,
     snd (_finish_initialization rt self (type_of obj))).
Proof.
  intros Hs. unfold __get__.
  pose proof (_finish_initialization_memory rt self (type_of obj)) as Hm.
  destruct (_finish_initialization rt self (type_of obj)) as [[[]|e] self1];
    simpl in *; [|reflexivity].
  unfold _check_value. rewrite Hm, Hs. simpl. now rewrite Hm, Hs.
Qed.

(** C4, as the claim states it, fails: a required field without a default
    raises [RequiredFieldError] on the first read and stores nothing, so
    the next read raises again. *)
Lemma get_required_unset_raises :
  Field___init__ bare StringField (Kwargs true false None NoValidators NotSet None)
    = Ok required_string /\
  memory required_string !! _cache_key alan = None /\
  __get__ bare required_string (Some alan) Person
    = (Raise RequiredFieldError, required_string).
Proof. split_all; reflexivity. Qed.

(** A list field that was never assigned reads as an empty collection. *)
Example list_field_reads_empty :
  fst (__get__ bare (set_items_types [Class str_] (blank ListField)) (Some alan) Person)
  = Ok (Value (VCollection [])).
Proof. reflexivity. Qed.

(** C4, amended.  On an instance without a stored value, [__get__]
    finishes the initialization of the field and assigns the default:
    when [parse_value] and [validate] accept the default, it stores
    [parse_value(get_default_value())] under the key of the instance and
    returns it, and from then on every read of that instance, with any
    owner, returns the same value and changes nothing; a read of an
    instance that has a stored value returns that value, whatever wrote
    it.  When the initialization, [parse_value] or [validate] raises,
    [__get__] raises the same exception and stores nothing, and the next
    read raises it again. *)
Theorem get_materializes_default_once (rt : runtime) (self : field)
    (obj : instance) (owner : model_class) :
  memory self !! _cache_key obj = None ->
  let started := _finish_initialization rt self (type_of obj) in
  let self1 := snd started in
  let read := __get__ rt self (Some obj) owner in
  match fst started with
  | Raise e => read = (Raise e, self1) /\ memory self1 = memory self
  | Ok _ =>
      match parse_value rt self1 (get_default_value self1) with
      | Raise e =>
          read = (Raise e, self1) /\ memory self1 = memory self /\
          forall owner', __get__ rt self1 (Some obj) owner' = (Raise e, self1)
      | Ok parsed =>
          match validate rt self1 parsed with
          | Raise e =>
              read = (Raise e, self1) /\ memory self1 = memory self /\
              forall owner', __get__ rt self1 (Some obj) owner' = (Raise e, self1)
          | Ok _ =>
              exists self2 : field,
                read = (Ok (Value parsed), self2) /\
                memory self2 = <[_cache_key obj := parsed]> (memory self) /\
                (forall owner',
                   __get__ rt self2 (Some obj) owner' = (Ok (Value parsed), self2)) /\
                (forall (later : field) (stored : value) (owner' : model_class),
                   memory later !! _cache_key obj = Some stored ->
                   _finish_initialization rt later (type_of obj) = (Ok tt, later) ->
                   __get__ rt later (Some obj) owner' = (Ok (Value stored), later))
          end
      end
  end.
Proof.
  intros Hnone started self1 read. subst read self1 started.
  pose proof (_finish_initialization_memory rt self (type_of obj)) as Hm.
  destruct (_finish_initialization rt self (type_of obj)) as [[[]|e] self1] eqn:Hfin;
    cbn [fst snd] in *.
  2:{ split; [|exact Hm]. unfold __get__. now rewrite Hfin. }
  pose proof (_finish_initialization_again rt self _ (type_of obj) _ Hfin) as Hagain.
  assert (Hnone1 : memory self1 !! _cache_key obj = None) by now rewrite Hm.
  assert (Hread : forall f, _finish_initialization rt f (type_of obj) = (Ok tt, self1) ->
            __get__ rt f (Some obj) owner =
              let '(r, self2) := __set__ rt self1 obj (get_default_value self1) in
              match r with
              | Raise e => (Raise e, self2)
              | Ok _ => match memory self2 !! _cache_key obj with
                        | Some v => (Ok (Value v), self2)
                        | None => (Raise KeyError, self2)
                        end
              end).
  { intros f Hf. unfold __get__. rewrite Hf. unfold _check_value. now rewrite Hnone1. }
  assert (Hread' : forall owner', __get__ rt self1 (Some obj) owner' =
              let '(r, self2) := __set__ rt self1 obj (get_default_value self1) in
              match r with
              | Raise e => (Raise e, self2)
              | Ok _ => match memory self2 !! _cache_key obj with
                        | Some v => (Ok (Value v), self2)
                        | None => (Raise KeyError, self2)
                        end
              end).
  { intros owner'. unfold __get__. rewrite Hagain. unfold _check_value.
    now rewrite Hnone1. }
  rewrite (Hread self Hfin).
  destruct (parse_value rt self1 (get_default_value self1)) as [parsed|e] eqn:Hparse.
  2:{ assert (Hset : __set__ rt self1 obj (get_default_value self1) = (Raise e, self1))
        by (unfold __set__; now rewrite Hagain, Hparse).
      rewrite Hset. split_all; auto. intros owner'. now rewrite Hread', Hset. }
  destruct (validate rt self1 parsed) as [[]|e] eqn:Hval.
  2:{ assert (Hset : __set__ rt self1 obj (get_default_value self1) = (Raise e, self1))
        by (unfold __set__; now rewrite Hagain, Hparse, Hval).
      rewrite Hset. split_all; auto. intros owner'. now rewrite Hread', Hset. }
  set (self2 := set_memory (<[_cache_key obj := parsed]> (memory self1)) self1).
  assert (Hset : __set__ rt self1 obj (get_default_value self1) = (Ok tt, self2))
    by (unfold __set__; now rewrite Hagain, Hparse, Hval).
  assert (Hstored : memory self2 !! _cache_key obj = Some parsed)
    by (unfold self2; now rewrite memory_set_memory, lookup_insert_eq).
  assert (Hfin2 : _finish_initialization rt self2 (type_of obj) = (Ok tt, self2)).
  { unfold self2. rewrite _finish_initialization_set_memory, Hagain. reflexivity. }
  rewrite Hset. cbn beta iota. rewrite Hstored.
  exists self2. split_all.
  - reflexivity.
  - unfold self2. now rewrite memory_set_memory, Hm.
  - intros owner'. rewrite (get_stored rt self2 obj owner' parsed Hstored).
    now rewrite Hfin2.
  - intros later stored owner' Hs Hl.
    rewrite (get_stored rt later obj owner' stored Hs). now rewrite Hl.
Qed.

(** ** Embedded models *)

Lemma dict_set_keys (c c' : model_class) (ns : list string)
    (d : list (model_class * list string)) :
  In c' (map fst (dict_set c ns d)) <-> c' = c \/ In c' (map fst d).
Proof.
  induction d as [|[k v] d IH]; simpl.
  - intuition.
  - unfold model_class_eqb. case_bool_decide as Hk; simpl.
    + subst k. intuition.
    + rewrite IH. intuition.
Qed.

Lemma dict_set_NoDup (c : model_class) (ns : list string)
    (d : list (model_class * list string)) :
  List.NoDup (map fst d) -> List.NoDup (map fst (dict_set c ns d)).
Proof.
  induction d as [|[k v] d IH]; simpl; intros Hd.
  - constructor; [intros [] | constructor].
  - inversion Hd as [|? ? Hk Hd']; subst.
    unfold model_class_eqb. case_bool_decide as Hck; simpl.
    + constructor; assumption.
    + constructor; [|now apply IH].
      rewrite dict_set_keys. intros [->|Hin]; [now apply Hck | now apply Hk].
Qed.

Lemma dict_set_names (c : model_class) (d : list (model_class * list string)) :
  names_of_keys d -> names_of_keys (dict_set c (map wire_name (cls_fields c)) d).
Proof.
  unfold names_of_keys. induction d as [|[k v] d IH]; simpl; intros Hd c' ns Hin.
  - destruct Hin as [[= <- <-]|[]]. reflexivity.
  - unfold model_class_eqb in Hin. case_bool_decide as Hck; simpl in Hin.
    + subst k. destruct Hin as [[= <- <-]|Hin]; [reflexivity|].
      apply Hd. now right.
    + destruct Hin as [[= <- <-]|Hin].
      * apply Hd. now left.
      * apply IH; [|exact Hin]. intros c'' ns'' H. apply Hd. now right.
Qed.

(** The dict comprehension holds each model of the list once, with the
    names of its fields. *)
Lemma model_fields_keys (models : list type_entry) :
  List.NoDup (map fst (model_fields models)) /\
  names_of_keys (model_fields models) /\
  forall c, In c (map fst (model_fields models)) <-> In (Class (Model c)) models.
Proof.
  unfold model_fields.
  assert (G : forall d,
             List.NoDup (map fst d) -> names_of_keys d ->
             let d' := fold_left
                         (fun d model =>
                            match model with
                            | Class (Model c) => dict_set c (map wire_name (cls_fields c)) d
                            | _ => d
                            end) models d in
             List.NoDup (map fst d') /\ names_of_keys d' /\
             forall c, In c (map fst d') <-> In c (map fst d) \/ In (Class (Model c)) models).
  { induction models as [|t models IH]; simpl; intros d Hd Hn.
    - split_all; auto. intuition.
    - destruct t as [[| | | | | | | | | | | | |c]|path|]; simpl;
        try (destruct (IH d Hd Hn) as (H1 & H2 & H3); split_all; auto;
             intros c'; rewrite H3; intuition congruence).
      destruct (IH (dict_set c (map wire_name (cls_fields c)) d)
                  (dict_set_NoDup _ _ _ Hd) (dict_set_names _ _ Hn)) as (H1 & H2 & H3).
      split_all; auto.
      intros c'. rewrite H3, dict_set_keys. intuition congruence. }
  destruct (G [] (List.NoDup_nil _)) as (H1 & H2 & H3).
  - intros c ns [].
  - split_all; auto. intros c. rewrite H3. simpl. intuition.
Qed.

Lemma matching_filter (d : list (model_class * list string)) (its : list (value * value)) :
  names_of_keys d ->
  matching d (VDict its) = Ok (List.filter (fun c => fits c its) (map fst d)).
Proof.
  induction d as [|[c ns] d IH]; simpl; intros Hn.
  - reflexivity.
  - rewrite IH by (intros c' ns' H; apply Hn; now right).
    simpl. rewrite (Hn c ns (or_introl eq_refl)).
    unfold fits. now destruct (forallb _ _).
Qed.

Section Filter.
Context {A : Type} (P : A -> bool).

Lemma filter_none (l : list A) :
  (forall x, In x l -> P x = false) -> List.filter P l = [].
Proof.
  induction l as [|x l IH]; simpl; intros H; [reflexivity|].
  rewrite (H x (or_introl eq_refl)). apply IH. intros y Hy. apply H. now right.
Qed.

Lemma filter_unique (l : list A) (x : A) :
  List.NoDup l -> In x l -> P x = true ->
  (forall y, In y l -> P y = true -> y = x) ->
  List.filter P l = [x].
Proof.
  induction l as [|z l IH]; simpl; intros Hd Hin Hx Hu; [contradiction|].
  inversion Hd as [|? ? Hz Hd']; subst.
  destruct (P z) eqn:Pz.
  - assert (z = x) by (apply Hu; auto). subst z. f_equal.
    apply filter_none. intros y Hy.
    destruct (P y) eqn:Py; [|reflexivity].
    assert (y = x) by (apply Hu; auto). subst y. contradiction.
  - destruct Hin as [->|Hin]; [congruence|].
    apply IH; auto.
Qed.

Lemma filter_two (l : list A) (x y : A) :
  In x l -> In y l -> x <> y -> P x = true -> P y = true ->
  forall z, List.filter P l <> [z].
Proof.
  intros Hx Hy Hne Px Py z Hz.
  assert (Fx : In x (List.filter P l)) by (apply List.filter_In; auto).
  assert (Fy : In y (List.filter P l)) by (apply List.filter_In; auto).
  rewrite Hz in Fx, Fy. simpl in Fx, Fy.
  destruct Fx as [<-|[]], Fy as [<-|[]]. now apply Hne.
Qed.
End Filter.

Lemma py_eq_VStr (k : value) (n : string) : py_eq k (VStr n) = true <-> k = VStr n.
Proof.
  destruct k; simpl; try (split; [discriminate | intros [=]]).
  rewrite String.eqb_eq. split; congruence.
Qed.

Lemma wire_name_is_wire_name_of (n : string) (entry : string * option string) :
  wire_name entry = n <-> is_wire_name_of n entry.
Proof.
  destruct entry as [attr [override|]]; unfold is_wire_name_of; simpl.
  - destruct (String.eqb override EmptyString); split; congruence.
  - split; congruence.
Qed.

(** What the code computes is what the specification says. *)
Lemma fits_covers (c : model_class) (its : list (value * value)) :
  fits c its = true <-> covers c its.
Proof.
  unfold fits, covers. rewrite forallb_forall. split.
  - intros H k Hk. specialize (H k Hk). apply existsb_exists in H.
    destruct H as (n & Hn & Heq). apply py_eq_VStr in Heq.
    apply in_map_iff in Hn. destruct Hn as (entry & Hw & Hin).
    exists n, entry. split_all; auto. now apply wire_name_is_wire_name_of.
  - intros H k Hk. destruct (H k Hk) as (n & entry & -> & Hin & Hw).
    apply existsb_exists. exists n. split; [|now apply py_eq_VStr].
    apply in_map_iff. exists entry. split; [|exact Hin].
    now apply wire_name_is_wire_name_of.
Qed.

Lemma covers_strings (c : model_class) (its : list (value * value)) :
  covers c its -> forallb is_str (map fst its) = true.
Proof.
  intros H. apply forallb_forall. intros k Hk.
  destruct (H k Hk) as (n & _ & -> & _). reflexivity.
Qed.

(** C3.  On a mapping, [EmbeddedField.parse_value] does this.  With one
    candidate, that candidate is constructed from the mapping, its items
    the keyword arguments, whatever its keys are: no key is compared with
    a field (a key that is not a string cannot be a keyword, and a
    candidate that is not a class cannot be called: both are a
    [TypeError]).  With more than one, the candidates that have a field
    registry and whose wire names, the override of a field and else its
    attribute name, cover the keys of the mapping are selected: when
    exactly one candidate is selected it is constructed from the mapping,
    and when none or two different ones are selected the call raises
    [AmbiguousTypeError] with the whole list of candidates. *)
Theorem embedded_type_is_the_only_fit (rt : runtime) (self : field)
    (its : list (value * value)) :
  let models := embedded_types self in
  let payload := VDict its in
  (forall c, models = [Class c] ->
     EmbeddedField_parse_value rt self payload
       = if forallb is_str (map fst its) then rt_construct rt c its
         else Raise TypeError) /\
  (forall model, models = [model] -> (forall c, model <> Class c) ->
     EmbeddedField_parse_value rt self payload = Raise TypeError) /\
  ((1 < length models)%nat ->
     (forall c, In (Class (Model c)) models -> covers c its ->
        (forall c', In (Class (Model c')) models -> covers c' its -> c' = c) ->
        EmbeddedField_parse_value rt self payload = rt_construct rt (Model c) its) /\
     ((forall c, In (Class (Model c)) models -> ~ covers c its) ->
        EmbeddedField_parse_value rt self payload = Raise (AmbiguousTypeError models)) /\
     (forall c c', In (Class (Model c)) models -> In (Class (Model c')) models ->
        c <> c' -> covers c its -> covers c' its ->
        EmbeddedField_parse_value rt self payload = Raise (AmbiguousTypeError models))).
Proof.
  intros models payload. subst payload.
  unfold EmbeddedField_parse_value, _get_embed_type. fold models. simpl.
  split_all.
  - intros c ->. reflexivity.
  - intros model -> Hno. destruct model as [c| |]; [|reflexivity..].
    now destruct (Hno c).
  - intros Hlen. apply Nat.ltb_lt in Hlen. rewrite Hlen.
    destruct (model_fields_keys models) as (Hd & Hn & Hk).
    rewrite (matching_filter _ _ Hn). simpl. split_all.
    + intros c Hc Fc Hu.
      rewrite (filter_unique _ _ c Hd).
      * simpl. now rewrite (covers_strings c its Fc).
      * now apply Hk.
      * now apply fits_covers.
      * intros c' Hc' Fc'. apply Hu; [now apply Hk | now apply fits_covers].
    + intros Hnone. rewrite filter_none; [reflexivity|].
      intros c Hc. destruct (fits c its) eqn:Fc; [|reflexivity].
      destruct (Hnone c); [now apply Hk | now apply fits_covers].
    + intros c c' Hc Hc' Hne Fc Fc'.
      apply fits_covers in Fc, Fc'.
      pose proof (filter_two (fun c => fits c its) (map fst (model_fields models))
                    c c' (proj2 (Hk c) Hc) (proj2 (Hk c') Hc') Hne Fc Fc') as Hno.
      destruct (List.filter _ _) as [|z [|z' l]]; try reflexivity.
      now destruct (Hno z).
Qed.

(** A field of two candidates: the keys of the first mapping are names of
    [Person] alone, those of the second are names of both, those of the
    third of neither. *)
Example person_or_car :
  let self := set_embedded_types [Class (Model Person); Class (Model Car)]
                (blank EmbeddedField) in
  EmbeddedField___init__ bare
    (ManyModels [ByObject (Class (Model Person)); ByObject (Class (Model Car))])
    no_kwargs = Ok self /\
  parse_value bare self (VDict [(VStr "family-name", VStr "Turing")])
    = Ok (VInstance Person [(VStr "family-name", VStr "Turing")]) /\
  parse_value bare self (VDict [(VStr "name", VStr "Alan")])
    = Raise (AmbiguousTypeError [Class (Model Person); Class (Model Car)]) /\
  parse_value bare self (VDict [(VStr "age", VInt 41)])
    = Raise (AmbiguousTypeError [Class (Model Person); Class (Model Car)]).
Proof. intros self. split_all; reflexivity. Qed.

(** One candidate is constructed from any mapping, also from one whose
    keys are no names of its fields. *)
Example one_candidate_is_not_checked :
  parse_value bare (set_embedded_types [Class (Model Car)] (blank EmbeddedField))
    (VDict [(VStr "age", VInt 41)])
  = Ok (VInstance Car [(VStr "age", VInt 41)]).
Proof. reflexivity. Qed.

(** ** Lazy type references *)

Lemma lstrip_not_startswith (c : ascii) (s : string) :
  startswith c s = false -> lstrip c s = s.
Proof. destruct s as [|d s]; simpl; [reflexivity|]. now intros ->. Qed.

(** A path without a leading dot is taken as it is. *)
Lemma _get_modules_absolute (relative_path base_module : string) :
  startswith "."%char relative_path = false ->
  _get_modules relative_path base_module = Ok (split "."%char relative_path).
Proof.
  intros H. unfold _get_modules. rewrite H. simpl.
  now rewrite lstrip_not_startswith.
Qed.

Lemma lstrip_dots (n : nat) (rest : string) :
  startswith "."%char rest = false -> lstrip "."%char (dots n +:+ rest) = rest.
Proof.
  intros H. induction n as [|n IH]; simpl.
  - now apply lstrip_not_startswith.
  - exact IH.
Qed.

Lemma length_dots (n : nat) (rest : string) :
  String.length (dots n +:+ rest) = (n + String.length rest)%nat.
Proof. induction n as [|n IH]; simpl; [reflexivity | now rewrite IH]. Qed.

(** With two dots or more, each dot after the first drops one trailing
    segment of the namespace, and a path that asks for more segments than
    the namespace has is refused. *)
Lemma _get_modules_relative (n : nat) (rest base_module : string) :
  startswith "."%char rest = false ->
  let parent_modules := split "."%char base_module in
  _get_modules (dots (S (S n)) +:+ rest) base_module =
    if (length parent_modules <? S n)%nat
    then Raise (ValueError ("Can't evaluate path '" +:+ (dots (S (S n)) +:+ rest) +:+ "'"))
    else Ok (firstn (length parent_modules - S n) parent_modules
             ++ split "."%char rest).
Proof.
  intros Hs parent_modules. unfold _get_modules.
  change (startswith "."%char (dots (S (S n)) +:+ rest)) with true.
  rewrite (lstrip_dots _ _ Hs), length_dots. cbn [negb]. fold parent_modules.
  replace (Z.max 0 (Z.of_nat (S (S n) + String.length rest)
                    - Z.of_nat (String.length rest) - 1))
    with (Z.of_nat (S n)) by lia.
  destruct (length parent_modules <? S n)%nat eqn:Hlen.
  - apply Nat.ltb_lt in Hlen.
    destruct (Z.of_nat (length parent_modules) <? Z.of_nat (S n)) eqn:Hz;
      [reflexivity | apply Z.ltb_ge in Hz; lia].
  - apply Nat.ltb_ge in Hlen.
    destruct (Z.of_nat (length parent_modules) <? Z.of_nat (S n)) eqn:Hz;
      [apply Z.ltb_lt in Hz; lia|].
    unfold slice_to.
    destruct (Z.of_nat (S n) * -1 <? 0) eqn:Hneg; [|apply Z.ltb_ge in Hneg; lia].
    replace (Z.to_nat (Z.of_nat (length parent_modules) + Z.of_nat (S n) * -1))
      with (length parent_modules - S n)%nat by lia.
    reflexivity.
Qed.

(** C5, where the code leaves the claim.  A path with one leading dot is
    resolved without the namespace of the declaring class: [_get_modules]
    returns the segments of the path alone, whatever the namespace is,
    because [parent_modules[:0 * -1]] is the empty list.  So [".sub.Type"]
    declared in [pkg.mod] names the module [sub], and not [pkg.mod.sub]
    as the same namespace would have it; with two dots one segment of the
    namespace is dropped and the rest is kept. *)
Theorem one_dot_drops_the_namespace :
  (forall rest base_module : string,
     if startswith "."%char rest then True
     else _get_modules (String "."%char rest) base_module = Ok (split "."%char rest)) /\
  _get_modules ".sub.Type" "pkg.mod" = Ok ["sub"; "Type"] /\
  _evaluate_path ".sub.Type" (ModelClass "pkg.mod" "Owner" [])
    = Ok ("sub", "Type") /\
  _get_modules "..sub.Type" "pkg.mod" = Ok ["pkg"; "sub"; "Type"].
Proof.
  split_all; try reflexivity.
  intros rest base_module. destruct (startswith "."%char rest) eqn:Hs; [exact I|].
  unfold _get_modules. simpl.
  rewrite (lstrip_not_startswith _ _ Hs).
  replace (Z.max 0 (Z.of_nat (S (String.length rest)) - Z.of_nat (String.length rest) - 1))
    with 0 by lia.
  destruct (Z.of_nat (length (split "."%char base_module)) <? 0) eqn:Hlt;
    [apply Z.ltb_lt in Hlt; lia|].
  reflexivity.
Qed.

(** ** Integers *)

(** C6, where the code leaves the claim.  [IntField.parse_value] turns a
    [ValueError] of [int] into a [BadTypeError], and nothing else: a list
    or a mapping makes [int] raise [TypeError], an infinite float makes it
    raise [OverflowError], and both reach the caller of [parse_value] and
    of [__set__] as they are. *)
Theorem int_field_passes_native_errors :
  (forall xs, IntField_parse_value (VList xs) = Raise TypeError) /\
  (forall its, IntField_parse_value (VDict its) = Raise TypeError) /\
  (forall negative, IntField_parse_value (VFloat (FInf negative)) = Raise OverflowError) /\
  parse_value bare (blank IntField) (VList [VInt 1]) = Raise TypeError /\
  fst (__set__ bare (blank IntField) alan (VList [VInt 1])) = Raise TypeError /\
  IntField_parse_value (VStr "forty-two")
    = Raise (BadTypeError (VStr "forty-two") (Some [Class int_]) false) /\
  IntField_parse_value (VStr "42") = Ok (VInt 42) /\
  IntField_parse_value VNone = Ok VNone.
Proof. split_all; reflexivity. Qed.

(** What [int] reads in a string.  A file separator is not a blank and a
    no-break space is one; an underscore may stand between two digits;
    the digit after 4299 digits is read and the one after 4300 digits is
    not.  The length of a string is the number of its characters. *)
Example int_of_strings :
  IntField_parse_value (VStr (String (ascii_of_nat 28) "42"))
    = Raise (BadTypeError (VStr (String (ascii_of_nat 28) "42")) (Some [Class int_]) false) /\
  IntField_parse_value (VStr (" 42" +:+ String (ascii_of_nat 160) EmptyString))
    = Ok (VInt 42) /\
  IntField_parse_value (VStr "-4_2") = Ok (VInt (-42)) /\
  IntField_parse_value (VStr "4__2")
    = Raise (BadTypeError (VStr "4__2") (Some [Class int_]) false) /\
  digits 0 4299 true "7" = Some 7 /\
  digits 0 4300 true "7" = None /\
  len (VStr (String (ascii_of_nat 233) EmptyString)) = Ok 1.
Proof. split_all; reflexivity. Qed.

(** ** Defaults of map fields *)

(** C7.  A map field without a configured default has the empty mapping
    as its default exactly when it is required; when it is not required
    its default is that of [BaseField], which is [None]. *)
Theorem map_default_empty_iff_required (self : field) :
  cls self = MapField ->
  _default self = NotSet ->
  (get_default_value self = VDict [] <-> required self = true) /\
  (required self = false ->
     get_default_value self = BaseField_get_default_value self /\
     get_default_value self = VNone).
Proof.
  intros Hc Hd. unfold get_default_value, MapField_get_default_value,
    BaseField_get_default_value. rewrite Hc, Hd. simpl.
  destruct (required self); split; try split; try tauto; try discriminate;
    intros; try discriminate; try reflexivity; auto.
Qed.

Lemma map_default_empty_iff_required_witness :
  (get_default_value (set_required true (blank MapField)) = VDict [] <-> true = true) /\
  (true = false ->
     get_default_value (set_required true (blank MapField))
       = BaseField_get_default_value (set_required true (blank MapField)) /\
     get_default_value (set_required true (blank MapField)) = VNone).
Proof.
  exact (map_default_empty_iff_required (set_required true (blank MapField))
           eq_refl eq_refl).
Defined.

(** ** List fields *)

(** What [BaseField.__init__] leaves as the subclass set it. *)
Lemma BaseField___init___keeps (rt : runtime) (self self' : field) (kw : kwargs) :
  BaseField___init__ rt self kw = Ok self' ->
  cls self' = cls self /\
  items_types self' = items_types self /\
  item_validators self' = item_validators self /\
  required self' = kw_required kw /\
  _default self' = kw_default kw.
Proof.
  unfold BaseField___init__. intros H.
  destruct self as [c m r h n vs nm d et it iv oe sf fl kf vf].
  cbn [set_memory set_required set_help_text set_nullable _assign_validators
       set_validators set_name] in H.
  destruct (_validate_name _); simpl in H; [|discriminate].
  destruct (match kw_default kw with Default _ => _ | NotSet => _ end);
    simpl in H; [|discriminate].
  inversion H; subst. simpl. auto.
Qed.

(** C8.  A list field that [ListField.__init__] or
    [DerivedListField.__init__] has built is not required, whatever
    [required] was given, and its requiredness check raises for no value. *)
Theorem list_field_is_never_required (rt : runtime) (self : field) :
  (exists c items_types item_validators omit_empty kw,
     ListField___init__ rt c items_types item_validators omit_empty kw = Ok self) \/
  (exists f omit_empty kw, DerivedListField___init__ rt f omit_empty kw = Ok self) ->
  required self = false /\
  forall v, _check_against_required self v = Ok tt.
Proof.
  assert (G : forall s : field,
             required (set_omit_empty (_omit_empty self) (set_required false s)) = false)
    by (now intros []).
  intros H.
  assert (Hr : required self = false).
  { destruct H as [(c & its & ivs & oe & kw & H)|(f & oe & kw & H)].
    - unfold ListField___init__ in H.
      destruct (BaseField___init__ _ _ _) as [s|e]; simpl in H; [|discriminate].
      inversion H; subst. now destruct s.
    - unfold DerivedListField___init__ in H.
      destruct (BaseField___init__ _ _ _) as [s|e]; simpl in H; [|discriminate].
      inversion H; subst. now destruct s. }
  split; [exact Hr|].
  intros v. unfold _check_against_required. rewrite Hr. now destruct (is_None v).
Qed.

Lemma list_field_is_never_required_witness :
  required built_required_list = false /\
  forall v, _check_against_required built_required_list v = Ok tt.
Proof.
  apply (list_field_is_never_required bare built_required_list).
  left. exists ListField, (OneItem (ByObject (Class str_))), NoValidators, false,
    (Kwargs true false None NoValidators NotSet None).
  reflexivity.
Defined.

(** The flag is cleared after [BaseField.__init__] has validated the
    default: a required list field whose default is [None] is refused by
    the constructor. *)
Example required_list_with_null_default :
  ListField___init__ bare ListField NoItems NoValidators false
    (Kwargs true false None NoValidators (Default VNone) None)
  = Raise RequiredFieldError.
Proof. reflexivity. Qed.

Lemma parse_value_eq (rt : runtime) (self : field) (v : value) :
  cls self = ListField -> parse_value rt self v = ListField_parse_value rt self v.
Proof. destruct self. simpl. now intros ->. Qed.

Lemma ListField___init___no_items (rt : runtime) (self : field)
    (item_validators : validators_arg) (omit_empty : bool) (kw : kwargs) :
  ListField___init__ rt ListField NoItems item_validators omit_empty kw = Ok self ->
  cls self = ListField /\ items_types self = [].
Proof.
  unfold ListField___init__. intros H.
  destruct (BaseField___init__ _ _ _) as [s|e] eqn:Hs; simpl in H; [|discriminate].
  apply BaseField___init___keeps in Hs. destruct Hs as (Hc & Hi & _).
  inversion H; subst. destruct s. simpl in *. auto.
Qed.

(** C10.  A list field built without item types casts no element:
    [_cast_value] raises a [BadTypeError] of the list kind for an element
    that is not a mapping, and [IndexError] for a mapping, since there is
    no candidate to take.  So [parse_value] of a non-empty list raises
    what its first element raises.  The [validate_single_value] of such a
    field makes no type check: it runs the item validators and nothing
    else. *)
Theorem list_without_item_types_rejects_items (rt : runtime) (self : field)
    (item_validators' : validators_arg) (omit_empty : bool) (kw : kwargs) :
  ListField___init__ rt ListField NoItems item_validators' omit_empty kw = Ok self ->
  (forall v, _cast_value rt self v =
             if is_dict v then Raise IndexError
             else Raise (BadTypeError v (Some []) true)) /\
  (forall x xs, parse_value rt self (VList (x :: xs)) = _cast_value rt self x
                /\ parse_value rt self (VCollection (x :: xs)) = _cast_value rt self x) /\
  (forall v, ListField_validate_single_value self v
             = forM (fun validator => run_validator validator v) (item_validators self)) /\
  (forall v, (forall w, In w (item_validators self) -> run_validator w v = Ok tt) ->
             ListField_validate_single_value self v = Ok tt).
Proof.
  intros H. apply ListField___init___no_items in H. destruct H as (Hc & Hi).
  assert (Hcast : forall v, _cast_value rt self v =
                            if is_dict v then Raise IndexError
                            else Raise (BadTypeError v (Some []) true)).
  { intros v. unfold _cast_value. rewrite Hi. simpl. now destruct (is_dict v). }
  assert (Hsingle : forall v, ListField_validate_single_value self v
             = forM (fun validator => run_validator validator v) (item_validators self)).
  { intros v. unfold ListField_validate_single_value. rewrite Hi. simpl.
    now destruct (forM _ _) as [[]|e]. }
  split_all.
  - exact Hcast.
  - intros x xs. rewrite !(parse_value_eq _ _ _ Hc). unfold ListField_parse_value.
    simpl. rewrite Hcast. now destruct (is_dict x).
  - exact Hsingle.
  - intros v Hv. rewrite Hsingle. now apply forM_Ok.
Qed.

Lemma list_without_item_types_rejects_items_witness :
  (forall v, _cast_value bare (blank ListField) v =
             if is_dict v then Raise IndexError
             else Raise (BadTypeError v (Some []) true)) /\
  (forall x xs, parse_value bare (blank ListField) (VList (x :: xs))
                  = _cast_value bare (blank ListField) x
                /\ parse_value bare (blank ListField) (VCollection (x :: xs))
                  = _cast_value bare (blank ListField) x) /\
  (forall v, ListField_validate_single_value (blank ListField) v
             = forM (fun validator => run_validator validator v)
                 (item_validators (blank ListField))) /\
  (forall v, (forall w, In w (item_validators (blank ListField)) ->
                        run_validator w v = Ok tt) ->
             ListField_validate_single_value (blank ListField) v = Ok tt).
Proof.
  exact (list_without_item_types_rejects_items bare (blank ListField)
           NoValidators false no_kwargs eq_refl).
Defined.

(** ** Serialization and back *)

(** C9, as the claim states it, fails: a datetime belongs to the types of
    a date field, the field writes its date alone, and what is parsed back
    is a date, which no datetime equals. *)
Lemma date_field_drops_the_time :
  DateField___init__ bare None no_kwargs = Ok plain_date_field /\
  str_format plain_date_field = None /\
  isinstance_types plain_date_field noon = Ok true /\
  validate bare plain_date_field noon = Ok tt /\
  (forall (rt : runtime) (wire back : value),
     to_struct rt plain_date_field noon = Ok wire ->
     parse_value rt plain_date_field wire = Ok back ->
     ~ same back noon).
Proof.
  split_all; try reflexivity.
  intros rt wire back Hw Hb. simpl in Hw. inversion Hw; subst. simpl in Hb.
  unfold DateField_parse_value in Hb. simpl in Hb.
  destruct (rt_parse rt _) as [dt|e]; simpl in Hb; [|discriminate].
  inversion Hb; subst. intros [H|H]; discriminate.
Qed.

Lemma digit_char_digit (d : Z) :
  0 <= d < 10 -> is_digit (digit_char d) = true /\ digit_value (digit_char d) = d.
Proof.
  intros H.
  assert (C : d = 0 \/ d = 1 \/ d = 2 \/ d = 3 \/ d = 4 \/ d = 5 \/ d = 6 \/ d = 7 \/
              d = 8 \/ d = 9) by lia.
  repeat (destruct C as [-> | C]; [split; reflexivity|]). subst d. split; reflexivity.
Qed.

Lemma append_cons (c : ascii) (s rest : string) :
  String c s +:+ rest = String c (s +:+ rest).
Proof. reflexivity. Qed.

Lemma read_pad (width : nat) (n acc : Z) (rest : string) :
  0 <= n < 10 ^ Z.of_nat width ->
  read_digits width acc (pad width n +:+ rest) = Some (acc * 10 ^ Z.of_nat width + n, rest).
Proof.
  revert n acc. induction width as [|w IH]; intros n acc Hn.
  - simpl in *. f_equal. f_equal. lia.
  - rewrite Nat2Z.inj_succ, Z.pow_succ_r in * by lia.
    assert (Hp : 0 < 10 ^ Z.of_nat w) by (apply Z.pow_pos_nonneg; lia).
    assert (Hd : 0 <= n / 10 ^ Z.of_nat w < 10).
    { split; [apply Z.div_pos; lia | apply Z.div_lt_upper_bound; lia]. }
    pose proof (Z.mod_pos_bound n (10 ^ Z.of_nat w) Hp) as Hm.
    destruct (digit_char_digit _ Hd) as [H1 H2].
    cbn [pad]. rewrite append_cons. cbn [read_digits]. rewrite H1, H2, IH by exact Hm.
    f_equal. f_equal.
    pose proof (Z.div_mod n (10 ^ Z.of_nat w) ltac:(lia)). nia.
Qed.

Lemma append_nil_l (s : string) : EmptyString +:+ s = s.
Proof. reflexivity. Qed.

Lemma append_nil_r (s : string) : s +:+ EmptyString = s.
Proof. induction s as [|c s IH]; [reflexivity|]. now rewrite append_cons, IH. Qed.

Lemma read2 (n acc : Z) (rest : string) :
  0 <= n < 100 -> read_digits 2 acc (pad 2 n +:+ rest) = Some (acc * 100 + n, rest).
Proof. intros H. now rewrite (read_pad 2 n acc rest) by exact H. Qed.

Lemma read4 (n : Z) (rest : string) :
  0 <= n < 10000 -> read_digits 4 0 (pad 4 n +:+ rest) = Some (n, rest).
Proof. intros H. now rewrite (read_pad 4 n 0 rest) by exact H. Qed.

Lemma read6 (n : Z) (rest : string) :
  0 <= n < 1000000 -> read_digits 6 0 (pad 6 n +:+ rest) = Some (n, rest).
Proof. intros H. now rewrite (read_pad 6 n 0 rest) by exact H. Qed.

(** Brings the characters of a string to its front. *)
Ltac to_front := repeat (rewrite append_cons || rewrite append_nil_l).

(** The bounds of a valid value, as inequalities. *)
Ltac bounds H :=
  repeat (apply andb_prop in H; let H' := fresh "B" in destruct H as [H H']);
  repeat match goal with
         | B : (_ <=? _) = true |- _ => apply Z.leb_le in B
         | B : (_ <? _) = true |- _ => apply Z.ltb_lt in B
         end.

Lemma read_offset_iso (o : option Z) :
  match o with
  | Some x => -1440 < x < 1440
  | None => True
  end ->
  read_offset (iso_offset o) = Some o.
Proof.
  destruct o as [x|]; [|reflexivity]. intros Hx.
  assert (Hh : 0 <= Z.abs x / 60 < 24).
  { split; [apply Z.div_pos; lia | apply Z.div_lt_upper_bound; lia]. }
  pose proof (Z.mod_pos_bound (Z.abs x) 60 ltac:(lia)) as Hm.
  pose proof (Z.div_mod (Z.abs x) 60 ltac:(lia)) as Hdm.
  unfold iso_offset.
  rewrite <- (append_nil_r (pad 2 (Z.abs x mod 60))).
  destruct (x <? 0) eqn:Hneg; to_front; cbn [read_offset Ascii.eqb Bool.eqb orb];
    rewrite read2 by lia; cbn [mbind option_bind read_char Ascii.eqb Bool.eqb];
    rewrite read2 by lia; cbn [mbind option_bind String.eqb andb].
  - apply Z.ltb_lt in Hneg.
    destruct (Z.ltb_spec (0 * 100 + Z.abs x / 60) 24); [|lia].
    destruct (Z.ltb_spec (0 * 100 + Z.abs x mod 60) 60); [|lia].
    f_equal. f_equal. lia.
  - apply Z.ltb_ge in Hneg.
    destruct (Z.ltb_spec (0 * 100 + Z.abs x / 60) 24); [|lia].
    destruct (Z.ltb_spec (0 * 100 + Z.abs x mod 60) 60); [|lia].
    f_equal. f_equal. lia.
Qed.

Lemma iso_offset_front (o : option Z) :
  iso_offset o = EmptyString \/
  exists s, iso_offset o = String "+"%char s \/ iso_offset o = String "-"%char s.
Proof.
  destruct o as [x|]; [right|now left]. unfold iso_offset.
  destruct (x <? 0); to_front; eauto.
Qed.

Lemma read_fraction_iso (us : Z) (o : option Z) :
  0 <= us < 1000000 ->
  read_fraction (iso_fraction us +:+ iso_offset o) = Some (us, iso_offset o).
Proof.
  intros Hus. unfold iso_fraction. destruct (Z.eqb_spec us 0) as [->|Hne]; to_front.
  - destruct (iso_offset_front o) as [-> | (s & [-> | ->])]; reflexivity.
  - cbn [read_fraction Ascii.eqb Bool.eqb]. now rewrite read6 by lia.
Qed.

Lemma read_time_iso (t : pytime) :
  valid_time t = true -> read_time (iso_time t) = Some t.
Proof.
  destruct t as [h m s us o]. unfold valid_time. cbn [hour minute second microsecond utcoffset].
  intros H.
  assert (Ho : match o with Some x => -1440 < x < 1440 | None => True end).
  { destruct o as [x|]; [|exact I]. bounds H. lia. }
  bounds H.
  unfold read_time, iso_time. cbn [hour minute second microsecond utcoffset]. to_front.
  rewrite read2 by lia. cbn [mbind option_bind read_char Ascii.eqb Bool.eqb].
  rewrite read2 by lia. cbn [mbind option_bind read_char Ascii.eqb Bool.eqb].
  rewrite read2 by lia. cbn [mbind option_bind].
  rewrite read_fraction_iso by lia. cbn [mbind option_bind].
  rewrite read_offset_iso by exact Ho. cbn [mbind option_bind].
  destruct (Z.ltb_spec (0 * 100 + h) 24); [|lia].
  destruct (Z.ltb_spec (0 * 100 + m) 60); [|lia].
  destruct (Z.ltb_spec (0 * 100 + s) 60); [|lia].
  reflexivity.
Qed.

Lemma read_date_write (d : pydate) (rest : string) :
  valid_date d = true -> read_date (write_date d rest) = Some (d, rest).
Proof.
  destruct d as [y m dd]. intros H. pose proof H as Hv.
  unfold valid_date in H. cbn [year month day] in H. bounds H.
  assert (Hday : dd <= 31).
  { unfold days_in_month in *.
    destruct (m =? 2); [destruct (leap y); lia|].
    destruct ((m =? 4) || (m =? 6) || (m =? 9) || (m =? 11)); lia. }
  unfold read_date, write_date. cbn [year month day]. to_front.
  rewrite read4 by lia. cbn [mbind option_bind read_char Ascii.eqb Bool.eqb].
  rewrite read2 by lia. cbn [mbind option_bind read_char Ascii.eqb Bool.eqb].
  rewrite read2 by lia. cbn [mbind option_bind].
  replace (0 * 100 + m) with m by lia. replace (0 * 100 + dd) with dd by lia.
  now rewrite Hv.
Qed.

(** A time is not read as a date: its third character is a colon. *)
Lemma read_date_time (t : pytime) :
  valid_time t = true -> read_date (iso_time t) = None.
Proof.
  destruct t as [h m s us o]. unfold valid_time. cbn [hour]. intros H. bounds H.
  unfold read_date, iso_time. cbn [hour]. cbn [pad]. to_front.
  assert (H1 : 0 <= h / 10 ^ Z.of_nat 1 < 10).
  { change (10 ^ Z.of_nat 1) with 10.
    split; [apply Z.div_pos; lia | apply Z.div_lt_upper_bound; lia]. }
  assert (H2 : 0 <= (h mod 10 ^ Z.of_nat 1) / 10 ^ Z.of_nat 0 < 10).
  { change (10 ^ Z.of_nat 1) with 10. change (10 ^ Z.of_nat 0) with 1.
    rewrite Z.div_1_r. apply Z.mod_pos_bound. lia. }
  cbn [read_digits].
  rewrite (proj1 (digit_char_digit _ H1)), (proj1 (digit_char_digit _ H2)).
  reflexivity.
Qed.

Lemma iso_read_time (today : pydate) (t : pytime) :
  valid_time t = true -> iso_read today (iso_time t) = Some (DateTime today t).
Proof.
  intros H. unfold iso_read. rewrite (read_date_time t H), (read_time_iso t H).
  reflexivity.
Qed.

Lemma iso_read_date (today d : pydate) :
  valid_date d = true -> iso_read today (iso_date d) = Some (DateTime d midnight).
Proof.
  intros H. unfold iso_read, iso_date. now rewrite (read_date_write d _ H).
Qed.

Lemma iso_read_datetime (today : pydate) (dt : pydatetime) :
  valid_date (dt_date dt) = true -> valid_time (dt_time dt) = true ->
  iso_read today (iso_datetime dt) = Some dt.
Proof.
  intros Hd Ht. unfold iso_read, iso_datetime. to_front.
  rewrite (read_date_write _ _ Hd). cbn [Ascii.eqb Bool.eqb].
  rewrite (read_time_iso _ Ht). now destruct dt.
Qed.

(** C9, amended.  For a string, integer, float, boolean, time, date or
    datetime field without a format string, and a value [v] of the types
    of the field that, for a date field, is a date and not a datetime
    (the fields of a time, a date or a datetime being within their
    ranges, as [datetime] builds them):
    when the runtime writes ISO 8601 and its date parser reads it,
    [to_struct(v)] is [v] itself for a string, a number and a boolean
    and the ISO 8601 string of [v] for a time, a date and a datetime,
    [parse_value] of it succeeds, and the result is [v] or equals it. *)
Theorem scalar_round_trip (rt : runtime) (today : pydate) (self : field) (v : value) :
  writes_iso rt ->
  reads_iso rt today ->
  scalar (cls self) = true ->
  str_format self = None ->
  isinstance_types self v = Ok true ->
  (cls self = DateField -> type_ v = date_) ->
  well_formed v = true ->
  exists wire back : value,
    to_struct rt self v = Ok wire /\
    wire = written v /\
    parse_value rt self wire = Ok back /\
    same back v.
Proof.
  intros (Wt & Wd & Wdt) R Hs Hf Hi Hd Hw.
  destruct self as [c m r h n vs nm d et it iv oe sf fl kf vf].
  simpl in Hf. subst sf.
  destruct c; try discriminate Hs; simpl in Hi, Hd;
    destruct v; try discriminate Hi; try (specialize (Hd eq_refl); discriminate Hd);
    cbn [well_formed] in Hw.
  - (* string *) eexists _, _. split_all; try reflexivity. now left.
  - (* integer, a boolean *)
    eexists _, _. split_all; try reflexivity. right. simpl. apply Z.eqb_refl.
  - (* integer *) eexists _, _. split_all; try reflexivity. now left.
  - (* float, a boolean *) eexists _, _. split_all; try reflexivity. now left.
  - (* float, an integer *) eexists _, _. split_all; try reflexivity. now left.
  - (* float *) eexists _, _. split_all; try reflexivity. now left.
  - (* boolean *) eexists _, _. split_all; try reflexivity. now left.
  - (* time *)
    exists (VStr (iso_time t)), (VTime t). split_all; [|reflexivity| |now left].
    + simpl. unfold TimeField_to_struct. simpl. now rewrite (Wt t Hw).
    + simpl. unfold TimeField_parse_value. simpl.
      now rewrite (R _ _ (iso_read_time today t Hw)).
  - (* date *)
    exists (VStr (iso_date d0)), (VDate d0). split_all; [|reflexivity| |now left].
    + simpl. unfold DateField_to_struct. simpl. now rewrite (Wd d0 Hw).
    + simpl. unfold DateField_parse_value. simpl.
      now rewrite (R _ _ (iso_read_date today d0 Hw)).
  - (* datetime *)
    apply andb_prop in Hw. destruct Hw as [Hwd Hwt].
    exists (VStr (iso_datetime dt)), (VDateTime dt).
    split_all; [|reflexivity| |now left].
    + simpl. unfold DateTimeField_to_struct. simpl. now rewrite (Wdt dt Hwd Hwt).
    + simpl. unfold DateTimeField_parse_value. simpl.
      now rewrite (R _ _ (iso_read_datetime today dt Hwd Hwt)).
Qed.

Lemma scalar_round_trip_witness :
  exists wire back : value,
    to_struct iso (blank TimeField) (VTime half_past_noon) = Ok wire /\
    wire = written (VTime half_past_noon) /\
    parse_value iso (blank TimeField) wire = Ok back /\
    same back (VTime half_past_noon).
Proof.
  apply (scalar_round_trip iso (Date 2020 1 1) (blank TimeField) (VTime half_past_noon)).
  - unfold writes_iso. split_all; intros; reflexivity.
  - intros s dt H. unfold iso. cbn [rt_parse]. now rewrite H.
  - reflexivity.
  - reflexivity.
  - reflexivity.
  - discriminate.
  - reflexivity.
Defined.

(** What the three fields write, and what they read in it. *)
Example times_and_dates_in_iso :
  to_struct iso (blank TimeField) (VTime half_past_noon)
    = Ok (VStr "12:30:00.000120-01:30") /\
  parse_value iso (blank TimeField) (VStr "12:30:00.000120-01:30")
    = Ok (VTime half_past_noon) /\
  to_struct iso (blank DateField) (VDate (Date 2020 2 29)) = Ok (VStr "2020-02-29") /\
  parse_value iso (blank DateField) (VStr "2020-02-29") = Ok (VDate (Date 2020 2 29)) /\
  to_struct iso (blank DateTimeField) noon = Ok (VStr "2020-01-01T12:30:00") /\
  parse_value iso (blank DateTimeField) (VStr "2020-01-01T12:30:00") = Ok noon /\
  to_struct iso (blank DateField) noon = Ok (VStr "2020-01-01") /\
  parse_value iso (blank DateField) (VStr "2020-01-01") = Ok (VDate (Date 2020 1 1)).
Proof. split_all; reflexivity. Qed.

Lemma get_materializes_default_once_witness :
  exists self2 : field,
    __get__ bare int_with_default (Some alan) Person = (Ok (Value (VInt 18)), self2) /\
    memory self2 = <[_cache_key alan := VInt 18]> (memory int_with_default) /\
    (forall owner', __get__ bare self2 (Some alan) owner' = (Ok (Value (VInt 18)), self2)) /\
    (forall (later : field) (stored : value) (owner' : model_class),
       memory later !! _cache_key alan = Some stored ->
       _finish_initialization bare later (type_of alan) = (Ok tt, later) ->
       __get__ bare later (Some alan) owner' = (Ok (Value stored), later)).
Proof.
  exact (get_materializes_default_once bare int_with_default alan Person eq_refl).
Defined.

(** * More of the code *)

(** ** Paths of lazy types *)

Lemma split_cons (sep : ascii) (s : string) :
  exists w ws, split sep s = w :: ws.
Proof.
  induction s as [|c s (w & ws & IH)]; simpl.
  - now exists EmptyString, [].
  - destruct (Ascii.eqb c sep); [now eexists _, _|].
    rewrite IH. now eexists _, _.
Qed.

Lemma split_app (sep : ascii) (a b : string) :
  split sep (a +:+ String sep b) = split sep a ++ split sep b.
Proof.
  induction a as [|c a IH]; simpl.
  - now rewrite Ascii.eqb_refl.
  - destruct (Ascii.eqb c sep); [now rewrite IH|].
    rewrite IH. destruct (split_cons sep a) as (w & ws & ->). reflexivity.
Qed.

Lemma split_no_dot (s : string) :
  has_dot s = false -> split "."%char s = [s].
Proof.
  induction s as [|c s IH]; simpl; [reflexivity|].
  intros H. apply orb_false_iff in H. destruct H as [Hc Hs].
  rewrite Hc, (IH Hs). reflexivity.
Qed.

Lemma join_cons (sep w w' : string) (ws : list string) :
  join sep (w :: w' :: ws) = w +:+ sep +:+ join sep (w' :: ws).
Proof. reflexivity. Qed.

Lemma join_split (sep : ascii) (s : string) :
  join (String sep EmptyString) (split sep s) = s.
Proof.
  induction s as [|c s IH]; simpl; [reflexivity|].
  destruct (split_cons sep s) as (w & ws & Hw). rewrite Hw in *.
  destruct (Ascii.eqb c sep) eqn:Hc.
  - apply Ascii.eqb_eq in Hc. subst c. rewrite join_cons, IH. reflexivity.
  - destruct ws as [|w' ws].
    + simpl in *. now rewrite IH.
    + rewrite join_cons. rewrite join_cons in IH. rewrite <- IH. reflexivity.
Qed.

Lemma pop_snoc {A : Type} (l : list A) (x : A) : pop (l ++ [x]) = Ok (x, l).
Proof. unfold pop. rewrite rev_app_distr. simpl. now rewrite rev_involutive. Qed.

Lemma startswith_no_dot (s : string) :
  has_dot s = false -> startswith "."%char s = false.
Proof.
  destruct s as [|c s]; simpl; [reflexivity|].
  intros H. apply orb_false_iff in H. tauto.
Qed.

Lemma _get_modules_one_dot (rest base_module : string) :
  startswith "."%char rest = false ->
  _get_modules (String "."%char rest) base_module = Ok (split "."%char rest).
Proof.
  intros Hs. unfold _get_modules. simpl.
  rewrite (lstrip_not_startswith _ _ Hs).
  replace (Z.max 0 (Z.of_nat (S (String.length rest)) - Z.of_nat (String.length rest) - 1))
    with 0 by lia.
  destruct (Z.of_nat (length (split "."%char base_module)) <? 0) eqn:Hlt;
    [apply Z.ltb_lt in Hlt; lia|].
  reflexivity.
Qed.

(** X1.  A name without a dot, alone or behind one dot, is a type of the
    module that declares the owner: [_evaluate_path] answers the module of
    the owner and the name, and [evaluate] looks the name up in that
    module. *)
Theorem bare_name_is_in_the_owner_module (rt : runtime) (type_name : string)
    (owner : model_class) :
  has_dot type_name = false ->
  _evaluate_path type_name owner = Ok (cls_module owner, type_name) /\
  _evaluate_path (String "."%char type_name) owner = Ok (cls_module owner, type_name) /\
  evaluate rt type_name owner = _import rt (cls_module owner) type_name /\
  evaluate rt (String "."%char type_name) owner = _import rt (cls_module owner) type_name.
Proof.
  intros Hd.
  assert (H1 : _evaluate_path type_name owner = Ok (cls_module owner, type_name)).
  { unfold _evaluate_path.
    rewrite (_get_modules_absolute _ _ (startswith_no_dot _ Hd)), (split_no_dot _ Hd).
    reflexivity. }
  assert (H2 : _evaluate_path (String "."%char type_name) owner
               = Ok (cls_module owner, type_name)).
  { unfold _evaluate_path.
    rewrite (_get_modules_one_dot _ _ (startswith_no_dot _ Hd)), (split_no_dot _ Hd).
    reflexivity. }
  split_all; auto; unfold evaluate; [rewrite H1 | rewrite H2]; reflexivity.
Qed.

Lemma bare_name_is_in_the_owner_module_witness :
  _evaluate_path "Car" Person = Ok (cls_module Person, "Car") /\
  _evaluate_path ".Car" Person = Ok (cls_module Person, "Car") /\
  evaluate bare "Car" Person = _import bare (cls_module Person) "Car" /\
  evaluate bare ".Car" Person = _import bare (cls_module Person) "Car".
Proof. exact (bare_name_is_in_the_owner_module bare "Car" Person eq_refl). Defined.

(** X2.  An absolute path, a module path that is not empty and does not
    start with a dot, a dot, and a name without dots, is split at its last
    dot, whoever the owner is: the module path comes back as it was
    written. *)
Theorem absolute_path_splits_at_the_last_dot (module type_name : string)
    (owner : model_class) :
  module <> EmptyString ->
  startswith "."%char module = false ->
  has_dot type_name = false ->
  _evaluate_path (module +:+ String "."%char type_name) owner = Ok (module, type_name).
Proof.
  intros Hne Hs Hd. unfold _evaluate_path.
  assert (Hstart : startswith "."%char (module +:+ String "."%char type_name) = false).
  { destruct module as [|c m]; [congruence | exact Hs]. }
  rewrite (_get_modules_absolute _ _ Hstart), split_app, (split_no_dot _ Hd).
  simpl. rewrite pop_snoc. simpl.
  change "." with (String "."%char EmptyString). rewrite join_split.
  destruct (String.eqb module EmptyString) eqn:He; [|reflexivity].
  apply String.eqb_eq in He. congruence.
Qed.

Lemma absolute_path_splits_at_the_last_dot_witness :
  _evaluate_path ("app.models" +:+ String "."%char "Car") Person = Ok ("app.models", "Car").
Proof.
  apply (absolute_path_splits_at_the_last_dot "app.models" "Car" Person).
  - discriminate.
  - reflexivity.
  - reflexivity.
Defined.

(** X3.  A path of two dots or more, followed by a path that does not
    start with a dot: each dot after the first drops one trailing segment
    of the module of the owner, the segments of the path follow what is
    left, and a path with more such dots than the module has segments is a
    [ValueError]. *)
Theorem relative_path_climbs (n : nat) (rest base_module : string) :
  startswith "."%char rest = false ->
  _get_modules (dots (S (S n)) +:+ rest) base_module =
    if (length (split "."%char base_module) <? S n)%nat
    then Raise (ValueError ("Can't evaluate path '" +:+ (dots (S (S n)) +:+ rest) +:+ "'"))
    else Ok (firstn (length (split "."%char base_module) - S n)
               (split "."%char base_module)
             ++ split "."%char rest).
Proof. intros Hs. exact (_get_modules_relative n rest base_module Hs). Qed.

Lemma relative_path_climbs_witness :
  _get_modules (dots 3 +:+ "other.Car") "app.models" =
    if (length (split "."%char "app.models") <? 2)%nat
    then Raise (ValueError ("Can't evaluate path '" +:+ (dots 3 +:+ "other.Car") +:+ "'"))
    else Ok (firstn (length (split "."%char "app.models") - 2)
               (split "."%char "app.models")
             ++ split "."%char "other.Car").
Proof. exact (relative_path_climbs 1 "other.Car" "app.models" eq_refl). Defined.

(** ** Lazy types, resolved *)

Lemma resolve_Ok (rt : runtime) (owner : model_class) (ts ts' : list type_entry) :
  resolve rt owner ts = Ok ts' ->
  Forall2 (resolved_from rt owner) ts ts' /\ Forall (fun t => is_lazy t = false) ts'.
Proof.
  unfold resolve. revert ts'. induction ts as [|t ts IH]; simpl; intros ts' H.
  - inversion H. split; constructor.
  - destruct t as [c|path|]; simpl in H.
    + destruct (mapM _ ts) as [us|e] eqn:Hus; simpl in H; [|discriminate].
      inversion H; subst. destruct (IH us eq_refl). split; constructor; simpl; auto.
    + destruct (evaluate rt path owner) as [c|e] eqn:Hc; simpl in H; [|discriminate].
      destruct (mapM _ ts) as [us|e] eqn:Hus; simpl in H; [|discriminate].
      inversion H; subst. destruct (IH us eq_refl). split; constructor; simpl; eauto.
    + destruct (mapM _ ts) as [us|e] eqn:Hus; simpl in H; [|discriminate].
      inversion H; subst. destruct (IH us eq_refl). split; constructor; simpl; auto.
Qed.

(** X4.  [_finish_initialization] of a list field or an embedded field
    replaces every [_LazyType] of its types by the class its path
    evaluates to against the owner, keeps the other entries in their
    places, and changes nothing else; when one path does not evaluate, the
    field is left as it was, with its placeholders.  The fields of the
    other classes, map fields apart, are left as they are. *)
Theorem finish_resolves_every_lazy_type (rt : runtime) (self : field)
    (owner : model_class) :
  let r := _finish_initialization rt self owner in
  (cls self = ListField \/ cls self = DerivedListField ->
     match fst r with
     | Ok _ => exists ts,
         Forall2 (resolved_from rt owner) (items_types self) ts /\
         Forall (fun t => is_lazy t = false) ts /\
         snd r = set_items_types ts self
     | Raise _ => snd r = self
     end) /\
  (cls self = EmbeddedField ->
     match fst r with
     | Ok _ => exists ts,
         Forall2 (resolved_from rt owner) (embedded_types self) ts /\
         Forall (fun t => is_lazy t = false) ts /\
         snd r = set_embedded_types ts self
     | Raise _ => snd r = self
     end) /\
  (cls self <> ListField -> cls self <> DerivedListField ->
   cls self <> EmbeddedField -> cls self <> MapField ->
     r = (Ok tt, self)).
Proof.
  intros r. subst r.
  destruct self as [c m rq h n vs nm d et it iv oe sf fl kf vf].
  split_all.
  - intros [Hc|Hc]; simpl in Hc; subst c; simpl;
      destruct (resolve rt owner it) as [ts|e] eqn:Hr; simpl; try reflexivity;
      destruct (resolve_Ok _ _ _ _ Hr); eauto.
  - intros Hc; simpl in Hc; subst c; simpl.
    destruct (resolve rt owner et) as [ts|e] eqn:Hr; simpl; try reflexivity.
    destruct (resolve_Ok _ _ _ _ Hr); eauto.
  - simpl. intros H1 H2 H3 H4. destruct c; try reflexivity; congruence.
Qed.

(** X5.  Lazy types are resolved once: after [_finish_initialization] has
    succeeded, a second call, with the same owner or another, succeeds and
    leaves the field exactly as the first call left it. *)
Theorem finish_is_idempotent (rt : runtime) (self self' : field)
    (owner owner' : model_class) :
  _finish_initialization rt self owner = (Ok tt, self') ->
  _finish_initialization rt self' owner' = (Ok tt, self').
Proof. apply _finish_initialization_again. Qed.

Lemma finish_is_idempotent_witness :
  _finish_initialization app (set_embedded_types [Class (Model Car)] lazy_car) Car
  = (Ok tt, set_embedded_types [Class (Model Car)] lazy_car).
Proof.
  exact (finish_is_idempotent app lazy_car
           (set_embedded_types [Class (Model Car)] lazy_car) Person Car eq_refl).
Defined.

(** ** Assignment and reading together *)

Lemma parse_value_set_memory (rt : runtime) (m : gmap positive value) (self : field)
    (v : value) :
  parse_value rt (set_memory m self) v = parse_value rt self v.
Proof. destruct self as [c ? ? ? ? ? ? ? ? ? ? ? ? ? ? ?]. destruct c; reflexivity. Qed.

Lemma validate_set_memory (rt : runtime) (m : gmap positive value) (self : field)
    (v : value) :
  validate rt (set_memory m self) v = validate rt self v.
Proof. destruct self as [c ? ? ? ? ? ? ? ? ? ? ? ? ? ? ?]. destruct c; reflexivity. Qed.

Lemma set_Ok (rt : runtime) (self self' : field) (obj : instance) (raw : value) :
  __set__ rt self obj raw = (Ok tt, self') ->
  exists self1 parsed,
    _finish_initialization rt self (type_of obj) = (Ok tt, self1) /\
    parse_value rt self1 raw = Ok parsed /\
    validate rt self1 parsed = Ok tt /\
    self' = set_memory (<[_cache_key obj := parsed]> (memory self1)) self1.
Proof.
  unfold __set__. intros H.
  destruct (_finish_initialization rt self (type_of obj)) as [[[]|e] self1];
    [|discriminate].
  destruct (parse_value rt self1 raw) as [parsed|e] eqn:Hp; [|discriminate].
  destruct (validate rt self1 parsed) as [[]|e] eqn:Hv; [|discriminate].
  inversion H; subst. exists self1, parsed. split_all; auto.
Qed.

(** X6.  What was assigned is what is read: after [__set__] has succeeded,
    the field holds for the instance the value that its [parse_value]
    makes of the assigned one, that value passes [validate], and
    [__get__] returns it and changes nothing. *)
Theorem get_after_set (rt : runtime) (self self' : field) (obj : instance)
    (raw : value) (owner : model_class) :
  __set__ rt self obj raw = (Ok tt, self') ->
  exists parsed,
    parse_value rt self' raw = Ok parsed /\
    validate rt self' parsed = Ok tt /\
    memory self' !! _cache_key obj = Some parsed /\
    __get__ rt self' (Some obj) owner = (Ok (Value parsed), self').
Proof.
  intros H. destruct (set_Ok _ _ _ _ _ H) as (self1 & parsed & Hf & Hp & Hv & ->).
  pose proof (_finish_initialization_again rt self _ (type_of obj) _ Hf) as Hagain.
  exists parsed. split_all.
  - now rewrite parse_value_set_memory.
  - now rewrite validate_set_memory.
  - now rewrite memory_set_memory, lookup_insert_eq.
  - rewrite (get_stored rt _ obj owner parsed).
    + now rewrite _finish_initialization_set_memory, Hagain.
    + now rewrite memory_set_memory, lookup_insert_eq.
Qed.

Lemma get_after_set_witness :
  exists parsed,
    parse_value bare (snd (__set__ bare (blank IntField) alan (VStr "42"))) (VStr "42")
      = Ok parsed /\
    validate bare (snd (__set__ bare (blank IntField) alan (VStr "42"))) parsed = Ok tt /\
    memory (snd (__set__ bare (blank IntField) alan (VStr "42"))) !! _cache_key alan
      = Some parsed /\
    __get__ bare (snd (__set__ bare (blank IntField) alan (VStr "42"))) (Some alan) Person
      = (Ok (Value parsed), snd (__set__ bare (blank IntField) alan (VStr "42"))).
Proof.
  exact (get_after_set bare (blank IntField)
           (snd (__set__ bare (blank IntField) alan (VStr "42")))
           alan (VStr "42") Person eq_refl).
Defined.

(** X7.  Instances do not share values: whatever an assignment to one
    instance or a read of it does, raise or not, the field holds for every
    other instance what it held before. *)
Theorem other_instances_are_untouched (rt : runtime) (self : field)
    (obj other : instance) (raw : value) (owner : model_class) :
  _cache_key obj <> _cache_key other ->
  memory (snd (__set__ rt self obj raw)) !! _cache_key other
    = memory self !! _cache_key other /\
  memory (snd (__get__ rt self (Some obj) owner)) !! _cache_key other
    = memory self !! _cache_key other.
Proof.
  intros Hne.
  assert (Hset : forall s v, memory (snd (__set__ rt s obj v)) !! _cache_key other
                             = memory s !! _cache_key other).
  { intros s v. unfold __set__.
    pose proof (_finish_initialization_memory rt s (type_of obj)) as Hm.
    destruct (_finish_initialization rt s (type_of obj)) as [[[]|e] s1];
      simpl in *; [|now rewrite Hm].
    destruct (parse_value rt s1 v) as [parsed|e]; simpl; [|now rewrite Hm].
    destruct (validate rt s1 parsed) as [[]|e]; simpl; [|now rewrite Hm].
    rewrite memory_set_memory, lookup_insert_ne by exact Hne. now rewrite Hm. }
  split; [apply Hset|].
  unfold __get__.
  pose proof (_finish_initialization_memory rt self (type_of obj)) as Hm.
  destruct (_finish_initialization rt self (type_of obj)) as [[[]|e] s1];
    simpl in *; [|now rewrite Hm].
  unfold _check_value.
  destruct (memory s1 !! _cache_key obj) as [stored|] eqn:Hs.
  - rewrite Hs. simpl. now rewrite Hm.
  - pose proof (Hset s1 (get_default_value s1)) as Hd.
    destruct (__set__ rt s1 obj (get_default_value s1)) as [[[]|e] s2]; simpl in *.
    + destruct (memory s2 !! _cache_key obj); simpl; now rewrite Hd, Hm.
    + now rewrite Hd, Hm.
Qed.

Lemma other_instances_are_untouched_witness :
  memory (snd (__set__ bare (blank IntField) alan (VStr "42"))) !! _cache_key grace
    = memory (blank IntField) !! _cache_key grace /\
  memory (snd (__get__ bare (blank IntField) (Some alan) Person)) !! _cache_key grace
    = memory (blank IntField) !! _cache_key grace.
Proof.
  apply (other_instances_are_untouched bare (blank IntField) alan grace (VStr "42") Person).
  discriminate.
Defined.

(** ** Casts *)

(** Follows an equation [... = Ok w] through the tests and the calls of
    the left side. *)
Ltac follow H :=
  repeat match type of H with
         | (if ?c then _ else _) = _ => destruct c eqn:?; simpl in H
         | bind ?x _ = _ => destruct x eqn:?; simpl in H
         end;
  try discriminate H; inversion H; subst.

(** X8.  Parsing twice is parsing once: for a field that is not a list, a
    map or an embedded field, a value that [parse_value] has returned is
    returned as it is when it is parsed again; so a value read from the
    field can be assigned back and is stored unchanged. *)
Theorem parse_value_is_idempotent (rt : runtime) (self : field) (v w : value) :
  atomic (cls self) = true ->
  parse_value rt self v = Ok w ->
  parse_value rt self w = Ok w.
Proof.
  intros Ha H. destruct self as [c m r h n vs nm d et it iv oe sf fl kf vf].
  destruct c; try discriminate Ha; simpl in *;
    try (inversion H; subst; reflexivity).
  - (* integer *)
    unfold IntField_parse_value in *.
    destruct v as [| | |[]| | | | | | | | |]; simpl in H;
      try discriminate; try (inversion H; subst; reflexivity).
    destruct (int_of_string s); [inversion H; subst; reflexivity | discriminate].
  - (* boolean *)
    unfold BoolField_parse_value in *.
    destruct v; simpl in H; inversion H; subst; reflexivity.
  - (* time *)
    unfold TimeField_parse_value in *.
    destruct v; simpl in H; try (inversion H; subst; reflexivity);
      destruct (rt_parse rt _); simpl in H; inversion H; subst; reflexivity.
  - (* date *)
    unfold DateField_parse_value in *.
    destruct v; simpl in H; try (inversion H; subst; reflexivity);
      destruct (rt_parse rt _); simpl in H; inversion H; subst; reflexivity.
  - (* datetime *)
    unfold DateTimeField_parse_value in *.
    destruct v; simpl in H; follow H; reflexivity.
Qed.

Lemma parse_value_is_idempotent_witness :
  parse_value bare (blank IntField) (VInt 7) = Ok (VInt 7).
Proof.
  exact (parse_value_is_idempotent bare (blank IntField) (VStr " 7 ") (VInt 7)
           eq_refl eq_refl).
Defined.

(** X9.  What an integer, boolean, time, date or datetime field has
    parsed is of its types: [_validate_against_types] accepts every value
    that [parse_value] returns, so in an assignment to such a field the
    type check of [validate] never raises. *)
Theorem cast_values_pass_the_type_check (rt : runtime) (self : field) (v w : value) :
  casting (cls self) = true ->
  parse_value rt self v = Ok w ->
  _validate_against_types self w = Ok tt.
Proof.
  intros Ha H. destruct self as [c m r h n vs nm d et it iv oe sf fl kf vf].
  destruct c; try discriminate Ha; simpl in *.
  - unfold IntField_parse_value in H.
    destruct v as [| | |[]| | | | | | | | |]; simpl in H;
      try discriminate; try (inversion H; subst; reflexivity).
    destruct (int_of_string s); [inversion H; subst; reflexivity | discriminate].
  - unfold BoolField_parse_value in H.
    destruct v; simpl in H; inversion H; subst; reflexivity.
  - unfold TimeField_parse_value in H.
    destruct v; simpl in H; try (inversion H; subst; reflexivity);
      destruct (rt_parse rt _); simpl in H; inversion H; subst; reflexivity.
  - unfold DateField_parse_value in H.
    destruct v; simpl in H; try (inversion H; subst; reflexivity);
      destruct (rt_parse rt _); simpl in H; inversion H; subst; reflexivity.
  - unfold DateTimeField_parse_value in H.
    destruct v; simpl in H; follow H; reflexivity.
Qed.

Lemma cast_values_pass_the_type_check_witness :
  _validate_against_types (blank BoolField) (VBool true) = Ok tt.
Proof.
  exact (cast_values_pass_the_type_check bare (blank BoolField) (VStr "false")
           (VBool true) eq_refl eq_refl).
Defined.

(** X10.  [IntField.parse_value] returns [None] for [None] and an integer
    for everything else it returns; what it raises is a [BadTypeError] for
    the value and the type [int], or the [TypeError] or [OverflowError] of
    [int]: a [ValueError] never leaves it. *)
Theorem int_field_outcomes (v : value) :
  match IntField_parse_value v with
  | Ok w => (v = VNone /\ w = VNone) \/ (v <> VNone /\ exists z, w = VInt z)
  | Raise e =>
      e = BadTypeError v (Some [Class int_]) false \/ e = TypeError \/ e = OverflowError
  end.
Proof.
  unfold IntField_parse_value.
  destruct v as [| | |[]| | | | | | | | |]; simpl; auto;
    try (right; split; [discriminate | eauto]).
  destruct (int_of_string s); simpl; auto.
  right. split; [discriminate | eauto].
Qed.

(** ** Lists *)

Lemma mapM_cons {A B : Type} (f : A -> result B) (x : A) (xs : list A) :
  mapM f (x :: xs) = let! y := f x in let! ys := mapM f xs in Ok (y :: ys).
Proof. reflexivity. Qed.

Lemma mapM_Forall2 {A B : Type} (f : A -> result B) (xs : list A) (ys : list B) :
  Forall2 (fun x y => f x = Ok y) xs ys -> mapM f xs = Ok ys.
Proof.
  induction 1 as [|x y xs ys Hx _ IH]; [reflexivity|].
  now rewrite mapM_cons, Hx, IH.
Qed.

Lemma mapM_same {A : Type} (f : A -> result A) (xs : list A) :
  Forall (fun x => f x = Ok x) xs -> mapM f xs = Ok xs.
Proof.
  induction 1 as [|x xs Hx _ IH]; [reflexivity|].
  now rewrite mapM_cons, Hx, IH.
Qed.

Lemma finish_list_field (rt : runtime) (self self1 : field) (owner : model_class) :
  cls self = ListField ->
  _finish_initialization rt self owner = (Ok tt, self1) ->
  exists ts, self1 = set_items_types ts self.
Proof.
  intros Hc H. destruct self as [c m r h n vs nm d et it iv oe sf fl kf vf].
  simpl in Hc. subst c. simpl in H.
  destruct (resolve rt owner it) as [ts|e]; inversion H; subst. now exists ts.
Qed.

(** X11.  A list field without a default that was never assigned reads as
    the empty collection, never as [None]: [__get__] returns an empty
    [ModelCollection] when the validators of the field accept it, and
    raises what the first of them raises when they do not. *)
Theorem unassigned_list_reads_empty (rt : runtime) (self self1 : field)
    (obj : instance) (owner : model_class) :
  cls self = ListField ->
  _default self = NotSet ->
  memory self !! _cache_key obj = None ->
  _finish_initialization rt self (type_of obj) = (Ok tt, self1) ->
  fst (__get__ rt self (Some obj) owner) =
    match forM (fun validator => run_validator validator (VCollection []))
               (validators self) with
    | Ok _ => Ok (Value (VCollection []))
    | Raise e => Raise e
    end.
Proof.
  intros Hc Hd Hm Hf.
  pose proof (_finish_initialization_again rt self _ (type_of obj) _ Hf) as Hagain.
  destruct (finish_list_field _ _ _ _ Hc Hf) as (ts & ->).
  destruct self as [c m r h n vs nm d et it iv oe sf fl kf vf].
  simpl in Hc, Hd, Hm. subst c d. cbn [set_items_types] in Hf, Hagain.
  unfold __get__. rewrite Hf. unfold _check_value. cbn [memory type_of].
  rewrite Hm. unfold __set__. rewrite Hagain. simpl.
  unfold BaseField_validate, _validate_with_custom_validators. simpl.
  destruct (forM _ vs) as [[]|e]; simpl; [|reflexivity].
  now rewrite lookup_insert_eq.
Qed.

Lemma unassigned_list_reads_empty_witness :
  fst (__get__ bare names_field (Some alan) Person) =
    match forM (fun validator => run_validator validator (VCollection []))
               (validators names_field) with
    | Ok _ => Ok (Value (VCollection []))
    | Raise e => Raise e
    end.
Proof.
  exact (unassigned_list_reads_empty bare names_field names_field alan Person
           eq_refl eq_refl eq_refl eq_refl).
Defined.

(** X12.  What [ListField.parse_value] leaves alone.  A value that is
    false, [None] or the empty list among them, is replaced by the default
    of the field; a true value that is not a list, a tuple for one, is
    returned as it is, its items not looked at; and a list whose items all
    are of the item types is returned item for item. *)
Theorem list_parse_value_keeps_typed_items (rt : runtime) (self : field) :
  cls self = ListField ->
  (forall values, truthy values = false ->
     parse_value rt self values = Ok (get_default_value self)) /\
  (forall values, truthy values = true -> issubclass (type_ values) list_ = false ->
     parse_value rt self values = Ok values) /\
  (forall x xs, Forall (fun y => isinstance y (items_types self) = Ok true) (x :: xs) ->
     parse_value rt self (VList (x :: xs)) = Ok (VList (x :: xs))).
Proof.
  intros Hc. split_all.
  - intros values Ht. rewrite (parse_value_eq _ _ _ Hc).
    unfold ListField_parse_value. now rewrite Ht.
  - intros values Ht Hl. rewrite (parse_value_eq _ _ _ Hc).
    unfold ListField_parse_value. now rewrite Ht, Hl.
  - intros x xs Hall. rewrite (parse_value_eq _ _ _ Hc).
    unfold ListField_parse_value. simpl iter. cbn [truthy length Nat.eqb negb].
    cbn [type_ issubclass pyclass_eqb orb negb bind].
    rewrite (mapM_same (_cast_value rt self) (x :: xs)); [reflexivity|].
    eapply Forall_impl; [exact Hall|].
    intros y Hy. unfold _cast_value. now rewrite Hy.
Qed.

Lemma list_parse_value_keeps_typed_items_witness :
  (forall values, truthy values = false ->
     parse_value bare names_field values = Ok (get_default_value names_field)) /\
  (forall values, truthy values = true -> issubclass (type_ values) list_ = false ->
     parse_value bare names_field values = Ok values) /\
  (forall x xs, Forall (fun y => isinstance y (items_types names_field) = Ok true) (x :: xs) ->
     parse_value bare names_field (VList (x :: xs)) = Ok (VList (x :: xs))).
Proof. exact (list_parse_value_keeps_typed_items bare names_field eq_refl). Defined.

Lemma to_struct_list (rt : runtime) (self : field) (v : value) :
  cls self = ListField ->
  to_struct rt self v =
    if truthy v || negb (_omit_empty self) then
      let! xs := iter v in
      let! ys := mapM (_elem_to_struct rt) xs in Ok (VList ys)
    else Ok VNone.
Proof. destruct self. simpl. now intros ->. Qed.

Lemma _elem_to_struct_plain (rt : runtime) (v : value) :
  is_instance v = false -> _elem_to_struct rt v = Ok v.
Proof. now destruct v. Qed.

(** X13.  [ListField.to_struct] of a list or a tuple without model
    instances is the list of the same items.  The empty list is written
    as [None] when the field omits empty lists, and as the empty list
    when it does not; [None] itself is written as [None] by a field that
    omits empty lists and is a [TypeError] for one that does not. *)
Theorem list_to_struct_of_plain_items (rt : runtime) (self : field) :
  cls self = ListField ->
  (forall xs, Forall (fun x => is_instance x = false) xs ->
     xs <> [] \/ _omit_empty self = false ->
     to_struct rt self (VList xs) = Ok (VList xs) /\
     to_struct rt self (VTuple xs) = Ok (VList xs)) /\
  (_omit_empty self = true ->
     to_struct rt self (VList []) = Ok VNone /\ to_struct rt self VNone = Ok VNone) /\
  (_omit_empty self = false -> to_struct rt self VNone = Raise TypeError).
Proof.
  intros Hc. split_all.
  - intros xs Hall Hne.
    assert (Hm : mapM (_elem_to_struct rt) xs = Ok xs).
    { apply mapM_same. eapply Forall_impl; [exact Hall|].
      intros x Hx. now apply _elem_to_struct_plain. }
    assert (Ht : negb (Nat.eqb (length xs) 0) || negb (_omit_empty self) = true).
    { destruct Hne as [Hne| ->]; [|apply orb_true_r].
      destruct xs; [congruence | reflexivity]. }
    rewrite !(to_struct_list _ _ _ Hc). cbn [truthy iter]. rewrite Ht.
    cbn [bind]. rewrite Hm. now split.
  - intros Ho. rewrite !(to_struct_list _ _ _ Hc). simpl. rewrite Ho. now split.
  - intros Ho. rewrite !(to_struct_list _ _ _ Hc). simpl. now rewrite Ho.
Qed.

Lemma list_to_struct_of_plain_items_witness :
  (forall xs, Forall (fun x => is_instance x = false) xs ->
     xs <> [] \/ _omit_empty names_field = false ->
     to_struct bare names_field (VList xs) = Ok (VList xs) /\
     to_struct bare names_field (VTuple xs) = Ok (VList xs)) /\
  (_omit_empty names_field = true ->
     to_struct bare names_field (VList []) = Ok VNone /\
     to_struct bare names_field VNone = Ok VNone) /\
  (_omit_empty names_field = false -> to_struct bare names_field VNone = Raise TypeError).
Proof. exact (list_to_struct_of_plain_items bare names_field eq_refl). Defined.

Lemma validate_list (rt : runtime) (self : field) (v : value) :
  cls self = ListField ->
  validate rt self v =
    do! BaseField_validate self v in
    let! xs := iter v in
    forM (ListField_validate_single_value self) xs.
Proof. destruct self. simpl. now intros ->. Qed.

Lemma validate_single_value_Ok (self : field) (x : value) :
  ListField_validate_single_value self x = Ok tt <->
  (forall w, In w (item_validators self) -> run_validator w x = Ok tt) /\
  (items_types self = [] \/ isinstance x (items_types self) = Ok true).
Proof.
  unfold ListField_validate_single_value.
  destruct (forM _ (item_validators self)) as [[]|e] eqn:Hv; simpl.
  - pose proof (proj1 (forM_Ok _ _) Hv) as Hv'.
    destruct (items_types self) as [|t ts] eqn:Hi; cbn [length Nat.eqb].
    + intuition.
    + destruct (isinstance x (t :: ts)) as [[]|e]; cbn [bind negb];
        intuition (try discriminate; try congruence).
  - split; [discriminate|]. intros [Hall _].
    apply (proj2 (forM_Ok _ _)) in Hall. congruence.
Qed.

(** X14.  When a list is valid.  [ListField.validate] accepts a list
    exactly when the validators of the field accept the list, the item
    validators accept every item, and every item is of the item types, if
    the field has any. *)
Theorem list_is_valid_iff_items_are (rt : runtime) (self : field) (xs : list value) :
  cls self = ListField ->
  (validate rt self (VList xs) = Ok tt <->
   (forall w, In w (validators self) -> run_validator w (VList xs) = Ok tt) /\
   (forall x, In x xs ->
      (forall w, In w (item_validators self) -> run_validator w x = Ok tt) /\
      (items_types self = [] \/ isinstance x (items_types self) = Ok true))).
Proof.
  intros Hc. rewrite (validate_list _ _ _ Hc).
  assert (Hb : BaseField_validate self (VList xs)
               = forM (fun w => run_validator w (VList xs)) (validators self)).
  { destruct self as [c m r h n vs nm d et it iv oe sf fl kf vf].
    simpl in Hc. subst c. reflexivity. }
  rewrite Hb. cbn [iter].
  destruct (forM _ (validators self)) as [[]|e] eqn:Hv; cbn [bind].
  - pose proof (proj1 (forM_Ok _ _) Hv) as Hv'. rewrite forM_Ok. split.
    + intros H. split; [exact Hv'|]. intros x Hx. apply validate_single_value_Ok. auto.
    + intros [_ H] x Hx. apply validate_single_value_Ok. auto.
  - split; [discriminate|]. intros [Hall _]. apply (proj2 (forM_Ok _ _)) in Hall. congruence.
Qed.

Lemma list_is_valid_iff_items_are_witness :
  validate bare names_field (VList [VStr "Alan"]) = Ok tt <->
  (forall w, In w (validators names_field) ->
     run_validator w (VList [VStr "Alan"]) = Ok tt) /\
  (forall x, In x [VStr "Alan"] ->
     (forall w, In w (item_validators names_field) -> run_validator w x = Ok tt) /\
     (items_types names_field = [] \/ isinstance x (items_types names_field) = Ok true)).
Proof. exact (list_is_valid_iff_items_are bare names_field [VStr "Alan"] eq_refl). Defined.

(** ** Lists of fields *)

Lemma parse_value_derived (rt : runtime) (self f : field) (v : value) :
  cls self = DerivedListField -> _field self = Some f ->
  parse_value rt self v =
    match (let! xs := iter v in mapM (parse_value rt f) xs) with
    | Ok ys => Ok (VList ys)
    | Raise TypeError => Raise (BadTypeError v (types f) true)
    | Raise e => Raise e
    end.
Proof. destruct self. simpl. now intros -> ->. Qed.

Lemma to_struct_derived (rt : runtime) (self f : field) (v : value) :
  cls self = DerivedListField -> _field self = Some f ->
  to_struct rt self v =
    if truthy v || negb (_omit_empty self) then
      let! xs := iter v in
      let! ys := mapM (to_struct rt f) xs in Ok (VList ys)
    else Ok VNone.
Proof. destruct self. simpl. now intros -> ->. Qed.

(** X15.  [DerivedListField.parse_value] never raises [TypeError]: a
    value that cannot be iterated, [None] among them, and a list with an
    item at which the [parse_value] of the inner field raises [TypeError],
    both give a [BadTypeError] of the list kind for the whole value and
    the types of the inner field. *)
Theorem derived_list_reports_bad_type (rt : runtime) (self f : field) :
  cls self = DerivedListField ->
  _field self = Some f ->
  (forall v, parse_value rt self v <> Raise TypeError) /\
  (forall v, iter v = Raise TypeError ->
     parse_value rt self v = Raise (BadTypeError v (types f) true)) /\
  parse_value rt self VNone = Raise (BadTypeError VNone (types f) true) /\
  (forall x xs, parse_value rt f x = Raise TypeError ->
     parse_value rt self (VList (x :: xs))
       = Raise (BadTypeError (VList (x :: xs)) (types f) true)).
Proof.
  intros Hc Hf. split_all.
  - intros v. rewrite (parse_value_derived _ _ _ _ Hc Hf).
    destruct (let! xs := iter v in mapM (parse_value rt f) xs) as [ys|[]];
      discriminate.
  - intros v Hv. rewrite (parse_value_derived _ _ _ _ Hc Hf). now rewrite Hv.
  - now rewrite (parse_value_derived _ _ _ _ Hc Hf).
  - intros x xs Hx. rewrite (parse_value_derived _ _ _ _ Hc Hf).
    cbn [iter bind]. now rewrite mapM_cons, Hx.
Qed.

Lemma derived_list_reports_bad_type_witness :
  (forall v, parse_value bare ages_field v <> Raise TypeError) /\
  (forall v, iter v = Raise TypeError ->
     parse_value bare ages_field v
       = Raise (BadTypeError v (types (blank IntField)) true)) /\
  parse_value bare ages_field VNone
    = Raise (BadTypeError VNone (types (blank IntField)) true) /\
  (forall x xs, parse_value bare (blank IntField) x = Raise TypeError ->
     parse_value bare ages_field (VList (x :: xs))
       = Raise (BadTypeError (VList (x :: xs)) (types (blank IntField)) true)).
Proof.
  exact (derived_list_reports_bad_type bare ages_field (blank IntField) eq_refl eq_refl).
Defined.

(** X16.  A list of fields is written and read back item by item: when
    the inner field reads back what it writes for every item of a list,
    [DerivedListField.to_struct] gives a list from which [parse_value]
    gives the list again.  The empty list of a field that omits empty
    lists is the exception: it is written as [None], and [parse_value]
    refuses [None]. *)
Theorem derived_list_round_trip (rt : runtime) (self f : field) (xs : list value) :
  cls self = DerivedListField ->
  _field self = Some f ->
  Forall (fun x => exists w, to_struct rt f x = Ok w /\ parse_value rt f w = Ok x) xs ->
  (xs <> [] \/ _omit_empty self = false ->
     exists ws, to_struct rt self (VList xs) = Ok (VList ws) /\
                parse_value rt self (VList ws) = Ok (VList xs)) /\
  (xs = [] -> _omit_empty self = true ->
     to_struct rt self (VList xs) = Ok VNone /\
     parse_value rt self VNone = Raise (BadTypeError VNone (types f) true)).
Proof.
  intros Hc Hf Hall.
  assert (Hws : exists ws, Forall2 (fun x w => to_struct rt f x = Ok w) xs ws /\
                           Forall2 (fun w x => parse_value rt f w = Ok x) ws xs).
  { induction Hall as [|x xs (w & Hw & Hx) _ (ws & H1 & H2)].
    - exists []. split; constructor.
    - exists (w :: ws). split; constructor; auto. }
  destruct Hws as (ws & H1 & H2). split.
  - intros Hne. exists ws. split.
    + rewrite (to_struct_derived _ _ _ _ Hc Hf). cbn [truthy iter].
      assert (Ht : negb (Nat.eqb (length xs) 0) || negb (_omit_empty self) = true).
      { destruct Hne as [Hne| ->]; [|apply orb_true_r].
        destruct xs; [congruence | reflexivity]. }
      rewrite Ht. cbn [bind]. now rewrite (mapM_Forall2 _ _ _ H1).
    + rewrite (parse_value_derived _ _ _ _ Hc Hf). cbn [iter bind].
      now rewrite (mapM_Forall2 _ _ _ H2).
  - intros -> Ho. split.
    + rewrite (to_struct_derived _ _ _ _ Hc Hf). simpl. now rewrite Ho.
    + now rewrite (parse_value_derived _ _ _ _ Hc Hf).
Qed.

Lemma derived_list_round_trip_witness :
  (([VInt 41; VInt 7] : list value) <> [] \/ _omit_empty ages_field = false ->
     exists ws, to_struct bare ages_field (VList [VInt 41; VInt 7]) = Ok (VList ws) /\
                parse_value bare ages_field (VList ws) = Ok (VList [VInt 41; VInt 7])) /\
  (([VInt 41; VInt 7] : list value) = [] -> _omit_empty ages_field = true ->
     to_struct bare ages_field (VList [VInt 41; VInt 7]) = Ok VNone /\
     parse_value bare ages_field VNone
       = Raise (BadTypeError VNone (types (blank IntField)) true)).
Proof.
  apply (derived_list_round_trip bare ages_field (blank IntField) [VInt 41; VInt 7]).
  - reflexivity.
  - reflexivity.
  - repeat constructor; eexists; split; reflexivity.
Defined.

(** ** Construction *)

Lemma BaseField___init___Ok (rt : runtime) (self f : field) (kw : kwargs) :
  BaseField___init__ rt self kw = Ok f <->
  _validate_name (configured self kw) = Ok tt /\
  match kw_default kw with
  | Default d => validate rt (configured self kw) d = Ok tt
  | NotSet => True
  end /\
  f = set_default (kw_default kw) (configured self kw).
Proof.
  unfold BaseField___init__. fold (configured self kw).
  destruct (_validate_name (configured self kw)) as [[]|e]; cbn [bind].
  - destruct (kw_default kw) as [|d].
    + cbn [bind]. split; [intros [= <-]; auto | intros (_ & _ & ->); reflexivity].
    + destruct (validate rt (configured self kw) d) as [[]|e]; cbn [bind].
      * split; [intros [= <-]; auto | intros (_ & _ & ->); reflexivity].
      * split; [discriminate | intros (_ & H & _); discriminate].
  - split; [discriminate | intros (H & _); discriminate].
Qed.

Lemma name_tail_ends_with_hyphen (s : string) (after_word : bool) :
  ends_with_hyphen s = true -> name_tail after_word s = false.
Proof.
  revert after_word. induction s as [|c s IH]; intros after_word H; [discriminate|].
  destruct s as [|c' s'].
  - simpl in H. apply Ascii.eqb_eq in H. subst c. reflexivity.
  - change (ends_with_hyphen (String c (String c' s')))
      with (ends_with_hyphen (String c' s')) in H.
    cbn [name_tail].
    replace (String.eqb (String c' s') EmptyString) with false by reflexivity.
    rewrite andb_false_r.
    destruct (is_word c); [now apply IH|].
    destruct (Ascii.eqb c "-"%char); [now apply IH | reflexivity].
Qed.

Lemma name_tail_all_word (s : string) (after_word : bool) :
  all_word s = true -> name_tail after_word s = match s with
                                                 | EmptyString => after_word
                                                 | _ => true
                                                 end.
Proof.
  revert after_word. induction s as [|c s IH]; intros after_word H; [reflexivity|].
  simpl in H. apply andb_true_iff in H. destruct H as [Hc Hs].
  cbn [name_tail].
  assert (Hn : Ascii.eqb c (ascii_of_nat 10) = false).
  { destruct (Ascii.eqb c (ascii_of_nat 10)) eqn:E; [|reflexivity].
    apply Ascii.eqb_eq in E. subst c. discriminate Hc. }
  rewrite Hn, Hc. cbn [andb]. rewrite (IH true Hs). now destruct s.
Qed.

(** X17.  Names.  A constructor refuses, with [ValueError] and before it
    looks at the default, a name that is empty, that does not start with
    a letter or an underscore of ASCII, or that ends with a hyphen; it
    accepts such a letter or an underscore followed by word characters. *)
Theorem names_are_checked_first (rt : runtime) (self : field) (kw : kwargs) (n : string) :
  kw_name kw = Some n ->
  (match n with
   | EmptyString => True
   | String c rest => is_letter c = false \/ ends_with_hyphen rest = true
   end ->
   BaseField___init__ rt self kw = Raise (ValueError "Wrong name")) /\
  (match n with
   | EmptyString => False
   | String c rest => is_letter c = true /\ all_word rest = true
   end ->
   _validate_name (configured self kw) = Ok tt).
Proof.
  intros Hn.
  assert (Hname : name (configured self kw) = Some n).
  { unfold configured. rewrite <- Hn. now destruct self. }
  split.
  - intros Hbad. unfold BaseField___init__. fold (configured self kw).
    unfold _validate_name. rewrite Hname.
    assert (Hm : name_matches n = false).
    { destruct n as [|c rest]; [reflexivity|]. simpl.
      destruct Hbad as [-> | He]; [reflexivity|].
      rewrite (name_tail_ends_with_hyphen _ _ He). apply andb_false_r. }
    now rewrite Hm.
  - intros Hgood. unfold _validate_name. rewrite Hname.
    destruct n as [|c rest]; [contradiction|]. destruct Hgood as [Hc Hr].
    simpl. rewrite Hc, (name_tail_all_word _ _ Hr). now destruct rest.
Qed.

Lemma names_are_checked_first_witness :
  BaseField___init__ bare (blank StringField)
    (Kwargs false false None NoValidators (Default (VInt 1)) (Some "first-name-"))
    = Raise (ValueError "Wrong name") /\
  _validate_name (configured (blank StringField)
                    (Kwargs false false None NoValidators NotSet (Some "first_name2")))
    = Ok tt.
Proof.
  split.
  - apply (names_are_checked_first bare (blank StringField)
             (Kwargs false false None NoValidators (Default (VInt 1)) (Some "first-name-"))
             "first-name-" eq_refl).
    right. reflexivity.
  - apply (names_are_checked_first bare (blank StringField)
             (Kwargs false false None NoValidators NotSet (Some "first_name2"))
             "first_name2" eq_refl).
    split; reflexivity.
Defined.

(** A name may end with a newline, and may hold the letters of Latin-1;
    a hyphen between word characters is good, the other signs are not. *)
Example names_as_the_pattern_reads_them :
  name_matches ("a" +:+ String (ascii_of_nat 10) EmptyString) = true /\
  name_matches ("a-" +:+ String (ascii_of_nat 10) EmptyString) = false /\
  name_matches ("a" +:+ String (ascii_of_nat 233) EmptyString) = true /\
  name_matches ("a" +:+ String (ascii_of_nat 215) EmptyString) = false /\
  name_matches "first-name" = true /\
  name_matches "first name" = false /\
  name_matches "1st" = false.
Proof. split_all; reflexivity. Qed.

Lemma cls_configured (self : field) (kw : kwargs) : cls (configured self kw) = cls self.
Proof. now destruct self. Qed.

(** X18.  A list field cannot have [None] as its default:
    [ListField.__init__] validates the default as a list, so with
    [default=None] it always raises, [RequiredFieldError] when the field
    was declared required and [TypeError], for iterating over [None],
    when it was not (the name being good and no validator given). *)
Theorem list_default_cannot_be_null (rt : runtime) (items_types' : items_arg)
    (item_validators' : validators_arg) (omit_empty : bool) (kw : kwargs) :
  kw_default kw = Default VNone ->
  (forall f, ListField___init__ rt ListField items_types' item_validators' omit_empty kw
             <> Ok f) /\
  (kw_name kw = None -> kw_validators kw = NoValidators ->
   ListField___init__ rt ListField items_types' item_validators' omit_empty kw
   = Raise (if kw_required kw then RequiredFieldError else TypeError)).
Proof.
  intros Hd. unfold ListField___init__.
  set (s := set_item_validators (as_list item_validators')
              (_assign_types items_types' (blank ListField))).
  assert (Hv : forall e0, validate rt (configured s kw) VNone = Ok e0 -> False).
  { intros e0. rewrite (validate_list rt _ _ (cls_configured s kw)).
    destruct (BaseField_validate (configured s kw) VNone) as [[]|e]; discriminate. }
  split.
  - intros f H.
    destruct (BaseField___init__ rt s kw) as [f0|e] eqn:Hb; [|discriminate].
    apply BaseField___init___Ok in Hb. rewrite Hd in Hb.
    destruct Hb as (_ & Hb & _). exact (Hv tt Hb).
  - intros Hn Hvs. unfold BaseField___init__. fold (configured s kw).
    rewrite Hd. unfold _validate_name.
    assert (Hname : name (configured s kw) = None).
    { unfold configured. rewrite Hn. reflexivity. }
    rewrite Hname. cbn [bind].
    rewrite (validate_list rt _ _ (cls_configured s kw)).
    unfold configured. rewrite Hvs. destruct (kw_required kw), (kw_nullable kw);
      reflexivity.
Qed.

Lemma list_default_cannot_be_null_witness :
  (forall f, ListField___init__ bare ListField NoItems NoValidators false
               (Kwargs false false None NoValidators (Default VNone) None)
             <> Ok f) /\
  (kw_name (Kwargs false false None NoValidators (Default VNone) None) = None ->
   kw_validators (Kwargs false false None NoValidators (Default VNone) None)
     = NoValidators ->
   ListField___init__ bare ListField NoItems NoValidators false
     (Kwargs false false None NoValidators (Default VNone) None)
   = Raise (if kw_required (Kwargs false false None NoValidators (Default VNone) None)
            then RequiredFieldError else TypeError)).
Proof.
  exact (list_default_cannot_be_null bare NoItems NoValidators false
           (Kwargs false false None NoValidators (Default VNone) None) eq_refl).
Defined.

Lemma validate_map (rt : runtime) (self : field) (v : value) :
  cls self = MapField ->
  validate rt self v =
    do! BaseField_validate self v in
    if is_None v then Ok tt
    else
      let! its := items v in
      forM (fun kv =>
              do! match _key_field self with
                  | Some f => validate rt f (fst kv)
                  | None => Raise AttributeError
                  end in
              match _value_field self with
              | Some f => validate rt f (snd kv)
              | None => Raise AttributeError
              end) its.
Proof. destruct self. simpl. now intros ->. Qed.

(** X19.  A map field cannot be given a mapping with items as its
    default: [MapField.__init__] lets [BaseField.__init__] validate the
    default before it has assigned the key field and the value field, so
    on the first item [validate] finds no key field and the constructor
    raises [AttributeError] (the name being good and no validator
    given). *)
Theorem map_default_cannot_have_items (rt : runtime) (key_field value_field : field)
    (kw : kwargs) (item : value * value) (rest : list (value * value)) :
  kw_default kw = Default (VDict (item :: rest)) ->
  (forall f, MapField___init__ rt key_field value_field kw <> Ok f) /\
  (kw_name kw = None -> kw_validators kw = NoValidators ->
   MapField___init__ rt key_field value_field kw = Raise AttributeError).
Proof.
  intros Hd. unfold MapField___init__.
  set (s := blank MapField).
  assert (Hk : _key_field (configured s kw) = None) by reflexivity.
  assert (Hv : validate rt (configured s kw) (VDict (item :: rest)) =
               do! BaseField_validate (configured s kw) (VDict (item :: rest)) in
               Raise AttributeError).
  { rewrite (validate_map rt _ _ (cls_configured s kw)). now rewrite Hk. }
  split.
  - intros f H.
    destruct (BaseField___init__ rt s kw) as [f0|e] eqn:Hb; [|discriminate].
    apply BaseField___init___Ok in Hb. rewrite Hd in Hb.
    destruct Hb as (_ & Hb & _). rewrite Hv in Hb.
    destruct (BaseField_validate _ _) as [[]|e]; discriminate.
  - intros Hn Hvs. unfold BaseField___init__. fold (configured s kw).
    rewrite Hd, Hv. unfold _validate_name.
    assert (Hname : name (configured s kw) = None).
    { unfold configured. rewrite Hn. reflexivity. }
    rewrite Hname. cbn [bind].
    unfold configured. rewrite Hvs. reflexivity.
Qed.

Lemma map_default_cannot_have_items_witness :
  (forall f, MapField___init__ bare (blank StringField) (blank StringField)
               (Kwargs false false None NoValidators
                  (Default (VDict [(VStr "a", VStr "b")])) None)
             <> Ok f) /\
  (kw_name (Kwargs false false None NoValidators
              (Default (VDict [(VStr "a", VStr "b")])) None) = None ->
   kw_validators (Kwargs false false None NoValidators
                    (Default (VDict [(VStr "a", VStr "b")])) None) = NoValidators ->
   MapField___init__ bare (blank StringField) (blank StringField)
     (Kwargs false false None NoValidators
        (Default (VDict [(VStr "a", VStr "b")])) None)
   = Raise AttributeError).
Proof.
  exact (map_default_cannot_have_items bare (blank StringField) (blank StringField)
           (Kwargs false false None NoValidators
              (Default (VDict [(VStr "a", VStr "b")])) None)
           (VStr "a", VStr "b") [] eq_refl).
Defined.

Lemma validate_set_default (rt : runtime) (d : default) (self : field) (v : value) :
  validate rt (set_default d self) v = validate rt self v.
Proof. destruct self as [c ? ? ? ? ? ? ? ? ? ? ? ? ? ? ?]. destruct c; reflexivity. Qed.

Lemma BaseField_validate_not_required (self : field) (v : value) (omit_empty : bool) :
  BaseField_validate self v = Ok tt ->
  BaseField_validate (set_omit_empty omit_empty (set_required false self)) v = Ok tt.
Proof.
  destruct self as [c m r h n vs nm d et it iv oe sf fl kf vf].
  unfold BaseField_validate, _check_types, _check_against_required,
    _validate_against_types, isinstance_types, _validate_with_custom_validators.
  cbn [set_omit_empty set_required cls required nullable validators].
  change (types (Field c m false h n vs nm d et it iv omit_empty sf fl kf vf))
    with (types (Field c m r h n vs nm d et it iv oe sf fl kf vf)).
  destruct (types _) as [ts|]; cbn [bind]; [|discriminate].
  destruct (match c with GenericField => _ | _ => _ end) as [[]|e];
    cbn [bind]; [|discriminate].
  rewrite andb_false_r.
  destruct (is_None v && r); cbn [bind]; [discriminate|]. tauto.
Qed.

Lemma validate_not_required (rt : runtime) (self : field) (v : value) (omit_empty : bool) :
  cls self = ListField \/ cls self = DerivedListField ->
  validate rt self v = Ok tt ->
  validate rt (set_omit_empty omit_empty (set_required false self)) v = Ok tt.
Proof.
  intros Hc H.
  pose proof (BaseField_validate_not_required self v omit_empty) as Hb.
  destruct self as [c m r h n vs nm d et it iv oe sf fl kf vf].
  cbn [set_omit_empty set_required] in *. simpl in Hc.
  destruct Hc as [-> | ->]; simpl in H |- *;
    destruct (BaseField_validate (Field _ m r h n vs nm d et it iv oe sf fl kf vf) v)
      as [[]|e]; try discriminate; rewrite (Hb eq_refl); exact H.
Qed.

(** X20.  The default of a field is valid for the field: whichever
    constructor has built a field with a default, [validate] of the field
    accepts that default.  (A list field is built not required and a map
    field gets its key and value fields after the default was validated;
    the default is valid for the field as it is in the end.) *)
Theorem default_of_a_built_field_is_valid (rt : runtime) (f : field) (d : value) :
  built rt f ->
  _default f = Default d ->
  validate rt f d = Ok tt.
Proof.
  assert (Base : forall s kw f0,
            BaseField___init__ rt s kw = Ok f0 ->
            (_default f0 = kw_default kw) /\
            (forall d0, kw_default kw = Default d0 -> validate rt f0 d0 = Ok tt) /\
            cls f0 = cls s /\ _key_field f0 = _key_field s).
  { intros s kw f0 H. apply BaseField___init___Ok in H.
    destruct H as (_ & Hv & ->). split_all.
    - now destruct s.
    - intros d0 Hd. rewrite Hd in Hv. now rewrite validate_set_default.
    - now destruct s.
    - now destruct s. }
  intros Hb Hd.
  destruct Hb as [(c & kw & H)|[(sf & kw & H)|[(sf & kw & H)|[(sf & kw & H)|
                 [(ms & kw & H)|[(its & ivs & oe & kw & H)|[(g & oe & kw & H)|
                 (kf & vf & kw & H)]]]]]]].
  - destruct (Base _ _ _ H) as (H1 & H2 & _). apply H2. congruence.
  - destruct (Base _ _ _ H) as (H1 & H2 & _). apply H2. congruence.
  - destruct (Base _ _ _ H) as (H1 & H2 & _). apply H2. congruence.
  - destruct (Base _ _ _ H) as (H1 & H2 & _). apply H2. congruence.
  - destruct (Base _ _ _ H) as (H1 & H2 & _). apply H2. congruence.
  - unfold ListField___init__ in H.
    destruct (BaseField___init__ rt _ kw) as [f0|e] eqn:Hf0; [|discriminate].
    cbn [bind] in H. inversion H; subst. clear H.
    destruct (Base _ _ _ Hf0) as (H1 & H2 & H3 & _).
    apply validate_not_required.
    + left. rewrite H3. reflexivity.
    + apply H2. rewrite <- H1. now destruct f0.
  - unfold DerivedListField___init__ in H.
    destruct (BaseField___init__ rt _ kw) as [f0|e] eqn:Hf0; [|discriminate].
    cbn [bind] in H. inversion H; subst. clear H.
    destruct (Base _ _ _ Hf0) as (H1 & H2 & H3 & _).
    apply validate_not_required.
    + right. rewrite H3. reflexivity.
    + apply H2. rewrite <- H1. now destruct f0.
  - unfold MapField___init__ in H.
    destruct (BaseField___init__ rt _ kw) as [f0|e] eqn:Hf0; [|discriminate].
    cbn [bind] in H. inversion H; subst. clear H.
    destruct (Base _ _ _ Hf0) as (H1 & H2 & H3 & H4).
    assert (Hd0 : kw_default kw = Default d) by (rewrite <- H1; now destruct f0).
    specialize (H2 d Hd0).
    simpl in H3, H4.
    assert (Hc : cls (set_value_field (Some vf) (set_key_field (Some kf) f0)) = MapField)
      by (destruct f0; exact H3).
    assert (Hbv : BaseField_validate
                    (set_value_field (Some vf) (set_key_field (Some kf) f0)) d
                  = BaseField_validate f0 d) by now destruct f0.
    rewrite (validate_map rt _ _ Hc), Hbv.
    rewrite (validate_map rt f0 d H3), H4 in H2.
    destruct (BaseField_validate f0 d) as [[]|e]; [|discriminate].
    cbn [bind] in H2 |- *.
    destruct (is_None d); [reflexivity|].
    destruct (items d) as [[|item rest]|e]; cbn [bind] in H2 |- *;
      [reflexivity | discriminate | discriminate].
Qed.

Lemma default_of_a_built_field_is_valid_witness :
  validate bare int_with_default (VInt 18) = Ok tt.
Proof.
  apply (default_of_a_built_field_is_valid bare int_with_default (VInt 18)).
  - left. exists IntField, (Kwargs false false None NoValidators (Default (VInt 18)) None).
    reflexivity.
  - reflexivity.
Defined.

(** ** Maps *)

Lemma dict_insert_fresh (k v : value) (d : list (value * value)) :
  (forall k' v', In (k', v') d -> py_eq k k' = false) ->
  dict_insert k v d = d ++ [(k, v)].
Proof.
  induction d as [|[k' v'] d IH]; simpl; intros H; [reflexivity|].
  rewrite (H k' v' (or_introl eq_refl)). f_equal. apply IH.
  intros k'' v'' Hin. apply (H k'' v''). now right.
Qed.

Lemma py_eq_strings (k k' : value) :
  is_str k = true -> is_str k' = true -> k <> k' -> py_eq k k' = false.
Proof.
  destruct k, k'; try discriminate. intros _ _ Hne. simpl.
  destruct (String.eqb s s0) eqn:E; [|reflexivity].
  apply String.eqb_eq in E. congruence.
Qed.

Lemma hashable_string (k : value) : is_str k = true -> hashable k = true.
Proof. now destruct k. Qed.

(** A mapping whose keys are different strings is rebuilt as it is. *)
Lemma dict_of_string_keys (seen its : list (value * value)) :
  Forall (fun kv => is_str (fst kv) = true) (seen ++ its) ->
  List.NoDup (map fst (seen ++ its)) ->
  fold_left (fun acc kv =>
               let! d := acc in
               if hashable (fst kv) then Ok (dict_insert (fst kv) (snd kv) d)
               else Raise TypeError) its (Ok seen)
  = Ok (seen ++ its).
Proof.
  revert seen. induction its as [|[k v] its IH]; intros seen Hs Hn; simpl.
  - now rewrite app_nil_r.
  - assert (Hk : is_str k = true).
    { rewrite List.Forall_forall in Hs. apply (Hs (k, v)). apply in_or_app. right. now left. }
    rewrite (hashable_string _ Hk).
    rewrite dict_insert_fresh.
    + replace (seen ++ (k, v) :: its) with ((seen ++ [(k, v)]) ++ its) in *
        by (rewrite <- app_assoc; reflexivity).
      now apply IH.
    + intros k' v' Hin. apply py_eq_strings; auto.
      * rewrite List.Forall_forall in Hs. apply (Hs (k', v')). apply in_or_app. now left.
      * intros ->. rewrite map_app in Hn. simpl in Hn.
        apply List.NoDup_remove_2 in Hn. apply Hn. apply in_or_app. left.
        apply (in_map fst _ _ Hin).
Qed.

Lemma parse_value_map (rt : runtime) (self kf vf : field) (v : value) :
  cls self = MapField -> _key_field self = Some kf -> _value_field self = Some vf ->
  parse_value rt self v =
    if is_None v then Ok VNone
    else
      let! its := items v in
      let! its' := mapM (fun kv =>
                           let! k := parse_value rt kf (fst kv) in
                           let! x := parse_value rt vf (snd kv) in
                           Ok (k, x)) its in
      dict its'.
Proof. destruct self. simpl. now intros -> -> ->. Qed.

(** X21.  [MapField.parse_value] keeps a mapping as it is written: when
    the keys are different strings and the key field and the value field
    leave every key and every value as it is, the result is the same
    mapping, its items in the same order.  [None] stays [None], and a
    value that is neither [None] nor a mapping is an [AttributeError],
    for it has no [items]. *)
Theorem map_parse_value_keeps_the_mapping (rt : runtime) (self kf vf : field) :
  cls self = MapField ->
  _key_field self = Some kf ->
  _value_field self = Some vf ->
  (forall its,
     Forall (fun kv => is_str (fst kv) = true) its ->
     List.NoDup (map fst its) ->
     Forall (fun kv => parse_value rt kf (fst kv) = Ok (fst kv) /\
                       parse_value rt vf (snd kv) = Ok (snd kv)) its ->
     parse_value rt self (VDict its) = Ok (VDict its)) /\
  parse_value rt self VNone = Ok VNone /\
  (forall v, is_None v = false -> is_dict v = false ->
     parse_value rt self v = Raise AttributeError).
Proof.
  intros Hc Hk Hv. split_all.
  - intros its Hs Hn Hid.
    rewrite (parse_value_map _ _ _ _ _ Hc Hk Hv). cbn [is_None items bind].
    rewrite (mapM_same _ its).
    + cbn [bind]. unfold dict.
      now rewrite (dict_of_string_keys [] its Hs Hn).
    + eapply Forall_impl; [exact Hid|].
      intros [k x] [H1 H2]. simpl in *. now rewrite H1, H2.
  - now rewrite (parse_value_map _ _ _ _ _ Hc Hk Hv).
  - intros v Hn Hd. rewrite (parse_value_map _ _ _ _ _ Hc Hk Hv), Hn.
    destruct v; try discriminate; reflexivity.
Qed.

Lemma map_parse_value_keeps_the_mapping_witness :
  (forall its,
     Forall (fun kv => is_str (fst kv) = true) its ->
     List.NoDup (map fst its) ->
     Forall (fun kv => parse_value bare (blank StringField) (fst kv) = Ok (fst kv) /\
                       parse_value bare (blank StringField) (snd kv) = Ok (snd kv)) its ->
     parse_value bare labels_field (VDict its) = Ok (VDict its)) /\
  parse_value bare labels_field VNone = Ok VNone /\
  (forall v, is_None v = false -> is_dict v = false ->
     parse_value bare labels_field v = Raise AttributeError).
Proof.
  exact (map_parse_value_keeps_the_mapping bare labels_field
           (blank StringField) (blank StringField) eq_refl eq_refl eq_refl).
Defined.

(** X22.  When a mapping is valid.  [MapField.validate] accepts a mapping
    exactly when the checks of [BaseField.validate] accept the mapping,
    the key field accepts every key and the value field every value. *)
Theorem map_is_valid_iff_items_are (rt : runtime) (self kf vf : field)
    (its : list (value * value)) :
  cls self = MapField ->
  _key_field self = Some kf ->
  _value_field self = Some vf ->
  (validate rt self (VDict its) = Ok tt <->
   BaseField_validate self (VDict its) = Ok tt /\
   forall k x, In (k, x) its -> validate rt kf k = Ok tt /\ validate rt vf x = Ok tt).
Proof.
  intros Hc Hk Hv. rewrite (validate_map _ _ _ Hc), Hk, Hv.
  destruct (BaseField_validate self (VDict its)) as [[]|e]; cbn [bind is_None items].
  - rewrite forM_Ok. split.
    + intros H. split; [reflexivity|]. intros k x Hin.
      specialize (H (k, x) Hin). simpl in H.
      destruct (validate rt kf k) as [[]|e]; [|discriminate]. auto.
    + intros [_ H] [k x] Hin. destruct (H k x Hin) as [H1 H2].
      simpl. now rewrite H1.
  - split; [discriminate | intros [H _]; discriminate].
Qed.

Lemma map_is_valid_iff_items_are_witness :
  validate bare labels_field (VDict [(VStr "a", VStr "b")]) = Ok tt <->
  BaseField_validate labels_field (VDict [(VStr "a", VStr "b")]) = Ok tt /\
  forall k x, In (k, x) [(VStr "a", VStr "b")] ->
              validate bare (blank StringField) k = Ok tt /\
              validate bare (blank StringField) x = Ok tt.
Proof.
  exact (map_is_valid_iff_items_are bare labels_field (blank StringField)
           (blank StringField) [(VStr "a", VStr "b")] eq_refl eq_refl eq_refl).
Defined.

(** ** Validators *)

(** X23.  The bounds of [Min] and [Max] on integers: [Min(m)] accepts the
    integers from [m] on and [Max(m)] those up to [m]; with [exclusive]
    the bound itself is refused too.  What is refused is refused with a
    [MinValidationError] or a [MaxValidationError] that carries the value,
    the bound and the flag. *)
Theorem min_max_bounds (m v : Z) (exclusive : bool) :
  (Min.validate (Min.Make (VInt m) exclusive) (VInt v) = Accepts <->
     if exclusive then m < v else m <= v) /\
  (Max.validate (Max.Make (VInt m) exclusive) (VInt v) = Accepts <->
     if exclusive then v < m else v <= m) /\
  (Min.validate (Min.Make (VInt m) exclusive) (VInt v) = Accepts \/
   Min.validate (Min.Make (VInt m) exclusive) (VInt v)
     = Rejects (MinValidationError (VInt v) (VInt m) exclusive)) /\
  (Max.validate (Max.Make (VInt m) exclusive) (VInt v) = Accepts \/
   Max.validate (Max.Make (VInt m) exclusive) (VInt v)
     = Rejects (MaxValidationError (VInt v) (VInt m) exclusive)).
Proof.
  unfold Min.validate, Max.validate, gt. simpl.
  destruct (Z.ltb_spec v m), (Z.ltb_spec m v), (Z.eqb_spec v m), exclusive; simpl;
    split_all; auto;
    split; intros; try discriminate; try reflexivity; try lia; exfalso; lia.
Qed.

Lemma run_validator_fails (validate : value -> verdict) (v : value) (e : exn) :
  validate v = Fails e -> e <> AttributeError ->
  run_validator (validator_of validate) v = Raise e.
Proof.
  intros Hf He. unfold run_validator, validator_of. cbn [validate_method].
  rewrite Hf. cbn [outcome]. destruct e; congruence.
Qed.

Lemma lt_None (b : value) : lt VNone b = Raise TypeError /\ lt b VNone = Raise TypeError.
Proof. split; [reflexivity|]. destruct b; reflexivity. Qed.

(** X24.  [None] has no order.  [Min] and [Max] raise [TypeError] on
    [None], whatever the bound.  So the checks of a field that holds
    such a validator first and is neither required nor nullable end in
    [TypeError] for [None]; when the field is nullable the validator is
    not asked and [None] is valid. *)
Theorem bounds_do_not_take_null (self : field) (bound : value) (exclusive : bool)
    (rest : list validator) :
  types self <> None ->
  required self = false ->
  (validators self = validator_of (Min.validate (Min.Make bound exclusive)) :: rest \/
   validators self = validator_of (Max.validate (Max.Make bound exclusive)) :: rest) ->
  Min.validate (Min.Make bound exclusive) VNone = Fails TypeError /\
  Max.validate (Max.Make bound exclusive) VNone = Fails TypeError /\
  (nullable self = false -> BaseField_validate self VNone = Raise TypeError) /\
  (nullable self = true -> BaseField_validate self VNone = Ok tt).
Proof.
  intros Ht Hr Hv.
  assert (Hmin : Min.validate (Min.Make bound exclusive) VNone = Fails TypeError)
    by reflexivity.
  assert (Hmax : Max.validate (Max.Make bound exclusive) VNone = Fails TypeError).
  { unfold Max.validate, gt. simpl. now rewrite (proj2 (lt_None bound)). }
  split_all; auto.
  - intros Hn. unfold BaseField_validate, _check_types, _validate_against_types,
      _check_against_required, _validate_with_custom_validators.
    destruct (types self); [|congruence]. rewrite Hr, Hn. simpl.
    assert (Hgo : forM (fun validator => run_validator validator VNone) (validators self)
                  = Raise TypeError).
    { destruct Hv as [-> | ->]; cbn [forM];
        [rewrite (run_validator_fails _ _ _ Hmin) by discriminate
        |rewrite (run_validator_fails _ _ _ Hmax) by discriminate];
        reflexivity. }
    rewrite Hgo. now destruct (cls self).
  - intros Hn. unfold BaseField_validate, _check_types, _validate_against_types,
      _check_against_required, _validate_with_custom_validators.
    destruct (types self); [|congruence]. rewrite Hr, Hn. simpl.
    now destruct (cls self).
Qed.

Lemma bounds_do_not_take_null_witness :
  Min.validate (Min.Make (VInt 18) false) VNone = Fails TypeError /\
  Max.validate (Max.Make (VInt 18) false) VNone = Fails TypeError /\
  (nullable adult_age = false -> BaseField_validate adult_age VNone = Raise TypeError) /\
  (nullable adult_age = true -> BaseField_validate adult_age VNone = Ok tt).
Proof.
  apply (bounds_do_not_take_null adult_age (VInt 18) false []).
  - discriminate.
  - reflexivity.
  - left. reflexivity.
Defined.

(** A field with a lower bound reads as an error until it is assigned. *)
Example adult_age_unassigned :
  fst (__get__ bare adult_age (Some alan) Person) = Raise TypeError /\
  fst (__set__ bare adult_age alan (VInt 17))
    = Raise (ValidationError "MinValidationError") /\
  fst (__set__ bare adult_age alan (VStr "18")) = Ok tt.
Proof. split_all; reflexivity. Qed.

(** X25.  [Length]: a string, a list, a tuple or a mapping is accepted
    exactly when its length is within the bounds that are given; a length
    below the lower bound is a [MinLengthError], checked first, a length
    above the upper bound a [MaxLengthError]; a value without a length is
    a [TypeError]; and [Length()] without any bound is refused by the
    constructor. *)
Theorem length_bounds (self : Length.t) (v : value) :
  Length.__init__ None None
    = Raise (ValueError "Either 'minimum_value' or 'maximum_value' must be specified.") /\
  (forall minimum maximum, minimum <> None \/ maximum <> None ->
     Length.__init__ minimum maximum = Ok (Length.Make minimum maximum)) /\
  (forall e, len v = Raise e -> Length.validate self v = Fails TypeError) /\
  (forall n, len v = Ok n ->
     (Length.validate self v = Accepts <->
        (forall minimum, Length.minimum_value self = Some minimum -> minimum <= n) /\
        (forall maximum, Length.maximum_value self = Some maximum -> n <= maximum)) /\
     (forall minimum, Length.minimum_value self = Some minimum -> n < minimum ->
        Length.validate self v = Rejects (MinLengthError v minimum)) /\
     (forall maximum, Length.maximum_value self = Some maximum -> maximum < n ->
        (forall minimum, Length.minimum_value self = Some minimum -> minimum <= n) ->
        Length.validate self v = Rejects (MaxLengthError v maximum))).
Proof.
  split_all.
  - reflexivity.
  - intros [m|] [M|] [H|H]; try reflexivity; congruence.
  - intros e He. unfold Length.validate. destruct v; simpl in *; try discriminate; reflexivity.
  - intros n Hn. unfold Length.validate. rewrite Hn.
    destruct self as [[m|] [M|]]; simpl; split_all.
    all: try (intros ? [= <-]); try (intros ? [= <-]).
    all: try match goal with |- _ <-> _ => split end.
    all: repeat match goal with
                | |- context [?a <? ?b] =>
                    let E := fresh "E" in
                    destruct (a <? b) eqn:E;
                    [apply Z.ltb_lt in E | apply Z.ltb_ge in E]; simpl
                end.
    all: intros; try discriminate; try reflexivity; try lia.
    all: try (split; intros ? [= <-]; lia).
    all: try match goal with
             | H : _ /\ _ |- _ =>
                 let H1 := fresh in let H2 := fresh in
                 destruct H as [H1 H2];
                 try (specialize (H1 _ eq_refl)); try (specialize (H2 _ eq_refl)); lia
             end.
    all: try (match goal with H : forall minimum, Some _ = Some minimum -> _ |- _ =>
                specialize (H _ eq_refl) end; lia).
    all: try (split; intros; discriminate).
Qed.

(** X26.  [Enum] accepts a value (one that equals itself, so not a NaN)
    exactly when one of the choices equals it, and refuses every other
    value with an [EnumError] that carries the value and the choices; an
    [Enum] without choices refuses everything. *)
Theorem enum_accepts_the_choices (self : Enum.t) (v : value) :
  py_eq v v = true ->
  (Enum.validate self v = Accepts <->
     exists choice, In choice (Enum.choices self) /\ py_eq choice v = true) /\
  (Enum.validate self v = Accepts \/
   Enum.validate self v = Rejects (EnumError v (Enum.choices self))) /\
  Enum.validate (Enum.Make []) v = Rejects (EnumError v []).
Proof.
  intros _. unfold Enum.validate, contains. split_all.
  - destruct (existsb _ (Enum.choices self)) eqn:E; simpl.
    + apply existsb_exists in E. split; auto.
    + split; [discriminate|]. intros H. apply existsb_exists in H. congruence.
  - destruct (existsb _ (Enum.choices self)); simpl; auto.
  - reflexivity.
Qed.

Lemma enum_accepts_the_choices_witness :
  (Enum.validate (Enum.Make [VStr "red"; VStr "green"]) (VStr "green") = Accepts <->
     exists choice, In choice [VStr "red"; VStr "green"] /\
                    py_eq choice (VStr "green") = true) /\
  (Enum.validate (Enum.Make [VStr "red"; VStr "green"]) (VStr "green") = Accepts \/
   Enum.validate (Enum.Make [VStr "red"; VStr "green"]) (VStr "green")
     = Rejects (EnumError (VStr "green") [VStr "red"; VStr "green"])) /\
  Enum.validate (Enum.Make []) (VStr "green") = Rejects (EnumError (VStr "green") []).
Proof.
  apply (enum_accepts_the_choices (Enum.Make [VStr "red"; VStr "green"]) (VStr "green")).
  reflexivity.
Defined.

(** ** The schema *)

(** The keys that the validators write, one case each. *)
Ltac by_key key :=
  destruct (decide (key = "minimum")) as [->|];
  [|destruct (decide (key = "exclusiveMinimum")) as [->|];
    [|destruct (decide (key = "maximum")) as [->|];
      [|destruct (decide (key = "exclusiveMaximum")) as [->|];
        [|destruct (decide (key = "minItems")) as [->|];
          [|destruct (decide (key = "maxItems")) as [->|];
            [|destruct (decide (key = "minLength")) as [->|];
              [|destruct (decide (key = "maxLength")) as [->|]]]]]]]].

(** X27.  [Min] and [Max] in a schema: each writes its bound under its
    own key and the flag [True] under its exclusive key when it is
    exclusive; one that is not exclusive leaves the exclusive key as it
    found it, and no other key is touched.  So the two can be applied
    in either order, and applying one twice is applying it once. *)
Theorem bounds_in_the_schema (low : Min.t) (high : Max.t) (field_schema : schema) :
  Min.modify_schema low field_schema !! "minimum" = Some (Min.minimum_value low) /\
  Max.modify_schema high field_schema !! "maximum" = Some (Max.maximum_value high) /\
  Min.modify_schema low field_schema !! "exclusiveMinimum"
    = (if Min.exclusive low then Some (VBool true)
       else field_schema !! "exclusiveMinimum") /\
  Max.modify_schema high field_schema !! "exclusiveMaximum"
    = (if Max.exclusive high then Some (VBool true)
       else field_schema !! "exclusiveMaximum") /\
  (forall key : string, key <> "minimum" -> key <> "exclusiveMinimum" ->
     Min.modify_schema low field_schema !! key = field_schema !! key) /\
  (forall key : string, key <> "maximum" -> key <> "exclusiveMaximum" ->
     Max.modify_schema high field_schema !! key = field_schema !! key) /\
  Min.modify_schema low (Max.modify_schema high field_schema)
    = Max.modify_schema high (Min.modify_schema low field_schema) /\
  Min.modify_schema low (Min.modify_schema low field_schema)
    = Min.modify_schema low field_schema /\
  Max.modify_schema high (Max.modify_schema high field_schema)
    = Max.modify_schema high field_schema.
Proof.
  unfold Min.modify_schema, Max.modify_schema.
  destruct low as [m [|]], high as [M [|]]; cbn [Min.minimum_value Min.exclusive
    Max.maximum_value Max.exclusive]; split_all;
    try (intros key H1 H2); try (apply map_eq; intros key; by_key key);
    now simplify_map_eq.
Qed.
(** X28.  [Length] in a schema: the keys are [minItems] and [maxItems]
    when the schema has the type [array], [minLength] and [maxLength]
    otherwise; a bound is written under its key when it is given and is
    not zero, and is left out otherwise; no other key is touched.  The
    type of the schema stays, so applying [Length] twice is applying it
    once. *)
Theorem length_in_the_schema (self : Length.t) (field_schema : schema) :
  let out := Length.modify_schema self field_schema in
  let low := if Length.is_array field_schema then "minItems" else "minLength" in
  let high := if Length.is_array field_schema then "maxItems" else "maxLength" in
  out !! low
    = match Length.minimum_value self with
      | Some minimum => if minimum =? 0 then field_schema !! low else Some (VInt minimum)
      | None => field_schema !! low
      end /\
  out !! high
    = match Length.maximum_value self with
      | Some maximum => if maximum =? 0 then field_schema !! high else Some (VInt maximum)
      | None => field_schema !! high
      end /\
  (forall key : string, key <> low -> key <> high -> out !! key = field_schema !! key) /\
  Length.is_array out = Length.is_array field_schema /\
  Length.modify_schema self out = out.
Proof.
  intros out low high.
  assert (Hkeys : forall key : string, key <> low -> key <> high ->
                    out !! key = field_schema !! key).
  { intros key H1 H2. subst out low high. unfold Length.modify_schema.
    destruct self as [[m|] [M|]]; cbn [Length.minimum_value Length.maximum_value];
      repeat match goal with |- context [negb (?x =? 0)] => destruct (x =? 0) end;
      cbn [negb]; now simplify_map_eq. }
  assert (Harray : Length.is_array out = Length.is_array field_schema).
  { unfold Length.is_array. rewrite Hkeys; [reflexivity| |];
      subst low high; destruct (Length.is_array field_schema); discriminate. }
  split_all; auto.
  - subst out low high. unfold Length.modify_schema.
    destruct self as [[m|] [M|]]; cbn [Length.minimum_value Length.maximum_value];
      repeat match goal with |- context [negb (?x =? 0)] => destruct (x =? 0) end;
      cbn [negb]; destruct (Length.is_array field_schema); now simplify_map_eq.
  - subst out low high. unfold Length.modify_schema.
    destruct self as [[m|] [M|]]; cbn [Length.minimum_value Length.maximum_value];
      repeat match goal with |- context [negb (?x =? 0)] => destruct (x =? 0) end;
      cbn [negb]; destruct (Length.is_array field_schema); now simplify_map_eq.
  - unfold Length.modify_schema at 1. fold out. rewrite Harray.
    subst out. unfold Length.modify_schema.
    destruct self as [[m|] [M|]]; cbn [Length.minimum_value Length.maximum_value];
      repeat match goal with |- context [negb (?x =? 0)] => destruct (x =? 0) end;
      cbn [negb]; destruct (Length.is_array field_schema);
      apply map_eq; intros key; by_key key; now simplify_map_eq.
Qed.
